(** * Blood donation management API: the matching engine

    A shallow embedding of [services/matching_service.py] together with the
    parts of the repositories, the models and the matching router it relies
    on, followed by the properties of the matching engine.

    Conventions of the embedding.
    - Python [str] values are [string]s.  SQLite's [LOWER] folds A-Z only and
      is [Py.lower] on every text.  Python's [str.lower] and [str.strip]
      follow the Unicode tables: they are [Py.lower] and [PyStr.strip] on
      ASCII text, and two texts that [Py.lower] makes equal are also equal
      under [str.lower].  A property whose conclusion depends on more than
      that is stated for ASCII text ([ascii_text], [case_decided]).
    - Python [int]s are [Z].  An identifier reaches SQLite as a bound
      parameter, which [sqlite3] accepts up to 2^63 - 1 ([sqlite_max_int]);
      the lookups by identifier are those of identifiers within that range,
      and a property about an identifier that may not be stored is stated
      within it.
    - The match score is a Python [float] that only ever holds sums of the
      constants 0, 1, 4, 7, 10, 20, 30 and 40, all of them integers far
      below 2^53, on which double addition and [min] are exact: it is
      carried as a [Z].  The match rate is a quotient: the exact rational
      [Q] is carried, of which Python holds the double that two roundings
      give; what is stated of the rate is stated up to these roundings
      ([double_of]) or holds of the rounded value as well.
    - Exceptions are values of [Py.exn]; a fallible function returns a
      [Py.result].  [try ... except] blocks are handlers on that result.
    - The two SQLite tables are lists of rows, written in the order in which
      the repositories' [ORDER BY created_at DESC] yields them; a [WHERE]
      clause keeps a sublist.  Failures of the database connection are not
      part of the model, logging has no effect on results and is left out. *)

From Stdlib Require Import ZArith QArith Qabs String Ascii List Lia.
From stdpp Require Import base option list gmap strings fin_maps sets sorting pretty.

Local Open Scope string_scope.
Local Open Scope Z_scope.

(** ** Python primitives *)

Module Py.

(** The exception classes that can travel through the matching service. *)
Inductive exn : Type :=
| MatchingServiceError (msg : string)
| DonorRepositoryError (msg : string)
| BloodRequestRepositoryError (msg : string)
| ZeroDivisionError (msg : string).

(** [str(e)] *)
Definition str (e : exn) : string :=
  match e with
  | MatchingServiceError msg => msg
  | DonorRepositoryError msg => msg
  | BloodRequestRepositoryError msg => msg
  | ZeroDivisionError msg => msg
  end.

Inductive result (A : Type) : Type :=
| Ok (a : A)
| Raise (e : exn).
Arguments Ok {A} a.
Arguments Raise {A} e.

#[global] Instance result_ret : MRet result := fun A a => Ok a.
#[global] Instance result_bind : MBind result := fun A B f m =>
  match m with
  | Ok a => f a
  | Raise e => Raise e
  end.

#[global] Instance result_fmap : FMap result := fun A B f m =>
  match m with
  | Ok a => Ok (f a)
  | Raise e => Raise e
  end.

Definition is_ok {A} (m : result A) : bool :=
  match m with Ok _ => true | Raise _ => false end.

(** [except (DonorRepositoryError, BloodRequestRepositoryError)] *)
Definition is_repository_error (e : exn) : bool :=
  match e with
  | DonorRepositoryError _ | BloodRequestRepositoryError _ => true
  | _ => false
  end.

(** [try: body  except Exception as e: raise MatchingServiceError(prefix + str(e))] *)
Definition reraise {A} (prefix : string) (body : result A) : result A :=
  match body with
  | Ok a => Ok a
  | Raise e => Raise (MatchingServiceError (prefix ++ str e))
  end.

(** The two-handler block that closes every public method of the service:
    repository errors get [repo_prefix], anything else "Unexpected error: ". *)
Definition guarded {A} (repo_prefix : string) (body : result A) : result A :=
  match body with
  | Ok a => Ok a
  | Raise e =>
      if is_repository_error e
      then Raise (MatchingServiceError (repo_prefix ++ str e))
      else Raise (MatchingServiceError ("Unexpected error: " ++ str e))
  end.

(** Truth value of a [str] and of an [Optional[int]]. *)
Definition truthy_str (s : string) : bool :=
  match s with EmptyString => false | String _ _ => true end.

Definition truthy_opt_int (o : option Z) : bool :=
  match o with
  | None => false
  | Some k => negb (k =? 0)
  end.

(** SQLite's [LOWER], which folds A-Z and leaves every other byte; on ASCII
    text it is also [str.lower]. *)
Definition lower_ascii (c : ascii) : ascii :=
  let n := N_of_ascii c in
  if ((65 <=? n) && (n <=? 90))%N then ascii_of_N (n + 32) else c.

Fixpoint lower (s : string) : string :=
  match s with
  | EmptyString => EmptyString
  | String c s' => String (lower_ascii c) (lower s')
  end.

(** [sub in s] *)
Fixpoint contains (sub s : string) : bool :=
  String.prefix sub s ||
  match s with
  | EmptyString => false
  | String _ s' => contains sub s'
  end.

(** [l[:k]]: a negative bound counts from the end. *)
Definition slice_to {A} (l : list A) (k : Z) : list A :=
  if k <? 0
  then take (Z.to_nat (Z.of_nat (length l) + k)) l
  else take (Z.to_nat k) l.

(** [a / b] on two [int]s: the exact quotient, which Python rounds to the
    nearest double. *)
Definition truediv (a b : Z) : result Q :=
  if b =? 0
  then Raise (ZeroDivisionError "division by zero")
  else Ok (inject_Z a / inject_Z b)%Q.

(** [l.sort(key=key, reverse=True)]: the sort is stable, also when reversed,
    so the outcome is the one of a stable insertion sort that places an
    element before the first one whose key is not greater. *)
Section Sort.
Context {A K : Type} (lt : K -> K -> bool) (key : A -> K).

Fixpoint insert_desc (x : A) (l : list A) : list A :=
  match l with
  | [] => [x]
  | y :: ys =>
      if lt (key x) (key y) then y :: insert_desc x ys else x :: y :: ys
  end.

Fixpoint sort_desc (l : list A) : list A :=
  match l with
  | [] => []
  | x :: xs => insert_desc x (sort_desc xs)
  end.
End Sort.

(** Comparison of [(int, float)] tuples. *)
Definition pair_ltb (p q : Z * Z) : bool :=
  (p.1 <? q.1) || ((p.1 =? q.1) && (p.2 <? q.2)).

Definition pair_leb (p q : Z * Z) : bool := negb (pair_ltb q p).

End Py.

Import Py.

(** ** models/donor.py, models/blood_request.py *)

Definition valid_blood_groups : gset string :=
  {[ "A+"; "A-"; "B+"; "B-"; "AB+"; "AB-"; "O+"; "O-" ]}.

Definition valid_urgency_levels : gset string :=
  {[ "Low"; "Medium"; "High"; "Critical" ]}.

Definition valid_statuses : gset string := {[ "Active"; "Fulfilled" ]}.

Module Donor.
Record t : Type := Build {
  id : Z;
  name : string;
  blood_group : string;
  city : string;
  contact_number : string;
  email : option string;
  created_at : option string
}.

(** [validate_blood_group] *)
Definition validate_blood_group (v : string) : bool :=
  bool_decide (v ∈ valid_blood_groups).
End Donor.

Module BloodRequest.
Record t : Type := Build {
  id : Z;
  patient_name : string;
  blood_group : string;
  city : string;
  urgency : string;
  hospital_name : option string;
  contact_number : string;
  status : string;
  created_at : option string
}.

Definition validate_blood_group (v : string) : bool :=
  bool_decide (v ∈ valid_blood_groups).
Definition validate_urgency (v : string) : bool :=
  bool_decide (v ∈ valid_urgency_levels).
Definition validate_status (v : string) : bool :=
  bool_decide (v ∈ valid_statuses).

Definition valid (r : t) : Prop :=
  validate_blood_group (blood_group r) = true /\
  validate_urgency (urgency r) = true /\
  validate_status (status r) = true.
End BloodRequest.

(** ** repositories/donor_repository.py *)

Module DonorRepository.

(** The [donors] table. *)
Definition table : Type := list Donor.t.

Record filters : Type := Filters {
  f_blood_group : option string;
  f_city : option string
}.

(** One [WHERE] condition: it is only added for a key that is present with a
    truthy value. *)
Definition cond (f : option string) (test : string -> bool) : bool :=
  match f with
  | Some v => if truthy_str v then test v else true
  | None => true
  end.

Definition where_ (fs : filters) (d : Donor.t) : bool :=
  cond (f_blood_group fs) (fun v => bool_decide (Donor.blood_group d = v)) &&
  cond (f_city fs) (fun v => bool_decide (lower (Donor.city d) = lower v)).

Definition get_all (db : table) (fs : filters) : list Donor.t :=
  List.filter (where_ fs) db.

(** [SELECT ... WHERE id = ?], for an identifier within SQLite's integers. *)
Definition get_by_id (db : table) (donor_id : Z) : option Donor.t :=
  List.find (fun d => Donor.id d =? donor_id) db.

Definition search_by_blood_group_and_city (db : table) (blood_group city : string)
  : list Donor.t :=
  get_all db (Filters (Some blood_group) (Some city)).

Definition search_by_blood_group (db : table) (blood_group : string) : list Donor.t :=
  get_all db (Filters (Some blood_group) None).

End DonorRepository.

(** ** repositories/blood_request_repository.py *)

Module BloodRequestRepository.

(** The [blood_requests] table. *)
Definition table : Type := list BloodRequest.t.

Record filters : Type := Filters {
  f_blood_group : option string;
  f_city : option string;
  f_urgency : option string;
  f_status : option string
}.

Definition no_filter : filters := Filters None None None None.

Definition cond (f : option string) (test : string -> bool) : bool :=
  match f with
  | Some v => if truthy_str v then test v else true
  | None => true
  end.

Definition where_ (fs : filters) (r : BloodRequest.t) : bool :=
  cond (f_blood_group fs) (fun v => bool_decide (BloodRequest.blood_group r = v)) &&
  cond (f_city fs) (fun v => bool_decide (lower (BloodRequest.city r) = lower v)) &&
  cond (f_urgency fs) (fun v => bool_decide (BloodRequest.urgency r = v)) &&
  cond (f_status fs) (fun v => bool_decide (BloodRequest.status r = v)).

Definition get_all (db : table) (fs : filters) : list BloodRequest.t :=
  List.filter (where_ fs) db.

(** [SELECT ... WHERE id = ?], for an identifier within SQLite's integers. *)
Definition get_by_id (db : table) (request_id : Z) : option BloodRequest.t :=
  List.find (fun r => BloodRequest.id r =? request_id) db.

Definition get_active_requests (db : table) : list BloodRequest.t :=
  get_all db (Filters None None None (Some "Active")).

Definition get_requests_by_blood_group_and_city (db : table) (blood_group city : string)
  : list BloodRequest.t :=
  get_all db (Filters (Some blood_group) (Some city) None None).

End BloodRequestRepository.

(** The database behind the two repositories. *)
Record store : Type := Store {
  donors : DonorRepository.table;
  blood_requests : BloodRequestRepository.table
}.

(** ** services/matching_service.py *)

Module MatchingService.

(** The ['donor'] entry of a match record. *)
Record donor_info : Type := DonorInfo {
  di_id : Z;
  di_name : string;
  di_blood_group : string;
  di_city : string;
  di_contact_number : string;
  di_email : option string
}.

(** The ['request'] entry of a match record. *)
Record request_info : Type := RequestInfo {
  ri_id : Z;
  ri_patient_name : string;
  ri_blood_group : string;
  ri_city : string;
  ri_urgency : string;
  ri_hospital_name : option string;
  ri_contact_number : string;
  ri_created_at : option string
}.

(** The ['match_details'] entry. *)
Record match_details : Type := MatchDetails {
  donor_blood_group : string;
  required_blood_group : string;
  donor_city : string;
  required_city : string;
  request_urgency : string
}.

(** The dictionary built by [_create_match_info]. *)
Record donor_match : Type := DonorMatch {
  dm_donor : donor_info;
  dm_match_score : Z;
  dm_blood_compatible : bool;
  dm_city_match : bool;
  dm_exact_blood_match : bool;
  dm_match_details : match_details
}.

(** The dictionary built by [_create_request_match_info]. *)
Record request_match : Type := RequestMatch {
  rm_request : request_info;
  rm_match_score : Z;
  rm_urgency_priority : Z;
  rm_blood_compatible : bool;
  rm_city_match : bool;
  rm_exact_blood_match : bool;
  rm_match_details : match_details
}.

Definition _build_compatibility_map : gmap string (gset string) :=
  list_to_map
    [ ("A+", {[ "A+"; "A-"; "O+"; "O-" ]});
      ("A-", {[ "A-"; "O-" ]});
      ("B+", {[ "B+"; "B-"; "O+"; "O-" ]});
      ("B-", {[ "B-"; "O-" ]});
      ("AB+", {[ "A+"; "A-"; "B+"; "B-"; "AB+"; "AB-"; "O+"; "O-" ]});
      ("AB-", {[ "A-"; "B-"; "AB-"; "O-" ]});
      ("O+", {[ "O+"; "O-" ]});
      ("O-", {[ "O-" ]}) ].

(** [self._compatibility_map], set once in [__init__] and never written again. *)
Definition _compatibility_map : gmap string (gset string) := _build_compatibility_map.

Definition get_compatible_blood_groups (recipient_blood_group : string)
  : result (gset string) :=
  reraise "Failed to get compatible blood groups: "
    match _compatibility_map !! recipient_blood_group with
    | None => Raise (MatchingServiceError ("Invalid blood group: " ++ recipient_blood_group))
    | Some groups => Ok groups
    end.

Definition is_blood_compatible (donor_blood_group recipient_blood_group : string)
  : result bool :=
  reraise "Failed to check blood compatibility: "
    (compatible_groups ← get_compatible_blood_groups recipient_blood_group;
     mret (bool_decide (donor_blood_group ∈ compatible_groups))).

Definition urgency_bonus : gmap string Z :=
  list_to_map [ ("Critical", 10); ("High", 7); ("Medium", 4); ("Low", 1) ].

Definition priority_map : gmap string Z :=
  list_to_map [ ("Critical", 4); ("High", 3); ("Medium", 2); ("Low", 1) ].

Definition _calculate_match_score
    (donor : Donor.t) (blood_request : BloodRequest.t) (city_exact_match : bool)
  : result Z :=
  let score := 0 in
  compatible ← is_blood_compatible
                 (Donor.blood_group donor) (BloodRequest.blood_group blood_request);
  let score := if (compatible : bool) then score + 40 else score in
  let score :=
    if bool_decide (Donor.blood_group donor = BloodRequest.blood_group blood_request)
    then score + 20 else score in
  let score :=
    if bool_decide (lower (Donor.city donor) = lower (BloodRequest.city blood_request))
    then score + 30 else score in
  let score := score + default 0 (urgency_bonus !! BloodRequest.urgency blood_request) in
  mret (Z.min score 100).

Definition _get_urgency_priority (urgency : string) : Z :=
  default 0 (priority_map !! urgency).

Definition details (donor : Donor.t) (blood_request : BloodRequest.t) : match_details :=
  {| donor_blood_group := Donor.blood_group donor;
     required_blood_group := BloodRequest.blood_group blood_request;
     donor_city := Donor.city donor;
     required_city := BloodRequest.city blood_request;
     request_urgency := BloodRequest.urgency blood_request |}.

Definition _create_match_info
    (donor : Donor.t) (blood_request : BloodRequest.t) (city_exact_match : bool)
  : result donor_match :=
  match_score ← _calculate_match_score donor blood_request city_exact_match;
  blood_compatible ← is_blood_compatible
                       (Donor.blood_group donor) (BloodRequest.blood_group blood_request);
  mret {| dm_donor :=
            {| di_id := Donor.id donor;
               di_name := Donor.name donor;
               di_blood_group := Donor.blood_group donor;
               di_city := Donor.city donor;
               di_contact_number := Donor.contact_number donor;
               di_email := Donor.email donor |};
          dm_match_score := match_score;
          dm_blood_compatible := blood_compatible;
          dm_city_match :=
            bool_decide (lower (Donor.city donor) = lower (BloodRequest.city blood_request));
          dm_exact_blood_match :=
            bool_decide (Donor.blood_group donor = BloodRequest.blood_group blood_request);
          dm_match_details := details donor blood_request |}.

Definition _create_request_match_info
    (blood_request : BloodRequest.t) (donor : Donor.t) (city_exact_match : bool)
  : result request_match :=
  match_score ← _calculate_match_score donor blood_request city_exact_match;
  let urgency_priority := _get_urgency_priority (BloodRequest.urgency blood_request) in
  blood_compatible ← is_blood_compatible
                       (Donor.blood_group donor) (BloodRequest.blood_group blood_request);
  mret {| rm_request :=
            {| ri_id := BloodRequest.id blood_request;
               ri_patient_name := BloodRequest.patient_name blood_request;
               ri_blood_group := BloodRequest.blood_group blood_request;
               ri_city := BloodRequest.city blood_request;
               ri_urgency := BloodRequest.urgency blood_request;
               ri_hospital_name := BloodRequest.hospital_name blood_request;
               ri_contact_number := BloodRequest.contact_number blood_request;
               ri_created_at := BloodRequest.created_at blood_request |};
          rm_match_score := match_score;
          rm_urgency_priority := urgency_priority;
          rm_blood_compatible := blood_compatible;
          rm_city_match :=
            bool_decide (lower (Donor.city donor) = lower (BloodRequest.city blood_request));
          rm_exact_blood_match :=
            bool_decide (Donor.blood_group donor = BloodRequest.blood_group blood_request);
          rm_match_details := details donor blood_request |}.

(** [if limit: l = l[:limit]] *)
Definition apply_limit {A} (limit : option Z) (l : list A) : list A :=
  match limit with
  | Some k => if truthy_opt_int limit then slice_to l k else l
  | None => l
  end.

(** The sort key of [find_requests_for_donor]. *)
Definition request_key (x : request_match) : Z * Z :=
  (rm_urgency_priority x, rm_match_score x).

(** The dictionaries of the statistics report. *)
Record group_entry : Type := GroupEntry {
  active_requests : Z;
  available_donors : Z
}.

Record urgency_entry : Type := UrgencyEntry {
  total_requests : Z;
  requests_with_matches : Z
}.

Record statistics : Type := Statistics {
  total_active_requests : Z;
  total_donors : Z;
  requests_with_potential_matches : Z;
  total_potential_matches : Z;
  match_rate : Q;
  blood_group_breakdown : gmap string group_entry;
  urgency_breakdown : gmap string urgency_entry;
  last_updated : string
}.

Section Finder.

(** Python iterates over a [set] of strings in an order that depends on
    the hash seed of the process: the order is a parameter. *)
Variable set_order : gset string -> list string.

(** The body of [for donor in donors] in [find_matching_donors]. *)
Fixpoint append_donor_matches
    (donors : list Donor.t) (blood_request : BloodRequest.t) (city_exact_match : bool)
    (matching_donors : list donor_match) : result (list donor_match) :=
  match donors with
  | [] => Ok matching_donors
  | donor :: rest =>
      match_info ← _create_match_info donor blood_request city_exact_match;
      append_donor_matches rest blood_request city_exact_match
        (matching_donors ++ [match_info])%list
  end.

(** The loop [for blood_group in compatible_groups]. *)
Fixpoint collect_donor_matches
    (db : store) (groups : list string) (blood_request : BloodRequest.t)
    (city_exact_match : bool) (matching_donors : list donor_match)
  : result (list donor_match) :=
  match groups with
  | [] => Ok matching_donors
  | blood_group :: rest =>
      let found :=
        if city_exact_match
        then DonorRepository.search_by_blood_group_and_city
               (donors db) blood_group (BloodRequest.city blood_request)
        else DonorRepository.search_by_blood_group (donors db) blood_group in
      matching_donors ←
        append_donor_matches found blood_request city_exact_match matching_donors;
      collect_donor_matches db rest blood_request city_exact_match matching_donors
  end.

Definition find_matching_donors
    (db : store) (blood_request : BloodRequest.t)
    (city_exact_match : bool) (limit : option Z) : result (list donor_match) :=
  guarded "Failed to find matching donors: "
    (compatible_groups ←
       get_compatible_blood_groups (BloodRequest.blood_group blood_request);
     matching_donors ←
       collect_donor_matches db (set_order compatible_groups)
         blood_request city_exact_match [];
     let matching_donors := sort_desc Z.ltb dm_match_score matching_donors in
     mret (apply_limit limit matching_donors)).

Definition find_matching_donors_by_request_id
    (db : store) (request_id : Z) (city_exact_match : bool) (limit : option Z)
  : result (list donor_match) :=
  guarded "Failed to find matching donors: "
    (if request_id <=? 0
     then Raise (MatchingServiceError "Blood request ID must be a positive integer")
     else
       match BloodRequestRepository.get_by_id (blood_requests db) request_id with
       | None =>
           Raise (MatchingServiceError
                    ("Blood request with ID " ++ pretty request_id ++ " not found"))
       | Some blood_request =>
           if negb (String.eqb (BloodRequest.status blood_request) "Active")
           then Ok []
           else find_matching_donors db blood_request city_exact_match limit
       end).

(** [[req for req in all_requests if self.is_blood_compatible(...)]] *)
Fixpoint compatible_requests (donor : Donor.t) (all_requests : list BloodRequest.t)
  : result (list BloodRequest.t) :=
  match all_requests with
  | [] => Ok []
  | req :: rest =>
      keep ← is_blood_compatible (Donor.blood_group donor) (BloodRequest.blood_group req);
      requests ← compatible_requests donor rest;
      mret (if (keep : bool) then req :: requests else requests)
  end.

(** The loop [for request in requests] of [find_requests_for_donor]. *)
Fixpoint append_request_matches
    (requests : list BloodRequest.t) (donor : Donor.t) (city_exact_match : bool)
    (matching_requests : list request_match) : result (list request_match) :=
  match requests with
  | [] => Ok matching_requests
  | request :: rest =>
      compatible ← is_blood_compatible
                     (Donor.blood_group donor) (BloodRequest.blood_group request);
      if (compatible : bool)
      then
        match_info ← _create_request_match_info request donor city_exact_match;
        append_request_matches rest donor city_exact_match
          (matching_requests ++ [match_info])%list
      else append_request_matches rest donor city_exact_match matching_requests
  end.

Definition find_requests_for_donor
    (db : store) (donor : Donor.t)
    (city_exact_match active_only : bool) (limit : option Z)
  : result (list request_match) :=
  guarded "Failed to find matching requests: "
    (requests ←
       (if city_exact_match
        then Ok (BloodRequestRepository.get_requests_by_blood_group_and_city
                   (blood_requests db) (Donor.blood_group donor) (Donor.city donor))
        else compatible_requests donor
               (BloodRequestRepository.get_all (blood_requests db)
                  BloodRequestRepository.no_filter));
     let requests :=
       if active_only
       then List.filter (fun req => String.eqb (BloodRequest.status req) "Active") requests
       else requests in
     matching_requests ← append_request_matches requests donor city_exact_match [];
     let matching_requests := sort_desc pair_ltb request_key matching_requests in
     mret (apply_limit limit matching_requests)).

Definition find_requests_for_donor_by_id
    (db : store) (donor_id : Z)
    (city_exact_match active_only : bool) (limit : option Z)
  : result (list request_match) :=
  guarded "Failed to find matching requests: "
    (if donor_id <=? 0
     then Raise (MatchingServiceError "Donor ID must be a positive integer")
     else
       match DonorRepository.get_by_id (donors db) donor_id with
       | None =>
           Raise (MatchingServiceError
                    ("Donor with ID " ++ pretty donor_id ++ " not found"))
       | Some donor =>
           find_requests_for_donor db donor city_exact_match active_only limit
       end).

(** The first loop of [get_matching_statistics], threading its two counters. *)
Fixpoint count_potential_matches
    (db : store) (active : list BloodRequest.t)
    (requests_with_matches total_potential_matches : Z) : result (Z * Z) :=
  match active with
  | [] => Ok (requests_with_matches, total_potential_matches)
  | request :: rest =>
      matches ← find_matching_donors db request false None;
      match matches with
      | [] => count_potential_matches db rest requests_with_matches total_potential_matches
      | _ :: _ =>
          count_potential_matches db rest
            (requests_with_matches + 1)
            (total_potential_matches + Z.of_nat (length matches))
      end
  end.

(** The inner loop of the urgency breakdown. *)
Fixpoint count_requests_with_matches
    (db : store) (urgent_requests : list BloodRequest.t)
    (requests_with_matches_count : Z) : result Z :=
  match urgent_requests with
  | [] => Ok requests_with_matches_count
  | request :: rest =>
      matches ← find_matching_donors db request false None;
      match matches with
      | [] => count_requests_with_matches db rest requests_with_matches_count
      | _ :: _ => count_requests_with_matches db rest (requests_with_matches_count + 1)
      end
  end.

(** The loop [for urgency in ['Critical', 'High', 'Medium', 'Low']]. *)
Fixpoint urgency_loop
    (db : store) (active : list BloodRequest.t) (levels : list string)
    (urgency_stats : gmap string urgency_entry) : result (gmap string urgency_entry) :=
  match levels with
  | [] => Ok urgency_stats
  | urgency :: rest =>
      let urgent_requests :=
        List.filter (fun r => String.eqb (BloodRequest.urgency r) urgency) active in
      requests_with_matches_count ← count_requests_with_matches db urgent_requests 0;
      urgency_loop db active rest
        (<[ urgency := {| total_requests := Z.of_nat (length urgent_requests);
                          requests_with_matches := requests_with_matches_count |} ]>
           urgency_stats)
  end.

(** The blood group breakdown: one entry per key of the compatibility map. *)
Definition blood_group_breakdown_of
    (active : list BloodRequest.t) (all_donors : list Donor.t)
  : gmap string group_entry :=
  map_imap
    (fun blood_group _ =>
       Some {| active_requests :=
                 Z.of_nat (length (List.filter
                   (fun r => String.eqb (BloodRequest.blood_group r) blood_group) active));
               available_donors :=
                 Z.of_nat (length (List.filter
                   (fun d => String.eqb (Donor.blood_group d) blood_group) all_donors)) |})
    _compatibility_map.

(** The ['match_rate'] entry of the report:
    [(requests_with_matches / total_active_requests * 100)
     if total_active_requests > 0 else 0], before the roundings of the
    division and of the product. *)
Definition match_rate_of (requests_with_matches total_active_requests : Z) : result Q :=
  if 0 <? total_active_requests
  then
    quotient ← truediv requests_with_matches total_active_requests;
    mret (quotient * inject_Z 100)%Q
  else Ok (inject_Z 0).

(** [now] is the text of [datetime.now().isoformat()] at the time of the call. *)
Definition get_matching_statistics (db : store) (now : string) : result statistics :=
  guarded "Failed to generate matching statistics: "
    (let active := BloodRequestRepository.get_active_requests (blood_requests db) in
     let all_donors :=
       DonorRepository.get_all (donors db) (DonorRepository.Filters None None) in
     let total_active_requests := Z.of_nat (length active) in
     let total_donors := Z.of_nat (length all_donors) in
     counters ← count_potential_matches db active 0 0;
     let requests_with_matches := counters.1 in
     let total_potential_matches := counters.2 in
     let blood_group_stats := blood_group_breakdown_of active all_donors in
     urgency_stats ← urgency_loop db active [ "Critical"; "High"; "Medium"; "Low" ] ∅;
     rate ← match_rate_of requests_with_matches total_active_requests;
     mret {| total_active_requests := total_active_requests;
             total_donors := total_donors;
             requests_with_potential_matches := requests_with_matches;
             total_potential_matches := total_potential_matches;
             match_rate := rate;
             blood_group_breakdown := blood_group_stats;
             urgency_breakdown := urgency_stats;
             last_updated := now |}).

End Finder.

End MatchingService.

(** ** api/matching.py *)

Module MatchingApi.

(** The HTTP status with which the two match endpoints answer an exception
    of the service: a [MatchingServiceError] is a 404 when its message
    mentions "not found" and a 400 otherwise, any other exception is a 500. *)
Definition status_of_error (e : exn) : Z :=
  match e with
  | MatchingServiceError msg =>
      if contains "not found" (lower msg) then 404 else 400
  | _ => 500
  end.

End MatchingApi.

Import MatchingService.

(** ** The specification's own tables *)

(** The canonical table of compatible donors, row by row as the
    specification lists it. *)
Definition canonical_donor_groups (recipient : string) : gset string :=
  if String.eqb recipient "A+" then {[ "A+"; "A-"; "O+"; "O-" ]}
  else if String.eqb recipient "A-" then {[ "A-"; "O-" ]}
  else if String.eqb recipient "B+" then {[ "B+"; "B-"; "O+"; "O-" ]}
  else if String.eqb recipient "B-" then {[ "B-"; "O-" ]}
  else if String.eqb recipient "AB+"
       then {[ "A+"; "A-"; "B+"; "B-"; "AB+"; "AB-"; "O+"; "O-" ]}
  else if String.eqb recipient "AB-" then {[ "A-"; "B-"; "AB-"; "O-" ]}
  else if String.eqb recipient "O+" then {[ "O+"; "O-" ]}
  else if String.eqb recipient "O-" then {[ "O-" ]}
  else ∅.

(** Urgency bonus of the scorer: Critical +10, High +7, Medium +4, Low +1,
    any other value +0. *)
Definition urgency_points (urgency : string) : Z :=
  if String.eqb urgency "Critical" then 10
  else if String.eqb urgency "High" then 7
  else if String.eqb urgency "Medium" then 4
  else if String.eqb urgency "Low" then 1
  else 0.

(** Urgency priority of the ranking: Critical=4, High=3, Medium=2, Low=1,
    unknown=0. *)
Definition urgency_rank (urgency : string) : Z :=
  if String.eqb urgency "Critical" then 4
  else if String.eqb urgency "High" then 3
  else if String.eqb urgency "Medium" then 2
  else if String.eqb urgency "Low" then 1
  else 0.

(** The additive point model of the specification, capped at 100. *)
Definition point_model (donor : Donor.t) (request : BloodRequest.t) : Z :=
  let s :=
    (if bool_decide (Donor.blood_group donor ∈
                       canonical_donor_groups (BloodRequest.blood_group request))
     then 40 else 0)
    + (if String.eqb (Donor.blood_group donor) (BloodRequest.blood_group request)
       then 20 else 0)
    + (if String.eqb (lower (Donor.city donor)) (lower (BloodRequest.city request))
       then 30 else 0)
    + urgency_points (BloodRequest.urgency request) in
  Z.min s 100.

(** Primary keys come from [INTEGER PRIMARY KEY AUTOINCREMENT], which numbers
    rows from 1: every stored row has a positive [id]. *)
Definition keys_positive (db : store) : Prop :=
  Forall (fun d => 0 < Donor.id d) (donors db) /\
  Forall (fun r => 0 < BloodRequest.id r) (blood_requests db).

(** The rows of the request table passed the validators of [BloodRequest]. *)
Definition requests_valid (db : store) : Prop :=
  Forall BloodRequest.valid (blood_requests db).

(** An iteration order for sets visits exactly the members of the set. *)
Definition set_iteration (set_order : gset string -> list string) : Prop :=
  forall X : gset string, set_order X ≡ₚ elements X.

(** ** Predicates of the properties *)

(** A record as [find_matching_donors] promises it. *)
Definition compatible_match (m : donor_match) : Prop :=
  dm_blood_compatible m = true /\ 40 <= dm_match_score m.

(** [precedes lt key x y]: [x] may stand before [y] in a list that descends
    along [key], the key of [x] is not below the one of [y]. *)
Definition precedes {A K} (lt : K -> K -> bool) (key : A -> K) (x y : A) : Prop :=
  lt (key x) (key y) = false.

(** [x] is ranked at least as high as [y]: the key of [y] is not above the
    key of [x] in the order of [(urgency_priority, match_score)] tuples. *)
Definition outranks (x y : request_match) : Prop :=
  pair_leb (request_key y) (request_key x) = true.

(** The priority stored in a record is the one of the request's urgency. *)
Definition ranked_by_urgency (m : request_match) : Prop :=
  rm_urgency_priority m = urgency_rank (ri_urgency (rm_request m)).

(** Dropping the last [n] entries of a list. *)
Definition drop_last {A} (n : nat) (l : list A) : list A := take (length l - n) l.

(** Failing with NotFound: an exception is raised and the router reports it
    with status 404. *)
Definition fails_with_not_found {A} (m : result A) : Prop :=
  exists e, m = Raise e /\ MatchingApi.status_of_error e = 404.

(** ** Predicates of the further properties *)

(** The ['donor'] entry copied from a donor, the ['request'] entry copied
    from a request. *)
Definition donor_info_of (d : Donor.t) : donor_info :=
  {| di_id := Donor.id d;
     di_name := Donor.name d;
     di_blood_group := Donor.blood_group d;
     di_city := Donor.city d;
     di_contact_number := Donor.contact_number d;
     di_email := Donor.email d |}.

Definition request_info_of (r : BloodRequest.t) : request_info :=
  {| ri_id := BloodRequest.id r;
     ri_patient_name := BloodRequest.patient_name r;
     ri_blood_group := BloodRequest.blood_group r;
     ri_city := BloodRequest.city r;
     ri_urgency := BloodRequest.urgency r;
     ri_hospital_name := BloodRequest.hospital_name r;
     ri_contact_number := BloodRequest.contact_number r;
     ri_created_at := BloodRequest.created_at r |}.

(** [x] stands before [y] in a ranking of donors: its score is not lower. *)
Definition scores_descend (x y : donor_match) : Prop :=
  dm_match_score y <= dm_match_score x.

(** The points that the three flags of a record and its urgency stand for. *)
Definition flag_points (compatible exact city : bool) (urgency : string) : Z :=
  (if compatible then 40 else 0) + (if exact then 20 else 0) + (if city then 30 else 0)
  + urgency_points urgency.

(** The canonical groups, in the order in which the service lists them. *)
Definition canonical_groups : list string :=
  [ "A+"; "A-"; "B+"; "B-"; "AB+"; "AB-"; "O+"; "O-" ].

(** [donates_to D R]: the service answers that [D] may give to [R]. *)
Definition donates_to (D R : string) : Prop := is_blood_compatible D R = Ok true.

(** The Rh sign of a group is its last character. *)
Fixpoint rh_negative (g : string) : bool :=
  match g with
  | EmptyString => false
  | String c EmptyString => Ascii.eqb c "-"
  | String _ rest => rh_negative rest
  end.

(** The donors that [find_matching_donors] is to list for a request: those of
    a compatible group and, when the city filter is on and the request names
    a city, of that city up to case. *)
Definition eligible_donor (r : BloodRequest.t) (cem : bool) (d : Donor.t) : bool :=
  bool_decide (Donor.blood_group d ∈ canonical_donor_groups (BloodRequest.blood_group r)) &&
  (negb cem || negb (truthy_str (BloodRequest.city r)) ||
   String.eqb (lower (Donor.city d)) (lower (BloodRequest.city r))).

(** The requests that [find_requests_for_donor] is to list for a donor. *)
Definition eligible_request (d : Donor.t) (cem active_only : bool) (r : BloodRequest.t) : bool :=
  bool_decide (Donor.blood_group d ∈ canonical_donor_groups (BloodRequest.blood_group r)) &&
  (negb active_only || String.eqb (BloodRequest.status r) "Active") &&
  (negb cem ||
   (negb (truthy_str (Donor.blood_group d)) ||
    String.eqb (BloodRequest.blood_group r) (Donor.blood_group d)) &&
   (negb (truthy_str (Donor.city d)) ||
    String.eqb (lower (BloodRequest.city r)) (lower (Donor.city d)))).

(** [m] is the record made for donor [d] and request [r]. *)
Definition donor_record_of (r : BloodRequest.t) (cem : bool) (d : Donor.t) (m : donor_match)
  : Prop :=
  _create_match_info d r cem = Ok m.

Definition request_record_of (d : Donor.t) (cem : bool) (r : BloodRequest.t) (m : request_match)
  : Prop :=
  _create_request_match_info r d cem = Ok m.

(** The donors fetched for one compatible group. *)
Definition fetched (db : store) (r : BloodRequest.t) (cem : bool) (g : string) : list Donor.t :=
  if cem
  then DonorRepository.search_by_blood_group_and_city (donors db) g (BloodRequest.city r)
  else DonorRepository.search_by_blood_group (donors db) g.

(** The compatibility test of a donor against a request, as a boolean. *)
Definition can_give (d : Donor.t) (r : BloodRequest.t) : bool :=
  bool_decide (Donor.blood_group d ∈ canonical_donor_groups (BloodRequest.blood_group r)).

(** The donors of the store that may give to a request, counted, and whether
    there is one. *)
Definition compatible_donor_count (db : store) (r : BloodRequest.t) : nat :=
  length (List.filter (eligible_donor r false) (donors db)).

Definition matchable (db : store) (r : BloodRequest.t) : bool :=
  existsb (eligible_donor r false) (donors db).

(** The number of entries of a list that pass a test, as the Python [int] of
    [len([x for x in l if p(x)])]. *)
Definition count_where {A} (p : A -> bool) (l : list A) : Z :=
  Z.of_nat (length (List.filter p l)).

(** The rows of the donor table passed the validator of [Donor]. *)
Definition donors_valid (db : store) : Prop :=
  Forall (fun d => Donor.validate_blood_group (Donor.blood_group d) = true) (donors db).

(** The urgency levels in the order in which the statistics visit them. *)
Definition urgency_levels : list string := [ "Critical"; "High"; "Medium"; "Low" ].

(** Reading the breakdowns of a report; a missing key reads as 0. *)
Definition urgency_total (s : statistics) (u : string) : Z :=
  default 0 (total_requests <$> urgency_breakdown s !! u).
Definition urgency_matched (s : statistics) (u : string) : Z :=
  default 0 (requests_with_matches <$> urgency_breakdown s !! u).
Definition group_requests (s : statistics) (g : string) : Z :=
  default 0 (active_requests <$> blood_group_breakdown s !! g).
Definition group_donors (s : statistics) (g : string) : Z :=
  default 0 (available_donors <$> blood_group_breakdown s !! g).

Fixpoint sum_over (f : string -> Z) (keys : list string) : Z :=
  match keys with
  | [] => 0
  | k :: rest => f k + sum_over f rest
  end.

(** ** Further Python primitives *)

Module PyStr.

(** [str.isspace] on an ASCII character: tab to carriage return, the four
    separators 0x1c to 0x1f and the space. *)
Definition isspace (c : ascii) : bool :=
  let n := N_of_ascii c in
  ((9 <=? n) && (n <=? 13) || (28 <=? n) && (n <=? 32))%N.

Fixpoint lstrip (s : string) : string :=
  match s with
  | EmptyString => EmptyString
  | String c rest => if isspace c then lstrip rest else s
  end.

Fixpoint rstrip (s : string) : string :=
  match s with
  | EmptyString => EmptyString
  | String c rest =>
      match rstrip rest with
      | EmptyString => if isspace c then EmptyString else String c EmptyString
      | kept => String c kept
      end
  end.

(** [s.strip()] on ASCII text: the blanks of [isspace] are removed at both
    ends. *)
Definition strip (s : string) : string := rstrip (lstrip s).

(** [sep.join(l)] *)
Fixpoint join (sep : string) (l : list string) : string :=
  match l with
  | [] => EmptyString
  | [ x ] => x
  | x :: rest => (x ++ sep ++ join sep rest)%string
  end.

(** [sorted(l)] on strings: the stable ascending sort, by code points. *)
Fixpoint insert_asc (x : string) (l : list string) : list string :=
  match l with
  | [] => [ x ]
  | y :: ys => if String.leb x y then x :: y :: ys else y :: insert_asc x ys
  end.

Fixpoint sorted (l : list string) : list string :=
  match l with
  | [] => []
  | x :: xs => insert_asc x (sorted xs)
  end.

(** Truth value of an [Optional[str]]. *)
Definition truthy_opt_str (o : option string) : bool :=
  match o with
  | None => false
  | Some s => truthy_str s
  end.

End PyStr.

(** ** repositories: every filter key, and the writes *)

(** [LIMIT ? OFFSET ?] as [get_all] builds it, for a limit and an offset
    within SQLite's integers: the [OFFSET] is only written under a [LIMIT].
    SQLite reads a negative limit as no bound and a negative offset as 0. *)
Definition limit_offset {A} (limit offset : option Z) (rows : list A) : list A :=
  match limit with
  | None => rows
  | Some k =>
      let rows :=
        match offset with
        | Some m => drop (Z.to_nat m) rows
        | None => rows
        end in
      if k <? 0 then rows else take (Z.to_nat k) rows
  end.

(** [a] is later than [b] in the order of the [created_at] column, where a
    missing timestamp comes before every other. *)
Definition later (a b : option string) : bool :=
  match a, b with
  | Some x, Some y => String.ltb y x
  | Some _, None => true
  | None, _ => false
  end.

Module DonorRepositoryFull.

(** The [filters] dictionary with every key that a caller puts in it.
    [get_all] reads [blood_group], [city], [limit] and [offset];
    [contact_number] is the key that [create_donor] passes. *)
Record filters : Type := Filters {
  f_blood_group : option string;
  f_city : option string;
  f_limit : option Z;
  f_offset : option Z;
  f_contact_number : option string
}.

Definition no_filter : filters := Filters None None None None None.

Definition where_ (fs : filters) (d : Donor.t) : bool :=
  DonorRepository.where_ (DonorRepository.Filters (f_blood_group fs) (f_city fs)) d.

Definition get_all (db : DonorRepository.table) (fs : filters) : list Donor.t :=
  limit_offset (f_limit fs) (f_offset fs) (List.filter (where_ fs) db).

Definition count_donors (db : DonorRepository.table) (fs : filters) : Z :=
  Z.of_nat (length (List.filter (where_ fs) db)).

Definition search_by_city (db : DonorRepository.table) (city : string) : list Donor.t :=
  get_all db (Filters None (Some city) None None None).

(** [DonorCreate] and [DonorUpdate]; in an update a field that is unset or
    [None] is left out of the [SET] list. *)
Record DonorCreate : Type := MkCreate {
  c_name : string;
  c_blood_group : string;
  c_city : string;
  c_contact_number : string;
  c_email : option string
}.

Record DonorUpdate : Type := MkUpdate {
  u_name : option string;
  u_blood_group : option string;
  u_city : option string;
  u_contact_number : option string;
  u_email : option string
}.

(** The place of a new row among the rows in [ORDER BY created_at DESC]:
    after the rows that are not earlier. *)
Fixpoint insert_row (row : Donor.t) (db : DonorRepository.table) : DonorRepository.table :=
  match db with
  | [] => [ row ]
  | r :: rest =>
      if later (Donor.created_at row) (Donor.created_at r)
      then row :: r :: rest
      else r :: insert_row row rest
  end.

(** [create]: [now] is the time of the call and [lastrowid] the key that
    SQLite gives to the new row. *)
Definition create (db : DonorRepository.table) (donor : DonorCreate)
    (now : string) (lastrowid : Z) : Donor.t * DonorRepository.table :=
  let row :=
    {| Donor.id := lastrowid;
       Donor.name := c_name donor;
       Donor.blood_group := c_blood_group donor;
       Donor.city := c_city donor;
       Donor.contact_number := c_contact_number donor;
       Donor.email := c_email donor;
       Donor.created_at := Some now |} in
  (row, insert_row row db).

(** [UPDATE donors SET ... WHERE id = ?] on one row. *)
Definition set_fields (u : DonorUpdate) (d : Donor.t) : Donor.t :=
  {| Donor.id := Donor.id d;
     Donor.name := default (Donor.name d) (u_name u);
     Donor.blood_group := default (Donor.blood_group d) (u_blood_group u);
     Donor.city := default (Donor.city d) (u_city u);
     Donor.contact_number := default (Donor.contact_number d) (u_contact_number u);
     Donor.email := match u_email u with Some e => Some e | None => Donor.email d end;
     Donor.created_at := Donor.created_at d |}.

Definition no_fields (u : DonorUpdate) : bool :=
  match u_name u, u_blood_group u, u_city u, u_contact_number u, u_email u with
  | None, None, None, None, None => true
  | _, _, _, _, _ => false
  end.

Definition update (db : DonorRepository.table) (donor_id : Z) (donor_update : DonorUpdate)
  : option Donor.t * DonorRepository.table :=
  match DonorRepository.get_by_id db donor_id with
  | None => (None, db)
  | Some existing_donor =>
      if no_fields donor_update then (Some existing_donor, db)
      else
        let db' :=
          map (fun d => if Donor.id d =? donor_id then set_fields donor_update d else d) db in
        (DonorRepository.get_by_id db' donor_id, db')
  end.

(** [DELETE FROM donors WHERE id = ?]; the answer is [rowcount > 0]. *)
Definition delete (db : DonorRepository.table) (donor_id : Z) : bool * DonorRepository.table :=
  let db' := List.filter (fun d => negb (Donor.id d =? donor_id)) db in
  (negb (Nat.eqb (length db) (length db')), db').

End DonorRepositoryFull.

Module BloodRequestRepositoryFull.

Record BloodRequestCreate : Type := MkCreate {
  c_patient_name : string;
  c_blood_group : string;
  c_city : string;
  c_urgency : string;
  c_hospital_name : option string;
  c_contact_number : string
}.

Record BloodRequestUpdate : Type := MkUpdate {
  u_patient_name : option string;
  u_blood_group : option string;
  u_city : option string;
  u_urgency : option string;
  u_hospital_name : option string;
  u_contact_number : option string;
  u_status : option string
}.

(** What the validators of [BloodRequestUpdate] guarantee about the fields
    with a closed set of values. *)
Definition update_valid (u : BloodRequestUpdate) : Prop :=
  (forall g, u_blood_group u = Some g -> g ∈ valid_blood_groups) /\
  (forall v, u_urgency u = Some v -> v ∈ valid_urgency_levels) /\
  (forall s, u_status u = Some s -> s ∈ valid_statuses).

Fixpoint insert_row (row : BloodRequest.t) (db : BloodRequestRepository.table)
  : BloodRequestRepository.table :=
  match db with
  | [] => [ row ]
  | r :: rest =>
      if later (BloodRequest.created_at row) (BloodRequest.created_at r)
      then row :: r :: rest
      else r :: insert_row row rest
  end.

Definition create (db : BloodRequestRepository.table) (blood_request : BloodRequestCreate)
    (now : string) (lastrowid : Z) : BloodRequest.t * BloodRequestRepository.table :=
  let row :=
    {| BloodRequest.id := lastrowid;
       BloodRequest.patient_name := c_patient_name blood_request;
       BloodRequest.blood_group := c_blood_group blood_request;
       BloodRequest.city := c_city blood_request;
       BloodRequest.urgency := c_urgency blood_request;
       BloodRequest.hospital_name := c_hospital_name blood_request;
       BloodRequest.contact_number := c_contact_number blood_request;
       BloodRequest.status := "Active";
       BloodRequest.created_at := Some now |} in
  (row, insert_row row db).

Definition set_fields (u : BloodRequestUpdate) (r : BloodRequest.t) : BloodRequest.t :=
  {| BloodRequest.id := BloodRequest.id r;
     BloodRequest.patient_name := default (BloodRequest.patient_name r) (u_patient_name u);
     BloodRequest.blood_group := default (BloodRequest.blood_group r) (u_blood_group u);
     BloodRequest.city := default (BloodRequest.city r) (u_city u);
     BloodRequest.urgency := default (BloodRequest.urgency r) (u_urgency u);
     BloodRequest.hospital_name :=
       match u_hospital_name u with Some h => Some h | None => BloodRequest.hospital_name r end;
     BloodRequest.contact_number :=
       default (BloodRequest.contact_number r) (u_contact_number u);
     BloodRequest.status := default (BloodRequest.status r) (u_status u);
     BloodRequest.created_at := BloodRequest.created_at r |}.

Definition no_fields (u : BloodRequestUpdate) : bool :=
  match u_patient_name u, u_blood_group u, u_city u, u_urgency u,
        u_hospital_name u, u_contact_number u, u_status u with
  | None, None, None, None, None, None, None => true
  | _, _, _, _, _, _, _ => false
  end.

Definition update (db : BloodRequestRepository.table) (request_id : Z)
    (request_update : BloodRequestUpdate)
  : option BloodRequest.t * BloodRequestRepository.table :=
  match BloodRequestRepository.get_by_id db request_id with
  | None => (None, db)
  | Some existing_request =>
      if no_fields request_update then (Some existing_request, db)
      else
        let db' :=
          map (fun r => if BloodRequest.id r =? request_id
                        then set_fields request_update r else r) db in
        (BloodRequestRepository.get_by_id db' request_id, db')
  end.

Definition delete (db : BloodRequestRepository.table) (request_id : Z)
  : bool * BloodRequestRepository.table :=
  let db' := List.filter (fun r => negb (BloodRequest.id r =? request_id)) db in
  (negb (Nat.eqb (length db) (length db')), db').

(** [fulfill_request]: an update that sets [status] only. *)
Definition fulfill_request (db : BloodRequestRepository.table) (request_id : Z)
  : option BloodRequest.t * BloodRequestRepository.table :=
  update db request_id (MkUpdate None None None None None None (Some "Fulfilled")).

End BloodRequestRepositoryFull.

(** ** services/donor_service.py *)

Module DonorService.

(** What a method of the service gives back: a value, or a
    [DonorServiceError] with its message. *)
Inductive outcome (A : Type) : Type :=
| Done (a : A)
| DonorServiceError (msg : string).
Arguments Done {A} a.
Arguments DonorServiceError {A} msg.

(** [except Exception as e: raise DonorServiceError(f"Unexpected error: {str(e)}")];
    the handler of [DonorRepositoryError] before it is never entered, the
    repositories of the model do not fail. *)
Definition unexpected {A} (body : outcome A) : outcome A :=
  match body with
  | Done a => Done a
  | DonorServiceError msg => DonorServiceError ("Unexpected error: " ++ msg)
  end.

Section Searches.

(** The order in which [', '.join(valid_blood_groups)] meets the groups. *)
Variable set_order : gset string -> list string.

Definition invalid_blood_group_message : string :=
  "Invalid blood group. Must be one of: " ++ PyStr.join ", " (set_order valid_blood_groups).

Definition get_donor_by_id (db : store) (donor_id : Z) : outcome (option Donor.t) :=
  unexpected
    (if donor_id <=? 0
     then DonorServiceError "Donor ID must be a positive integer"
     else Done (DonorRepository.get_by_id (donors db) donor_id)).

Definition search_donors_by_blood_group (db : store) (blood_group : string)
  : outcome (list Donor.t) :=
  unexpected
    (if negb (bool_decide (blood_group ∈ valid_blood_groups))
     then DonorServiceError invalid_blood_group_message
     else Done (DonorRepository.search_by_blood_group (donors db) blood_group)).

Definition search_donors_by_blood_group_and_city (db : store) (blood_group city : string)
  : outcome (list Donor.t) :=
  unexpected
    (if negb (bool_decide (blood_group ∈ valid_blood_groups))
     then DonorServiceError invalid_blood_group_message
     else if negb (truthy_str city) || negb (truthy_str (PyStr.strip city))
     then DonorServiceError "City cannot be empty"
     else Done (DonorRepository.search_by_blood_group_and_city
                  (donors db) blood_group (PyStr.strip city))).

(** The dictionary of [get_donor_statistics]. *)
Record donor_statistics : Type := DonorStatistics {
  ds_total_donors : Z;
  ds_blood_group_distribution : gmap string Z;
  ds_city_distribution : gmap string Z;
  ds_last_updated : string
}.

(** [_validate_donor_creation] *)
Definition _validate_donor_creation (donor_data : DonorRepositoryFull.DonorCreate)
  : outcome unit :=
  if negb (truthy_str (PyStr.strip (DonorRepositoryFull.c_city donor_data)))
  then DonorServiceError "City cannot be empty"
  else if negb (truthy_str (PyStr.strip (DonorRepositoryFull.c_name donor_data)))
  then DonorServiceError "Name cannot be empty"
  else Done tt.

(** [_validate_donor_update] *)
Definition _validate_donor_update
    (donor_update : DonorRepositoryFull.DonorUpdate) (existing_donor : Donor.t)
  : outcome unit :=
  if match DonorRepositoryFull.u_city donor_update with
     | Some c => negb (truthy_str (PyStr.strip c))
     | None => false
     end
  then DonorServiceError "City cannot be empty"
  else if match DonorRepositoryFull.u_name donor_update with
          | Some n => negb (truthy_str (PyStr.strip n))
          | None => false
          end
  then DonorServiceError "Name cannot be empty"
  else Done tt.

(** [create_donor]: the duplicate check asks the repository for the donors
    under the filter [{'contact_number': ...}]. *)
Definition create_donor (db : store) (donor_data : DonorRepositoryFull.DonorCreate)
    (now : string) (lastrowid : Z) : outcome Donor.t * store :=
  match _validate_donor_creation donor_data with
  | DonorServiceError msg => (unexpected (DonorServiceError msg), db)
  | Done _ =>
      let existing_donors :=
        DonorRepositoryFull.get_all (donors db)
          (DonorRepositoryFull.Filters None None None None
             (Some (DonorRepositoryFull.c_contact_number donor_data))) in
      match existing_donors with
      | _ :: _ =>
          (unexpected
             (DonorServiceError
                ("Donor with contact number " ++
                 DonorRepositoryFull.c_contact_number donor_data ++ " already exists")),
           db)
      | [] =>
          let created := DonorRepositoryFull.create (donors db) donor_data now lastrowid in
          (Done created.1, Store created.2 (blood_requests db))
      end
  end.

Definition get_all_donors (db : store)
    (blood_group city : option string) (limit offset : option Z) : outcome (list Donor.t) :=
  unexpected
    (if match blood_group with
        | Some g => truthy_str g && negb (bool_decide (g ∈ valid_blood_groups))
        | None => false
        end
     then DonorServiceError invalid_blood_group_message
     else if match limit with Some k => k <=? 0 | None => false end
     then DonorServiceError "Limit must be a positive integer"
     else if match offset with Some m => m <? 0 | None => false end
     then DonorServiceError "Offset must be non-negative"
     else
       Done (DonorRepositoryFull.get_all (donors db)
               (DonorRepositoryFull.Filters
                  (match blood_group with
                   | Some g => if truthy_str g then Some g else None
                   | None => None
                   end)
                  (match city with
                   | Some c => if truthy_str c then Some (PyStr.strip c) else None
                   | None => None
                   end)
                  limit offset None))).

(** The loop of [update_donor] over the other donors. *)
Definition contact_taken (existing_donors : list Donor.t) (contact_number : string)
    (donor_id : Z) : bool :=
  existsb (fun donor => String.eqb (Donor.contact_number donor) contact_number &&
                        negb (Donor.id donor =? donor_id))
    existing_donors.

Definition update_donor (db : store) (donor_id : Z)
    (donor_update : DonorRepositoryFull.DonorUpdate) : outcome (option Donor.t) * store :=
  if donor_id <=? 0
  then (unexpected (DonorServiceError "Donor ID must be a positive integer"), db)
  else
    match DonorRepository.get_by_id (donors db) donor_id with
    | None => (Done None, db)
    | Some existing_donor =>
        match _validate_donor_update donor_update existing_donor with
        | DonorServiceError msg => (unexpected (DonorServiceError msg), db)
        | Done _ =>
            if match DonorRepositoryFull.u_contact_number donor_update with
               | Some cn =>
                   truthy_str cn &&
                   contact_taken
                     (DonorRepositoryFull.get_all (donors db) DonorRepositoryFull.no_filter)
                     cn donor_id
               | None => false
               end
            then
              (unexpected
                 (DonorServiceError
                    ("Another donor with contact number " ++
                     default "" (DonorRepositoryFull.u_contact_number donor_update) ++
                     " already exists")),
               db)
            else
              let updated := DonorRepositoryFull.update (donors db) donor_id donor_update in
              (Done updated.1, Store updated.2 (blood_requests db))
        end
    end.

Definition delete_donor (db : store) (donor_id : Z) : outcome bool * store :=
  if donor_id <=? 0
  then (unexpected (DonorServiceError "Donor ID must be a positive integer"), db)
  else
    match DonorRepository.get_by_id (donors db) donor_id with
    | None => (Done false, db)
    | Some _ =>
        let deleted := DonorRepositoryFull.delete (donors db) donor_id in
        (Done deleted.1, Store deleted.2 (blood_requests db))
    end.

Definition search_donors_by_city (db : store) (city : string) : outcome (list Donor.t) :=
  unexpected
    (if negb (truthy_str city) || negb (truthy_str (PyStr.strip city))
     then DonorServiceError "City cannot be empty"
     else Done (DonorRepositoryFull.search_by_city (donors db) (PyStr.strip city))).

(** The loop [for donor in all_donors] that counts the cities. *)
Definition count_cities (cities : list string) : gmap string Z :=
  foldl (fun city_stats city => <[ city := default 0 (city_stats !! city) + 1 ]> city_stats)
    ∅ cities.

Definition get_donor_statistics (db : store) (now : string) : outcome donor_statistics :=
  let total_donors :=
    DonorRepositoryFull.count_donors (donors db) DonorRepositoryFull.no_filter in
  let blood_group_stats :=
    foldl (fun stats blood_group =>
             <[ blood_group :=
                  DonorRepositoryFull.count_donors (donors db)
                    (DonorRepositoryFull.Filters (Some blood_group) None None None None) ]>
               stats)
      ∅ (set_order valid_blood_groups) in
  let all_donors := DonorRepositoryFull.get_all (donors db) DonorRepositoryFull.no_filter in
  Done {| ds_total_donors := total_donors;
          ds_blood_group_distribution := blood_group_stats;
          ds_city_distribution := count_cities (map Donor.city all_donors);
          ds_last_updated := now |}.

End Searches.

End DonorService.

(** ** services/blood_request_service.py *)

Module BloodRequestService.

Import BloodRequestRepositoryFull.

(** What a method of the service gives back: a value, or a
    [BloodRequestServiceError] with its message. *)
Inductive outcome (A : Type) : Type :=
| Done (a : A)
| BloodRequestServiceError (msg : string).
Arguments Done {A} a.
Arguments BloodRequestServiceError {A} msg.

(** [except Exception as e: raise BloodRequestServiceError(f"Unexpected error: {str(e)}")] *)
Definition unexpected {A} (body : outcome A) : outcome A :=
  match body with
  | Done a => Done a
  | BloodRequestServiceError msg => BloodRequestServiceError ("Unexpected error: " ++ msg)
  end.

(** [_validate_blood_request_creation]; the warning about a Critical request
    without a hospital is logged only. *)
Definition _validate_blood_request_creation (request_data : BloodRequestCreate)
  : outcome unit :=
  if negb (truthy_str (PyStr.strip (c_city request_data)))
  then BloodRequestServiceError "City cannot be empty"
  else if negb (truthy_str (PyStr.strip (c_patient_name request_data)))
  then BloodRequestServiceError "Patient name cannot be empty"
  else Done tt.

(** [_validate_blood_request_update] *)
Definition _validate_blood_request_update
    (request_update : BloodRequestUpdate) (existing_request : BloodRequest.t)
  : outcome unit :=
  if match u_city request_update with
     | Some c => negb (truthy_str (PyStr.strip c))
     | None => false
     end
  then BloodRequestServiceError "City cannot be empty"
  else if match u_patient_name request_update with
          | Some n => negb (truthy_str (PyStr.strip n))
          | None => false
          end
  then BloodRequestServiceError "Patient name cannot be empty"
  else if String.eqb (BloodRequest.status existing_request) "Fulfilled" &&
          match u_status request_update with
          | Some s => String.eqb s "Active"
          | None => false
          end
  then BloodRequestServiceError "Cannot reactivate a fulfilled blood request"
  else Done tt.

Definition create_blood_request (db : store) (request_data : BloodRequestCreate)
    (now : string) (lastrowid : Z) : outcome BloodRequest.t * store :=
  match _validate_blood_request_creation request_data with
  | BloodRequestServiceError msg => (unexpected (BloodRequestServiceError msg), db)
  | Done _ =>
      let created := create (blood_requests db) request_data now lastrowid in
      (Done created.1, Store (donors db) created.2)
  end.

Definition get_blood_request_by_id (db : store) (request_id : Z)
  : outcome (option BloodRequest.t) :=
  unexpected
    (if request_id <=? 0
     then BloodRequestServiceError "Blood request ID must be a positive integer"
     else Done (BloodRequestRepository.get_by_id (blood_requests db) request_id)).

Definition update_blood_request (db : store) (request_id : Z)
    (request_update : BloodRequestUpdate) : outcome (option BloodRequest.t) * store :=
  if request_id <=? 0
  then (unexpected (BloodRequestServiceError "Blood request ID must be a positive integer"), db)
  else
    match BloodRequestRepository.get_by_id (blood_requests db) request_id with
    | None => (Done None, db)
    | Some existing_request =>
        match _validate_blood_request_update request_update existing_request with
        | BloodRequestServiceError msg => (unexpected (BloodRequestServiceError msg), db)
        | Done _ =>
            let updated := update (blood_requests db) request_id request_update in
            (Done updated.1, Store (donors db) updated.2)
        end
    end.

Definition delete_blood_request (db : store) (request_id : Z) : outcome bool * store :=
  if request_id <=? 0
  then (unexpected (BloodRequestServiceError "Blood request ID must be a positive integer"), db)
  else
    match BloodRequestRepository.get_by_id (blood_requests db) request_id with
    | None => (Done false, db)
    | Some _ =>
        let deleted := delete (blood_requests db) request_id in
        (Done deleted.1, Store (donors db) deleted.2)
    end.

Definition fulfill_blood_request (db : store) (request_id : Z)
  : outcome (option BloodRequest.t) * store :=
  if request_id <=? 0
  then (unexpected (BloodRequestServiceError "Blood request ID must be a positive integer"), db)
  else
    match BloodRequestRepository.get_by_id (blood_requests db) request_id with
    | None => (Done None, db)
    | Some existing_request =>
        if String.eqb (BloodRequest.status existing_request) "Fulfilled"
        then (unexpected (BloodRequestServiceError "Blood request is already fulfilled"), db)
        else
          let fulfilled := fulfill_request (blood_requests db) request_id in
          (Done fulfilled.1, Store (donors db) fulfilled.2)
    end.

Definition get_active_blood_requests (db : store) : outcome (list BloodRequest.t) :=
  Done (BloodRequestRepository.get_active_requests (blood_requests db)).

End BloodRequestService.

(** ** api/matching.py: the endpoints *)

Module MatchingRouter.

(** What an endpoint answers: its return value (status 200), an
    [HTTPException], or the 422 with which FastAPI refuses a query parameter
    outside the bounds declared for it. *)
Inductive response (A : Type) : Type :=
| Returned (body : A)
| HTTPException (status_code : Z) (detail : string)
| RequestValidationError.
Arguments Returned {A} body.
Arguments HTTPException {A} status_code detail.
Arguments RequestValidationError {A}.

(** [Query(None, ge=lo, le=hi)] on an [Optional[int]]. *)
Definition query_in_bounds (lo hi : Z) (v : option Z) : bool :=
  match v with
  | None => true
  | Some k => (lo <=? k) && (k <=? hi)
  end.

(** The two handlers of the match endpoints. *)
Definition match_handlers {A} (internal : string) (m : result A) : response A :=
  match m with
  | Ok a => Returned a
  | Raise (MatchingServiceError msg) =>
      if contains "not found" (lower msg)
      then HTTPException 404 msg
      else HTTPException 400 msg
  | Raise _ => HTTPException 500 internal
  end.

(** The ['compatibility_details'] entry and the dictionary of
    [get_blood_compatibility_info]. *)
Record compatibility_details : Type := CompatibilityDetails {
  total_compatible_donors : Z;
  total_compatible_recipients : Z
}.

Record compatibility_info : Type := CompatibilityInfo {
  ci_blood_group : string;
  can_receive_from : list string;
  can_donate_to : list string;
  is_universal_donor : bool;
  is_universal_recipient : bool;
  ci_compatibility_details : compatibility_details
}.

(** The loop that collects the recipients of a group: the keys of the
    compatibility map whose set holds the group. *)
Definition compatible_recipients (blood_group : string) : gset string :=
  dom (filter (fun kv : string * gset string => blood_group ∈ kv.2) _compatibility_map).

(** The loop [for donor in all_compatible_donors] that drops repeated ids. *)
Fixpoint unique_by_id (all_donors : list Donor.t) (seen_ids : gset Z) (unique_donors : list Donor.t)
  : list Donor.t :=
  match all_donors with
  | [] => unique_donors
  | donor :: rest =>
      if bool_decide (Donor.id donor ∈ seen_ids)
      then unique_by_id rest seen_ids unique_donors
      else unique_by_id rest ({[ Donor.id donor ]} ∪ seen_ids) (unique_donors ++ [ donor ])%list
  end.

(** What travels through the [try] block of [search_compatible_donors]: a
    [MatchingServiceError] or a [DonorServiceError], both answered with 400. *)
Inductive searched (A : Type) : Type :=
| Found (a : A)
| Failed (detail : string).
Arguments Found {A} a.
Arguments Failed {A} detail.

Section Endpoints.

Variable set_order : gset string -> list string.

Definition get_matching_donors_for_request
    (db : store) (request_id : Z) (city_exact_match : bool) (limit : option Z)
  : response (list donor_match) :=
  if negb (query_in_bounds 1 50 limit) then RequestValidationError
  else
    match_handlers "Internal server error occurred while finding matching donors"
      (find_matching_donors_by_request_id set_order db request_id city_exact_match limit).

Definition get_matching_requests_for_donor
    (db : store) (donor_id : Z) (city_exact_match active_only : bool) (limit : option Z)
  : response (list request_match) :=
  if negb (query_in_bounds 1 50 limit) then RequestValidationError
  else
    match_handlers "Internal server error occurred while finding matching requests"
      (find_requests_for_donor_by_id db donor_id city_exact_match active_only limit).

(** The loop [for compatible_blood_group in compatible_groups]. *)
Fixpoint extend_compatible_donors
    (db : store) (groups : list string) (city : option string)
    (all_compatible_donors : list Donor.t) : searched (list Donor.t) :=
  match groups with
  | [] => Found all_compatible_donors
  | compatible_blood_group :: rest =>
      let found :=
        match city with
        | Some c =>
            if truthy_str c
            then DonorService.search_donors_by_blood_group_and_city
                   set_order db compatible_blood_group c
            else DonorService.search_donors_by_blood_group set_order db compatible_blood_group
        | None => DonorService.search_donors_by_blood_group set_order db compatible_blood_group
        end in
      match found with
      | DonorService.Done ds =>
          extend_compatible_donors db rest city (all_compatible_donors ++ ds)%list
      | DonorService.DonorServiceError msg => Failed msg
      end
  end.

Definition search_compatible_donors
    (db : store) (blood_group : string) (city : option string) (limit : option Z)
  : response (list Donor.t) :=
  if negb (query_in_bounds 1 100 limit) then RequestValidationError
  else
    match get_compatible_blood_groups blood_group with
    | Raise (MatchingServiceError msg) => HTTPException 400 msg
    | Raise _ =>
        HTTPException 500 "Internal server error occurred while searching compatible donors"
    | Ok compatible_groups =>
        match extend_compatible_donors db (set_order compatible_groups) city [] with
        | Failed detail => HTTPException 400 detail
        | Found all_compatible_donors =>
            let unique_donors := unique_by_id all_compatible_donors ∅ [] in
            Returned (apply_limit limit unique_donors)
        end
    end.

Definition get_blood_compatibility_info (blood_group : string) : response compatibility_info :=
  match get_compatible_blood_groups blood_group with
  | Raise (MatchingServiceError msg) => HTTPException 400 msg
  | Raise _ =>
      HTTPException 500
        "Internal server error occurred while getting compatibility information"
  | Ok compatible_donors =>
      let recipients := compatible_recipients blood_group in
      Returned
        {| ci_blood_group := blood_group;
           can_receive_from := PyStr.sorted (set_order compatible_donors);
           can_donate_to := PyStr.sorted (set_order recipients);
           is_universal_donor := String.eqb blood_group "O-";
           is_universal_recipient := String.eqb blood_group "AB+";
           ci_compatibility_details :=
             {| total_compatible_donors := Z.of_nat (size compatible_donors);
                total_compatible_recipients := Z.of_nat (size recipients) |} |}
  end.

End Endpoints.

End MatchingRouter.

(** The donors that [search_compatible_donors] is to list: those of a group
    compatible with the given one and, when a city is given, of that city up
    to case and surrounding blanks. *)
Definition compatible_in_city (blood_group : string) (city : option string) (d : Donor.t)
  : bool :=
  bool_decide (Donor.blood_group d ∈ canonical_donor_groups blood_group) &&
  match city with
  | Some c =>
      negb (truthy_str c) || String.eqb (lower (Donor.city d)) (lower (PyStr.strip c))
  | None => true
  end.

(** Primary keys are unique. *)
Definition donor_keys_unique (db : store) : Prop := NoDup (map Donor.id (donors db)).

(** The request that stands for the query of [search_compatible_donors] in a
    fetch: only its city is read. *)
Definition probe (blood_group city : string) : BloodRequest.t :=
  BloodRequest.Build 0 "" blood_group city "" None "" "" None.

(** The request [r] once fulfilled. *)
Definition fulfilled (r : BloodRequest.t) : BloodRequest.t :=
  {| BloodRequest.id := BloodRequest.id r;
     BloodRequest.patient_name := BloodRequest.patient_name r;
     BloodRequest.blood_group := BloodRequest.blood_group r;
     BloodRequest.city := BloodRequest.city r;
     BloodRequest.urgency := BloodRequest.urgency r;
     BloodRequest.hospital_name := BloodRequest.hospital_name r;
     BloodRequest.contact_number := BloodRequest.contact_number r;
     BloodRequest.status := "Fulfilled";
     BloodRequest.created_at := BloodRequest.created_at r |}.

(** No request is Active in [after] unless a request with the same
    identifier was Active in [before]. *)
Definition no_reactivation (before after : store) : Prop :=
  forall r', r' ∈ blood_requests after -> BloodRequest.status r' = "Active" ->
  exists r, r ∈ blood_requests before /\ BloodRequest.id r = BloodRequest.id r' /\
            BloodRequest.status r = "Active".

(** No two donors share a contact number. *)
Definition contacts_unique (db : store) : Prop :=
  NoDup (map Donor.contact_number (donors db)).

(** ** The inputs on which the embedding is exact *)

(** ASCII text: every character is below 128.  On such text [str.lower] is
    the folding of A-Z, which is [Py.lower], and [str.strip] removes the blanks
    of [PyStr.isspace], which is [PyStr.strip]; on other text Python follows
    the Unicode tables, which the embedding does not hold. *)
Definition ascii_text (s : string) : bool :=
  forallb (fun c => (N_of_ascii c <? 128)%N) (list_ascii_of_string s).

(** Two strings on which [Py.lower] decides whether [str.lower] makes them
    equal: both are ASCII text, or they already agree once A-Z is folded, in
    which case they differ in the case of ASCII letters only and [str.lower]
    makes them equal as well. *)
Definition case_decided (a b : string) : Prop :=
  (ascii_text a = true /\ ascii_text b = true) \/ lower a = lower b.

(** The largest [INTEGER] of SQLite.  The [sqlite3] module binds a Python
    [int] to a [?] only up to this value and raises [OverflowError] beyond it,
    before any row is looked up; the lookups of the embedding are those within
    the range. *)
Definition sqlite_max_int : Z := 2 ^ 63 - 1.

(** The double that Python holds for a quotient times 100 comes from two
    roundings, each off by at most one part in 2^53 of what it rounds:
    [r] is such a value for the exact [x]. *)
Definition double_of (r x : Q) : Prop :=
  (Qabs (r - x) <= Qabs x * (1 # 2 ^ 51))%Q.

(** ** Sample data *)

Module Sample.
Definition asha : Donor.t :=
  Donor.Build 1 "Asha Rao" "O-" "Delhi" "9876543210" None None.
Definition ravi : Donor.t :=
  Donor.Build 2 "Ravi Kumar" "A+" "Pune" "9876543211" None None.
Definition meera : Donor.t :=
  Donor.Build 3 "Meera Nair" "AB+" "delhi" "9876543212" None None.

Definition critical_a : BloodRequest.t :=
  BloodRequest.Build 1 "Jane Smith" "A+" "Delhi" "Critical" (Some "City General Hospital")
    "9876543210" "Active" None.
Definition fulfilled_a : BloodRequest.t :=
  BloodRequest.Build 2 "John Doe" "A+" "Delhi" "High" None "9876543213" "Fulfilled" None.
Definition low_ab : BloodRequest.t :=
  BloodRequest.Build 3 "Anil Shah" "AB+" "Delhi" "Low" None "9876543214" "Active" None.

Definition low_o : BloodRequest.t :=
  BloodRequest.Build 4 "Sara Khan" "O-" "Delhi" "Low" None "9876543215" "Active" None.

Definition db : store :=
  Store [ asha; ravi; meera ] [ critical_a; fulfilled_a; low_ab; low_o ].

Definition empty : store := Store [] [].
End Sample.

(** ** Properties *)

(** A closed decidable goal, settled by evaluation. *)
Ltac decide_by_compute := refine (bool_decide_unpack _ _); vm_compute; exact I.

(** One step of the result monad. *)
Ltac run := cbn [mbind result_bind mret result_ret fmap result_fmap guarded].

(** A handler block around a raised exception gives the same outcome on
    both sides. *)
Ltac raised :=
  cbn; match goal with |- context [is_repository_error ?e] =>
         destruct (is_repository_error e) end; reflexivity.

(** *** The compatibility model *)

Lemma valid_blood_group_cases (R : string) :
  R ∈ valid_blood_groups ->
  R = "A+" \/ R = "A-" \/ R = "B+" \/ R = "B-" \/
  R = "AB+" \/ R = "AB-" \/ R = "O+" \/ R = "O-".
Proof.
  unfold valid_blood_groups. rewrite !elem_of_union, !elem_of_singleton. tauto.
Qed.

Lemma compatibility_map_lookup (R : string) :
  R ∈ valid_blood_groups ->
  _compatibility_map !! R = Some (canonical_donor_groups R).
Proof.
  intros H. apply valid_blood_group_cases in H.
  repeat (destruct H as [-> | H]); try subst R; vm_compute; reflexivity.
Qed.

Lemma get_compatible_blood_groups_valid (R : string) :
  R ∈ valid_blood_groups ->
  get_compatible_blood_groups R = Ok (canonical_donor_groups R).
Proof.
  intros H. unfold get_compatible_blood_groups.
  rewrite (compatibility_map_lookup R H). reflexivity.
Qed.

Lemma is_blood_compatible_valid (D R : string) :
  R ∈ valid_blood_groups ->
  is_blood_compatible D R = Ok (bool_decide (D ∈ canonical_donor_groups R)).
Proof.
  intros H. unfold is_blood_compatible.
  rewrite (get_compatible_blood_groups_valid R H). reflexivity.
Qed.

(** C2: on each of the 8 canonical recipient groups
    [get_compatible_blood_groups] returns the set of the canonical table; the
    recipient group is a member of its own set, the set of AB+ has 8 members
    and the set of O- has 1. *)
Theorem get_compatible_blood_groups_table (R : string) :
  R ∈ valid_blood_groups ->
  get_compatible_blood_groups R = Ok (canonical_donor_groups R) /\
  R ∈ canonical_donor_groups R /\
  size <$> get_compatible_blood_groups "AB+" = Ok 8%nat /\
  size <$> get_compatible_blood_groups "O-" = Ok 1%nat.
Proof.
  intros H. split; [ apply get_compatible_blood_groups_valid, H | ].
  split; [ | split; vm_compute; reflexivity ].
  apply valid_blood_group_cases in H.
  repeat (destruct H as [-> | H]); try subst R;
    decide_by_compute.
Qed.

Lemma get_compatible_blood_groups_table_witness :
  get_compatible_blood_groups "AB-" = Ok {[ "A-"; "B-"; "AB-"; "O-" ]} /\
  "AB-" ∈ canonical_donor_groups "AB-".
Proof.
  assert (Hin : "AB-" ∈ valid_blood_groups)
    by (decide_by_compute).
  destruct (get_compatible_blood_groups_table "AB-" Hin) as (Hget & Hself & _).
  split; [ exact Hget | exact Hself ].
Defined.

(** C7: for a canonical recipient group [R], [is_blood_compatible D R] answers
    true exactly when [D] belongs to the set that
    [get_compatible_blood_groups R] returns. *)
Theorem is_blood_compatible_iff_member (D R : string) :
  R ∈ valid_blood_groups ->
  exists (groups : gset string) (answer : bool),
    get_compatible_blood_groups R = Ok groups /\
    is_blood_compatible D R = Ok answer /\
    (answer = true <-> D ∈ groups).
Proof.
  intros H.
  exists (canonical_donor_groups R), (bool_decide (D ∈ canonical_donor_groups R)).
  split; [ apply get_compatible_blood_groups_valid, H | ].
  split; [ apply is_blood_compatible_valid, H | ].
  apply bool_decide_eq_true.
Qed.

Lemma is_blood_compatible_iff_member_witness :
  exists (groups : gset string) (answer : bool),
    get_compatible_blood_groups "B+" = Ok groups /\
    is_blood_compatible "O-" "B+" = Ok answer /\
    (answer = true <-> "O-" ∈ groups).
Proof.
  apply (is_blood_compatible_iff_member "O-" "B+").
  decide_by_compute.
Defined.

(** *** The scorer *)

Lemma urgency_bonus_lookup (u : string) :
  default 0 (urgency_bonus !! u) = urgency_points u.
Proof.
  unfold urgency_points.
  destruct (String.eqb_spec u "Critical") as [-> | H1]; [ reflexivity | ].
  destruct (String.eqb_spec u "High") as [-> | H2]; [ reflexivity | ].
  destruct (String.eqb_spec u "Medium") as [-> | H3]; [ reflexivity | ].
  destruct (String.eqb_spec u "Low") as [-> | H4]; [ reflexivity | ].
  unfold urgency_bonus. cbn [list_to_map foldr uncurry].
  rewrite !lookup_insert_ne by (intros E; symmetry in E; contradiction).
  rewrite lookup_empty. reflexivity.
Qed.

Lemma priority_map_lookup (u : string) :
  _get_urgency_priority u = urgency_rank u.
Proof.
  unfold _get_urgency_priority, urgency_rank.
  destruct (String.eqb_spec u "Critical") as [-> | H1]; [ reflexivity | ].
  destruct (String.eqb_spec u "High") as [-> | H2]; [ reflexivity | ].
  destruct (String.eqb_spec u "Medium") as [-> | H3]; [ reflexivity | ].
  destruct (String.eqb_spec u "Low") as [-> | H4]; [ reflexivity | ].
  unfold priority_map. cbn [list_to_map foldr uncurry].
  rewrite !lookup_insert_ne by (intros E; symmetry in E; contradiction).
  rewrite lookup_empty. reflexivity.
Qed.

Lemma urgency_points_range (u : string) : 0 <= urgency_points u <= 10.
Proof.
  unfold urgency_points.
  repeat match goal with |- context [String.eqb ?a ?b] => destruct (String.eqb a b) end;
    lia.
Qed.

Lemma urgency_rank_range (u : string) : 0 <= urgency_rank u <= 4.
Proof.
  unfold urgency_rank.
  repeat match goal with |- context [String.eqb ?a ?b] => destruct (String.eqb a b) end;
    lia.
Qed.

Lemma bool_decide_eqb (a b : string) : bool_decide (a = b) = String.eqb a b.
Proof.
  destruct (String.eqb_spec a b) as [H | H].
  - apply bool_decide_eq_true_2, H.
  - apply bool_decide_eq_false_2, H.
Qed.

(** The score computed on a request that carries a canonical blood group. *)
Lemma calculate_match_score_valid (d : Donor.t) (r : BloodRequest.t) (mode : bool) :
  BloodRequest.blood_group r ∈ valid_blood_groups ->
  _calculate_match_score d r mode = Ok (point_model d r).
Proof.
  intros H. unfold _calculate_match_score, point_model.
  rewrite (is_blood_compatible_valid _ _ H). cbn [mbind result_bind mret result_ret].
  rewrite urgency_bonus_lookup, !bool_decide_eqb.
  destruct (bool_decide _), (String.eqb _ _), (String.eqb _ _); reflexivity.
Qed.




(** The two worked examples of the specification: an O- donor and an A+ donor
    of Delhi against a Critical A+ request of Delhi. *)
Example score_universal_donor :
  _calculate_match_score Sample.asha Sample.critical_a true = Ok (40 + 0 + 30 + 10).
Proof. vm_compute. reflexivity. Qed.

Example score_exact_match :
  _calculate_match_score
    (Donor.Build 5 "Kiran Das" "A+" "Delhi" "9876543216" None None)
    Sample.critical_a true = Ok (40 + 20 + 30 + 10).
Proof. vm_compute. reflexivity. Qed.

(** A request that carries no canonical blood group cannot be scored: the
    compatibility check raises. *)
Example score_invalid_group :
  _calculate_match_score Sample.asha
    (BloodRequest.Build 9 "Jane Smith" "X+" "Delhi" "Low" None "9876543210" "Active" None)
    true =
  Raise (MatchingServiceError
           ("Failed to check blood compatibility: " ++
            "Failed to get compatible blood groups: " ++ "Invalid blood group: X+")).
Proof. vm_compute. reflexivity. Qed.

(** C8: the score does not depend on the mode flag: two runs that differ only
    in the flag return the same result. *)
Theorem calculate_match_score_mode_inert
    (d : Donor.t) (r : BloodRequest.t) (mode1 mode2 : bool) :
  _calculate_match_score d r mode1 = _calculate_match_score d r mode2.
Proof. reflexivity. Qed.

(** *** Handlers, sorting and truncation *)

Lemma guarded_Ok {A} (prefix : string) (body : result A) (a : A) :
  guarded prefix body = Ok a <-> body = Ok a.
Proof.
  unfold guarded. destruct body as [b | e]; [ tauto | ].
  destruct (is_repository_error e); split; discriminate.
Qed.

Lemma reraise_Ok {A} (prefix : string) (body : result A) (a : A) :
  reraise prefix body = Ok a <-> body = Ok a.
Proof. unfold reraise. destruct body; split; congruence. Qed.

Lemma bind_Ok {A B} (m : result A) (f : A -> result B) (b : B) :
  m ≫= f = Ok b <-> exists a, m = Ok a /\ f a = Ok b.
Proof.
  destruct m as [a | e]; cbn.
  - split; [ eauto | intros (a' & [= <-] & H); exact H ].
  - split; [ discriminate | intros (a' & [=] & _) ].
Qed.

Section SortFacts.
Context {A K : Type} (lt : K -> K -> bool) (key : A -> K).

Lemma insert_desc_perm (x : A) (l : list A) : insert_desc lt key x l ≡ₚ x :: l.
Proof.
  induction l as [| y ys IH]; cbn; [ reflexivity | ].
  destruct (lt (key x) (key y)); [ | reflexivity ].
  rewrite IH. apply Permutation_swap.
Qed.

Lemma sort_desc_perm (l : list A) : sort_desc lt key l ≡ₚ l.
Proof.
  induction l as [| x xs IH]; cbn; [ reflexivity | ].
  rewrite insert_desc_perm, IH. reflexivity.
Qed.

Hypothesis lt_asym : forall a b, lt a b = true -> lt b a = false.
Hypothesis ge_trans : forall a b c, lt a b = false -> lt b c = false -> lt a c = false.

Lemma insert_desc_sorted (x : A) (l : list A) :
  StronglySorted (precedes lt key) l -> StronglySorted (precedes lt key) (insert_desc lt key x l).
Proof.
  induction l as [| y ys IH]; intros Hs; cbn.
  - repeat constructor.
  - apply StronglySorted_inv in Hs as [Hys Hy].
    destruct (lt (key x) (key y)) eqn:E.
    + constructor; [ apply IH, Hys | ].
      rewrite insert_desc_perm. constructor; [ apply lt_asym, E | exact Hy ].
    + constructor; [ constructor; assumption | ].
      constructor; [ exact E | ].
      eapply Forall_impl; [ exact Hy | ].
      intros z Hz. eapply ge_trans; [ exact E | exact Hz ].
Qed.

Lemma sort_desc_sorted (l : list A) : StronglySorted (precedes lt key) (sort_desc lt key l).
Proof.
  induction l as [| x xs IH]; cbn; [ constructor | ].
  apply insert_desc_sorted, IH.
Qed.
End SortFacts.

Lemma StronglySorted_take {A} (R : A -> A -> Prop) (n : nat) (l : list A) :
  StronglySorted R l -> StronglySorted R (take n l).
Proof.
  intros H. rewrite <- (take_drop n l) in H.
  apply StronglySorted_app_1_l in H. exact H.
Qed.

Lemma apply_limit_take {A} (limit : option Z) (l : list A) :
  exists n, apply_limit limit l = take n l.
Proof.
  unfold apply_limit, slice_to. destruct limit as [k |].
  - destruct (truthy_opt_int (Some k)); [ | exists (length l); symmetry; apply firstn_all ].
    destruct (k <? 0); eauto.
  - exists (length l). symmetry. apply firstn_all.
Qed.

Lemma pair_ltb_asym (p q : Z * Z) : pair_ltb p q = true -> pair_ltb q p = false.
Proof.
  unfold pair_ltb. destruct p as [a b], q as [c d]; cbn. lia.
Qed.

Lemma pair_ltb_ge_trans (p q r : Z * Z) :
  pair_ltb p q = false -> pair_ltb q r = false -> pair_ltb p r = false.
Proof.
  unfold pair_ltb. destruct p as [a b], q as [c d], r as [e f]; cbn. lia.
Qed.

(** *** Donors for a request *)

Lemma compatibility_map_dom : dom _compatibility_map = valid_blood_groups.
Proof. vm_compute. reflexivity. Qed.

Lemma compatibility_map_Some (R : string) (groups : gset string) :
  _compatibility_map !! R = Some groups ->
  R ∈ valid_blood_groups /\ groups = canonical_donor_groups R.
Proof.
  intros H.
  assert (HR : R ∈ valid_blood_groups).
  { rewrite <- compatibility_map_dom. apply elem_of_dom. eauto. }
  split; [ exact HR | ].
  rewrite (compatibility_map_lookup R HR) in H. congruence.
Qed.

Lemma get_compatible_blood_groups_Ok (R : string) (groups : gset string) :
  get_compatible_blood_groups R = Ok groups ->
  R ∈ valid_blood_groups /\ groups = canonical_donor_groups R.
Proof.
  unfold get_compatible_blood_groups. rewrite reraise_Ok.
  destruct (_compatibility_map !! R) as [g |] eqn:E; [ | discriminate ].
  intros [= <-]. apply compatibility_map_Some, E.
Qed.

Lemma canonical_donor_groups_valid (R D : string) :
  D ∈ canonical_donor_groups R -> D ∈ valid_blood_groups.
Proof.
  unfold canonical_donor_groups, valid_blood_groups.
  repeat match goal with |- context [String.eqb ?a ?b] => destruct (String.eqb a b) end;
    rewrite ?elem_of_union, ?elem_of_singleton, ?elem_of_empty; tauto.
Qed.

Lemma valid_blood_group_truthy (g : string) :
  g ∈ valid_blood_groups -> truthy_str g = true.
Proof.
  intros H. apply valid_blood_group_cases in H.
  repeat (destruct H as [-> | H]); try subst g; reflexivity.
Qed.

(** Donors selected for a canonical group carry that group. *)
Lemma donor_where_blood_group (g : string) (city : option string) (d : Donor.t) :
  g ∈ valid_blood_groups ->
  DonorRepository.where_ (DonorRepository.Filters (Some g) city) d = true ->
  Donor.blood_group d = g.
Proof.
  intros Hg. unfold DonorRepository.where_, DonorRepository.cond. cbn.
  rewrite (valid_blood_group_truthy g Hg). intros H.
  apply andb_true_iff in H as [H _]. apply bool_decide_eq_true in H. exact H.
Qed.

Lemma create_match_info_compatible
    (d : Donor.t) (r : BloodRequest.t) (cem : bool) (m : donor_match) :
  Donor.blood_group d ∈ canonical_donor_groups (BloodRequest.blood_group r) ->
  BloodRequest.blood_group r ∈ valid_blood_groups ->
  _create_match_info d r cem = Ok m ->
  compatible_match m.
Proof.
  intros Hd Hr. unfold _create_match_info.
  rewrite (calculate_match_score_valid d r cem Hr), (is_blood_compatible_valid _ _ Hr).
  cbn. intros [= <-]. unfold compatible_match; cbn. split.
  - apply bool_decide_eq_true_2, Hd.
  - unfold point_model. rewrite (bool_decide_eq_true_2 _ Hd).
    pose proof (urgency_points_range (BloodRequest.urgency r)).
    destruct (String.eqb _ _), (String.eqb _ _); lia.
Qed.

Lemma create_match_info_total (d : Donor.t) (r : BloodRequest.t) (cem : bool) :
  BloodRequest.blood_group r ∈ valid_blood_groups ->
  is_ok (_create_match_info d r cem) = true.
Proof.
  intros Hr. unfold _create_match_info.
  rewrite (calculate_match_score_valid d r cem Hr), (is_blood_compatible_valid _ _ Hr).
  reflexivity.
Qed.

Section DonorsForRequest.
Variable set_order : gset string -> list string.
Variables (db : store) (r : BloodRequest.t) (cem : bool).
Hypothesis Hr : BloodRequest.blood_group r ∈ valid_blood_groups.

Let member (d : Donor.t) : Prop :=
  Donor.blood_group d ∈ canonical_donor_groups (BloodRequest.blood_group r).

Lemma append_donor_matches_compatible (ds : list Donor.t) (acc l : list donor_match) :
  Forall member ds -> Forall compatible_match acc ->
  append_donor_matches ds r cem acc = Ok l -> Forall compatible_match l.
Proof.
  revert acc. induction ds as [| d ds IH]; intros acc Hds Hacc; cbn.
  - intros [= <-]. exact Hacc.
  - apply Forall_cons in Hds as [Hd Hds]. rewrite bind_Ok.
    intros (m & Hm & Hrest). apply (IH _ Hds) in Hrest; [ exact Hrest | ].
    apply Forall_app. split; [ exact Hacc | ].
    constructor; [ | constructor ].
    exact (create_match_info_compatible d r cem m Hd Hr Hm).
Qed.

Lemma append_donor_matches_total (ds : list Donor.t) (acc : list donor_match) :
  is_ok (append_donor_matches ds r cem acc) = true.
Proof.
  revert acc. induction ds as [| d ds IH]; intros acc; cbn; [ reflexivity | ].
  pose proof (create_match_info_total d r cem Hr) as H.
  destruct (_create_match_info d r cem) as [m | e]; [ | discriminate ].
  cbn. apply IH.
Qed.

Lemma found_donors_member (g : string) :
  g ∈ canonical_donor_groups (BloodRequest.blood_group r) ->
  Forall member
    (if cem
     then DonorRepository.search_by_blood_group_and_city (donors db) g (BloodRequest.city r)
     else DonorRepository.search_by_blood_group (donors db) g).
Proof.
  intros Hg. pose proof (canonical_donor_groups_valid _ _ Hg) as Hv.
  apply Forall_forall. intros d Hd. unfold member.
  apply list_elem_of_In in Hd.
  destruct cem; apply filter_In in Hd as [_ Hd];
    apply (donor_where_blood_group g _ d Hv) in Hd; rewrite Hd; exact Hg.
Qed.

Lemma collect_donor_matches_compatible (gs : list string) (acc l : list donor_match) :
  Forall (fun g => g ∈ canonical_donor_groups (BloodRequest.blood_group r)) gs ->
  Forall compatible_match acc ->
  collect_donor_matches db gs r cem acc = Ok l -> Forall compatible_match l.
Proof.
  revert acc. induction gs as [| g gs IH]; intros acc Hgs Hacc; cbn.
  - intros [= <-]. exact Hacc.
  - apply Forall_cons in Hgs as [Hg Hgs]. rewrite bind_Ok.
    intros (acc' & Hacc' & Hrest). apply (IH _ Hgs) in Hrest; [ exact Hrest | ].
    eapply append_donor_matches_compatible; [ | exact Hacc | exact Hacc' ].
    apply found_donors_member, Hg.
Qed.

Lemma collect_donor_matches_total (gs : list string) (acc : list donor_match) :
  is_ok (collect_donor_matches db gs r cem acc) = true.
Proof.
  revert acc. induction gs as [| g gs IH]; intros acc; cbn; [ reflexivity | ].
  match goal with |- context [append_donor_matches ?ds r cem acc] =>
    pose proof (append_donor_matches_total ds acc) as H;
    destruct (append_donor_matches ds r cem acc) as [acc' | e]; [ | discriminate ]
  end.
  cbn. apply IH.
Qed.

Lemma find_matching_donors_total (limit : option Z) :
  is_ok (find_matching_donors set_order db r cem limit) = true.
Proof.
  unfold find_matching_donors.
  rewrite (get_compatible_blood_groups_valid _ Hr). cbn.
  match goal with |- context [collect_donor_matches db ?gs r cem []] =>
    pose proof (collect_donor_matches_total gs []) as H;
    destruct (collect_donor_matches db gs r cem []) as [l | e]; [ | discriminate ]
  end.
  reflexivity.
Qed.
End DonorsForRequest.

Lemma set_iteration_member (set_order : gset string -> list string) (X : gset string) :
  set_iteration set_order -> Forall (fun g => g ∈ X) (set_order X).
Proof.
  intros H. apply Forall_forall. intros g Hg.
  rewrite (H X) in Hg. apply elem_of_elements in Hg. exact Hg.
Qed.

Lemma find_matching_donors_Ok_compatible
    (set_order : gset string -> list string) (db : store) (r : BloodRequest.t)
    (cem : bool) (limit : option Z) (l : list donor_match) :
  set_iteration set_order ->
  find_matching_donors set_order db r cem limit = Ok l -> Forall compatible_match l.
Proof.
  intros Hiter. unfold find_matching_donors. rewrite guarded_Ok, bind_Ok.
  intros (groups & Hgroups & H). apply bind_Ok in H as (ms & Hms & H).
  apply get_compatible_blood_groups_Ok in Hgroups as [Hr ->].
  cbn in H. injection H as <-.
  destruct (apply_limit_take limit (sort_desc Z.ltb dm_match_score ms)) as [n ->].
  apply Forall_take. rewrite sort_desc_perm.
  eapply collect_donor_matches_compatible; [ exact Hr | | constructor | exact Hms ].
  apply set_iteration_member, Hiter.
Qed.

(** C9: every record in a list returned by [find_matching_donors], and so by
    [find_matching_donors_by_request_id], has [blood_compatible] true and a
    [match_score] of at least 40; [find_matching_donors] does return a list
    on every request with a canonical blood group. *)
Theorem find_matching_donors_compatible
    (set_order : gset string -> list string) (db : store) (r : BloodRequest.t)
    (request_id : Z) (cem : bool) (limit : option Z) :
  set_iteration set_order ->
  (forall l, find_matching_donors set_order db r cem limit = Ok l ->
             Forall compatible_match l) /\
  (forall l, find_matching_donors_by_request_id set_order db request_id cem limit = Ok l ->
             Forall compatible_match l) /\
  (BloodRequest.blood_group r ∈ valid_blood_groups ->
   is_ok (find_matching_donors set_order db r cem limit) = true).
Proof.
  intros Hiter. split; [ | split ].
  - intros l. apply find_matching_donors_Ok_compatible, Hiter.
  - intros l. unfold find_matching_donors_by_request_id. rewrite guarded_Ok.
    destruct (request_id <=? 0); [ discriminate | ].
    destruct (BloodRequestRepository.get_by_id _ _) as [req |]; [ | discriminate ].
    destruct (negb _).
    + intros [= <-]. constructor.
    + apply find_matching_donors_Ok_compatible, Hiter.
  - intros Hr. apply find_matching_donors_total, Hr.
Qed.

Lemma find_matching_donors_compatible_witness :
  exists l,
    find_matching_donors elements Sample.db Sample.critical_a false None = Ok l /\
    length l = 2%nat /\ Forall compatible_match l.
Proof.
  eexists. split; [ vm_compute; reflexivity | ]. split; [ reflexivity | ].
  refine (proj1 (find_matching_donors_compatible
                   elements Sample.db Sample.critical_a 1 false None _) _ _).
  - intros X. reflexivity.
  - vm_compute. reflexivity.
Defined.

(** *** Truncation *)

Lemma apply_limit_negative {A} (k : Z) (l : list A) :
  k < 0 -> apply_limit (Some k) l = take (length l - Z.to_nat (- k)) l.
Proof.
  intros Hk. unfold apply_limit, truthy_opt_int, slice_to.
  replace (k =? 0) with false by lia. replace (k <? 0) with true by lia. cbn.
  f_equal. lia.
Qed.

(** C10: a limit of 0 truncates nothing, the whole sorted list comes back as
    it does when the limit is omitted; a negative limit [k] drops the last
    [-k] entries of the sorted list. *)
Theorem limit_zero_and_negative
    (set_order : gset string -> list string) (db : store)
    (r : BloodRequest.t) (d : Donor.t) (cem active_only : bool) :
  find_matching_donors set_order db r cem (Some 0) =
    find_matching_donors set_order db r cem None /\
  find_requests_for_donor db d cem active_only (Some 0) =
    find_requests_for_donor db d cem active_only None /\
  forall k : Z, k < 0 ->
    find_matching_donors set_order db r cem (Some k) =
      drop_last (Z.to_nat (- k)) <$> find_matching_donors set_order db r cem None /\
    find_requests_for_donor db d cem active_only (Some k) =
      drop_last (Z.to_nat (- k)) <$> find_requests_for_donor db d cem active_only None.
Proof.
  split; [ reflexivity | ]. split; [ reflexivity | ].
  intros k Hk. unfold drop_last. split.
  - unfold find_matching_donors.
    destruct (get_compatible_blood_groups _) as [groups | e]; [ | raised ]. run.
    destruct (collect_donor_matches _ _ _ _ _) as [ms | e]; [ | raised ]. run.
    rewrite (apply_limit_negative k _ Hk). reflexivity.
  - unfold find_requests_for_donor.
    match goal with |- context [if cem then ?a else ?b] =>
      destruct (if cem then a else b) as [rs | e]; [ | raised ] end.
    run.
    destruct (append_request_matches _ _ _ _) as [ms | e]; [ | raised ]. run.
    rewrite (apply_limit_negative k _ Hk). reflexivity.
Qed.

Lemma limit_zero_and_negative_witness :
  map dm_match_score <$>
    find_matching_donors elements Sample.db Sample.low_ab false (Some (-1)) = Ok [ 91; 71 ].
Proof.
  pose proof (limit_zero_and_negative elements Sample.db Sample.low_ab Sample.asha false true)
    as (_ & _ & H).
  destruct (H (-1) ltac:(lia)) as [-> _].
  vm_compute. reflexivity.
Defined.

(** *** Requests for a donor *)

Lemma StronglySorted_lookup {A} (R : A -> A -> Prop) (l : list A) (i j : nat) (x y : A) :
  StronglySorted R l -> (i < j)%nat -> l !! i = Some x -> l !! j = Some y -> R x y.
Proof.
  intros Hs. revert i j. induction Hs as [| a l Hs IH Ha]; intros i j Hij Hi Hj.
  - discriminate.
  - destruct j as [| j]; [ lia | ]. destruct i as [| i]; cbn in Hi, Hj.
    + injection Hi as <-. rewrite Forall_forall in Ha.
      apply Ha. eapply list_elem_of_lookup_2, Hj.
    + apply (IH i j); [ lia | exact Hi | exact Hj ].
Qed.

Lemma StronglySorted_weaken {A} (R1 R2 : A -> A -> Prop) (l : list A) :
  (forall x y, R1 x y -> R2 x y) -> StronglySorted R1 l -> StronglySorted R2 l.
Proof.
  intros HR Hs. induction Hs as [| a l Hs IH Ha]; constructor; [ exact IH | ].
  eapply Forall_impl; [ exact Ha | ]. intros y. apply HR.
Qed.

Lemma outranks_precedes (x y : request_match) :
  precedes pair_ltb request_key x y -> outranks x y.
Proof. unfold precedes, outranks, pair_leb. intros ->. reflexivity. Qed.

Lemma outranks_priority (x y : request_match) :
  outranks x y -> rm_urgency_priority y <= rm_urgency_priority x.
Proof. unfold outranks, pair_leb, pair_ltb, request_key. cbn. lia. Qed.

Lemma create_request_match_info_ranked
    (r : BloodRequest.t) (d : Donor.t) (cem : bool) (m : request_match) :
  _create_request_match_info r d cem = Ok m -> ranked_by_urgency m.
Proof.
  unfold _create_request_match_info. rewrite bind_Ok. intros (score & _ & H).
  apply bind_Ok in H as (compatible & _ & H). injection H as <-.
  unfold ranked_by_urgency. cbn. apply priority_map_lookup.
Qed.

Lemma create_request_match_info_total (r : BloodRequest.t) (d : Donor.t) (cem : bool) :
  BloodRequest.blood_group r ∈ valid_blood_groups ->
  is_ok (_create_request_match_info r d cem) = true.
Proof.
  intros Hr. unfold _create_request_match_info.
  rewrite (calculate_match_score_valid d r cem Hr), (is_blood_compatible_valid _ _ Hr).
  reflexivity.
Qed.

Lemma append_request_matches_ranked
    (rs : list BloodRequest.t) (d : Donor.t) (cem : bool) (acc l : list request_match) :
  Forall ranked_by_urgency acc ->
  append_request_matches rs d cem acc = Ok l -> Forall ranked_by_urgency l.
Proof.
  revert acc. induction rs as [| r rs IH]; intros acc Hacc; cbn.
  - intros [= <-]. exact Hacc.
  - rewrite bind_Ok. intros ([|] & _ & H).
    + apply bind_Ok in H as (m & Hm & H). apply (IH _) in H; [ exact H | ].
      apply Forall_app. split; [ exact Hacc | ].
      constructor; [ | constructor ].
      exact (create_request_match_info_ranked r d cem m Hm).
    + apply (IH _ Hacc H).
Qed.

Lemma append_request_matches_total
    (rs : list BloodRequest.t) (d : Donor.t) (cem : bool) (acc : list request_match) :
  Forall BloodRequest.valid rs ->
  is_ok (append_request_matches rs d cem acc) = true.
Proof.
  revert acc. induction rs as [| r rs IH]; intros acc Hrs; cbn; [ reflexivity | ].
  apply Forall_cons in Hrs as [[Hr _] Hrs]. apply bool_decide_eq_true in Hr.
  rewrite (is_blood_compatible_valid _ _ Hr). run.
  destruct (bool_decide _); [ | apply IH, Hrs ].
  pose proof (create_request_match_info_total r d cem Hr) as H.
  destruct (_create_request_match_info r d cem) as [m | e]; [ | discriminate ].
  run. apply IH, Hrs.
Qed.

Lemma compatible_requests_total (d : Donor.t) (rs : list BloodRequest.t) :
  Forall BloodRequest.valid rs ->
  exists kept, compatible_requests d rs = Ok kept /\ Forall BloodRequest.valid kept.
Proof.
  induction rs as [| r rs IH]; intros Hrs; cbn.
  - exists []. split; [ reflexivity | constructor ].
  - apply Forall_cons in Hrs as [Hr Hrs]. destruct (IH Hrs) as (kept & -> & Hkept).
    pose proof Hr as [Hg _]. apply bool_decide_eq_true in Hg.
    rewrite (is_blood_compatible_valid _ _ Hg). run.
    destruct (bool_decide _); eexists; (split; [ reflexivity | ]);
      [ constructor; assumption | assumption ].
Qed.

Lemma Forall_List_filter {A} (P : A -> Prop) (f : A -> bool) (l : list A) :
  Forall P l -> Forall P (List.filter f l).
Proof.
  rewrite !Forall_forall. intros H x Hx.
  apply list_elem_of_In, filter_In in Hx as [Hx _].
  apply H, list_elem_of_In, Hx.
Qed.

Lemma find_requests_for_donor_total
    (db : store) (d : Donor.t) (cem active_only : bool) (limit : option Z) :
  requests_valid db ->
  is_ok (find_requests_for_donor db d cem active_only limit) = true.
Proof.
  intros Hdb. unfold find_requests_for_donor.
  assert (Hsel : exists rs,
    (if cem
     then Ok (BloodRequestRepository.get_requests_by_blood_group_and_city
                (blood_requests db) (Donor.blood_group d) (Donor.city d))
     else compatible_requests d
            (BloodRequestRepository.get_all (blood_requests db)
               BloodRequestRepository.no_filter)) = Ok rs /\
    Forall BloodRequest.valid rs).
  { destruct cem.
    - eexists. split; [ reflexivity | ]. apply Forall_List_filter, Hdb.
    - apply compatible_requests_total, Forall_List_filter, Hdb. }
  destruct Hsel as (rs & -> & Hrs). run.
  match goal with |- context [append_request_matches ?sel d cem []] =>
    assert (Hsel : Forall BloodRequest.valid sel)
      by (destruct active_only; [ apply Forall_List_filter, Hrs | exact Hrs ]);
    pose proof (append_request_matches_total sel d cem [] Hsel) as H;
    destruct (append_request_matches sel d cem []) as [ms | e]; [ | discriminate ]
  end.
  reflexivity.
Qed.

(** C5: a list returned by [find_requests_for_donor] is in descending order
    of the key [(urgency_priority, match_score)], the priority of a record
    being 4, 3, 2, 1 for urgency Critical, High, Medium, Low and 0 for any
    other urgency; so a record never stands before one of higher priority.
    On a table of validated requests the function does return a list. *)
Theorem find_requests_for_donor_sorted
    (db : store) (d : Donor.t) (cem active_only : bool) (limit : option Z)
    (l : list request_match) :
  find_requests_for_donor db d cem active_only limit = Ok l ->
  StronglySorted outranks l /\
  Forall ranked_by_urgency l /\
  (forall (i j : nat) (x y : request_match),
      (i < j)%nat -> l !! i = Some x -> l !! j = Some y ->
      rm_urgency_priority y <= rm_urgency_priority x) /\
  (requests_valid db ->
   forall d' cem' active_only' limit',
     is_ok (find_requests_for_donor db d' cem' active_only' limit') = true).
Proof.
  intros H.
  assert (Hsorted : StronglySorted outranks l /\ Forall ranked_by_urgency l).
  { unfold find_requests_for_donor in H. apply guarded_Ok, bind_Ok in H as (rs & _ & H).
    apply bind_Ok in H as (ms & Hms & H). cbn in H. injection H as <-.
    destruct (apply_limit_take limit (sort_desc pair_ltb request_key ms)) as [n ->].
    split.
    - apply StronglySorted_take.
      eapply StronglySorted_weaken; [ | apply sort_desc_sorted ].
      + apply outranks_precedes.
      + apply pair_ltb_asym.
      + apply pair_ltb_ge_trans.
    - apply Forall_take. rewrite sort_desc_perm.
      eapply append_request_matches_ranked; [ constructor | exact Hms ]. }
  destruct Hsorted as [Hs Hr]. split; [ exact Hs | ]. split; [ exact Hr | ]. split.
  - intros i j x y Hij Hi Hj. apply outranks_priority.
    exact (StronglySorted_lookup outranks l i j x y Hs Hij Hi Hj).
  - intros Hdb d' cem' ao' limit'. apply find_requests_for_donor_total, Hdb.
Qed.

Lemma find_requests_for_donor_sorted_witness :
  exists l,
    find_requests_for_donor Sample.db Sample.asha false false None = Ok l /\
    map request_key l = [ (4, 80); (3, 77); (1, 91); (1, 71) ] /\
    StronglySorted outranks l.
Proof.
  eexists. split; [ vm_compute; reflexivity | ]. split; [ reflexivity | ].
  refine (proj1 (find_requests_for_donor_sorted
                   Sample.db Sample.asha false false None _ _)).
  vm_compute. reflexivity.
Defined.

(** *** Lookups by identifier *)

Lemma lower_app (a b : string) : lower (a ++ b) = (lower a ++ lower b)%string.
Proof.
  induction a as [| c a IH]; [ reflexivity | ].
  change (lower (String c (a ++ b)) = String (lower_ascii c) (lower a ++ lower b)).
  cbn [lower]. f_equal. exact IH.
Qed.

Lemma prefix_app (sub rest : string) : String.prefix sub (sub ++ rest) = true.
Proof.
  induction sub as [| c sub IH]; [ destruct rest; reflexivity | ].
  change (String.prefix (String c sub) (String c (sub ++ rest)) = true). cbn [String.prefix].
  destruct (ascii_dec c c) as [_ | Hne]; [ exact IH | contradiction ].
Qed.

Lemma contains_prefix (sub s : string) : String.prefix sub s = true -> contains sub s = true.
Proof. intros H. destruct s; cbn [contains]; rewrite H; reflexivity. Qed.

Lemma contains_app_r (sub a b : string) :
  contains sub b = true -> contains sub (a ++ b) = true.
Proof.
  intros H. induction a as [| c a IH]; [ exact H | ].
  change (contains sub (String c (a ++ b)) = true). cbn [contains].
  rewrite IH. apply orb_true_r.
Qed.

(** A message that ends in " not found" is recognised by the router. *)
Lemma mentions_not_found (head what id : string) :
  contains "not found" (lower (head ++ what ++ id ++ " not found")) = true.
Proof.
  rewrite !lower_app. apply contains_app_r, contains_app_r.
  change (lower " not found") with (" " ++ ("not found" ++ ""))%string.
  apply contains_app_r, contains_app_r, contains_prefix, prefix_app.
Qed.

(** C3, as stated, fails on an identifier that is not positive: the lookup is
    never made and the error is the one of the identifier check. *)
Lemma unresolved_nonpositive_id_not_not_found :
  BloodRequestRepository.get_by_id (blood_requests Sample.db) 0 = None /\
  find_matching_donors_by_request_id elements Sample.db 0 true None =
    Raise (MatchingServiceError
             "Unexpected error: Blood request ID must be a positive integer") /\
  ~ fails_with_not_found (find_matching_donors_by_request_id elements Sample.db 0 true None).
Proof.
  split; [ reflexivity | ]. split; [ reflexivity | ].
  intros (e & He & Hstatus). cbv in He. injection He as <-.
  vm_compute in Hstatus. discriminate.
Qed.

(** C3, amended: a positive identifier within the range of SQLite's integers
    that resolves to no stored row makes [find_matching_donors_by_request_id]
    and [find_requests_for_donor_by_id] raise a [MatchingServiceError] whose
    message says "not found", which the router reports as 404; an identifier
    that is not positive makes them raise the error of the identifier check
    instead.  No list is returned in either case. *)
Theorem unresolved_id_fails
    (set_order : gset string -> list string) (db : store) (id : Z)
    (cem active_only : bool) (limit : option Z) :
  (0 < id <= sqlite_max_int ->
   BloodRequestRepository.get_by_id (blood_requests db) id = None ->
   find_matching_donors_by_request_id set_order db id cem limit =
     Raise (MatchingServiceError
              ("Unexpected error: " ++ "Blood request with ID " ++ pretty id ++ " not found")) /\
   fails_with_not_found (find_matching_donors_by_request_id set_order db id cem limit)) /\
  (0 < id <= sqlite_max_int ->
   DonorRepository.get_by_id (donors db) id = None ->
   find_requests_for_donor_by_id db id cem active_only limit =
     Raise (MatchingServiceError
              ("Unexpected error: " ++ "Donor with ID " ++ pretty id ++ " not found")) /\
   fails_with_not_found (find_requests_for_donor_by_id db id cem active_only limit)) /\
  (id <= 0 ->
   find_matching_donors_by_request_id set_order db id cem limit =
     Raise (MatchingServiceError
              "Unexpected error: Blood request ID must be a positive integer") /\
   find_requests_for_donor_by_id db id cem active_only limit =
     Raise (MatchingServiceError "Unexpected error: Donor ID must be a positive integer")).
Proof.
  split; [ | split ].
  - intros Hpos Hnone.
    assert (E : find_matching_donors_by_request_id set_order db id cem limit =
                Raise (MatchingServiceError
                  ("Unexpected error: " ++ "Blood request with ID " ++ pretty id ++ " not found"))).
    { unfold find_matching_donors_by_request_id.
      replace (id <=? 0) with false by lia. rewrite Hnone. reflexivity. }
    split; [ exact E | ]. eexists. split; [ exact E | ].
    unfold MatchingApi.status_of_error.
    rewrite (mentions_not_found "Unexpected error: " "Blood request with ID " (pretty id)).
    reflexivity.
  - intros Hpos Hnone.
    assert (E : find_requests_for_donor_by_id db id cem active_only limit =
                Raise (MatchingServiceError
                  ("Unexpected error: " ++ "Donor with ID " ++ pretty id ++ " not found"))).
    { unfold find_requests_for_donor_by_id.
      replace (id <=? 0) with false by lia. rewrite Hnone. reflexivity. }
    split; [ exact E | ]. eexists. split; [ exact E | ].
    unfold MatchingApi.status_of_error.
    rewrite (mentions_not_found "Unexpected error: " "Donor with ID " (pretty id)).
    reflexivity.
  - intros Hneg. unfold find_matching_donors_by_request_id, find_requests_for_donor_by_id.
    replace (id <=? 0) with true by lia. split; reflexivity.
Qed.

Lemma unresolved_id_fails_witness :
  find_matching_donors_by_request_id elements Sample.db 7 true None =
    Raise (MatchingServiceError "Unexpected error: Blood request with ID 7 not found") /\
  find_requests_for_donor_by_id Sample.db 7 true true None =
    Raise (MatchingServiceError "Unexpected error: Donor with ID 7 not found") /\
  find_matching_donors_by_request_id elements Sample.db (-2) true None =
    Raise (MatchingServiceError
             "Unexpected error: Blood request ID must be a positive integer").
Proof.
  destruct (unresolved_id_fails elements Sample.db 7 true true None) as (Hr & Hd & _).
  destruct (unresolved_id_fails elements Sample.db (-2) true true None) as (_ & _ & Hn).
  split; [ | split ].
  - apply Hr; [ unfold sqlite_max_int; lia | reflexivity ].
  - apply Hd; [ unfold sqlite_max_int; lia | reflexivity ].
  - apply Hn. lia.
Defined.

Lemma get_by_id_Some (table : list BloodRequest.t) (id : Z) (r : BloodRequest.t) :
  BloodRequestRepository.get_by_id table id = Some r ->
  r ∈ table /\ BloodRequest.id r = id.
Proof.
  unfold BloodRequestRepository.get_by_id. intros H.
  apply find_some in H as [Hin Heq]. split; [ apply list_elem_of_In, Hin | lia ].
Qed.

(** C4: for a stored request whose status is not "Active",
    [find_matching_donors_by_request_id] returns the empty list and raises
    nothing, whatever donors the store holds. *)
Theorem inactive_request_has_no_matches
    (set_order : gset string -> list string) (db : store) (request_id : Z)
    (r : BloodRequest.t) (cem : bool) (limit : option Z) :
  keys_positive db ->
  BloodRequestRepository.get_by_id (blood_requests db) request_id = Some r ->
  BloodRequest.status r <> "Active" ->
  find_matching_donors_by_request_id set_order db request_id cem limit = Ok [].
Proof.
  intros [_ Hkeys] Hget Hstatus.
  destruct (get_by_id_Some _ _ _ Hget) as [Hin Hid].
  rewrite Forall_forall in Hkeys. specialize (Hkeys r Hin).
  unfold find_matching_donors_by_request_id.
  replace (request_id <=? 0) with false by lia. rewrite Hget.
  destruct (String.eqb_spec (BloodRequest.status r) "Active") as [E | _];
    [ contradiction | reflexivity ].
Qed.

Lemma inactive_request_has_no_matches_witness :
  find_matching_donors_by_request_id elements Sample.db 2 false None = Ok [] /\
  is_ok (find_matching_donors elements Sample.db Sample.fulfilled_a false None) = true.
Proof.
  split; [ | vm_compute; reflexivity ].
  apply (inactive_request_has_no_matches elements Sample.db 2 Sample.fulfilled_a false None).
  - split; repeat (constructor; [ reflexivity | ]); constructor.
  - reflexivity.
  - discriminate.
Defined.

(** *** Statistics *)

Lemma match_rate_of_value (requests_with_matches total_active_requests : Z) :
  match_rate_of requests_with_matches total_active_requests =
    Ok (if 0 <? total_active_requests
        then inject_Z requests_with_matches / inject_Z total_active_requests * inject_Z 100
        else inject_Z 0)%Q.
Proof.
  unfold match_rate_of, truediv.
  destruct (0 <? total_active_requests) eqn:E; [ | reflexivity ].
  replace (total_active_requests =? 0) with false by lia. reflexivity.
Qed.

Section StatisticsFacts.
Variable set_order : gset string -> list string.
Variable db : store.

Lemma count_potential_matches_total (active : list BloodRequest.t) (n m : Z) :
  Forall BloodRequest.valid active ->
  is_ok (count_potential_matches set_order db active n m) = true.
Proof.
  revert n m. induction active as [| r rs IH]; intros n m Hv; cbn; [ reflexivity | ].
  apply Forall_cons in Hv as [[Hr _] Hv]. apply bool_decide_eq_true in Hr.
  pose proof (find_matching_donors_total set_order db r false Hr None) as H.
  destruct (find_matching_donors set_order db r false None) as [[| x xs] | e];
    [ | | discriminate ]; run; apply IH, Hv.
Qed.

Lemma count_requests_with_matches_total (urgent : list BloodRequest.t) (n : Z) :
  Forall BloodRequest.valid urgent ->
  is_ok (count_requests_with_matches set_order db urgent n) = true.
Proof.
  revert n. induction urgent as [| r rs IH]; intros n Hv; cbn; [ reflexivity | ].
  apply Forall_cons in Hv as [[Hr _] Hv]. apply bool_decide_eq_true in Hr.
  pose proof (find_matching_donors_total set_order db r false Hr None) as H.
  destruct (find_matching_donors set_order db r false None) as [[| x xs] | e];
    [ | | discriminate ]; run; apply IH, Hv.
Qed.

Lemma urgency_loop_total
    (active : list BloodRequest.t) (levels : list string)
    (acc : gmap string urgency_entry) :
  Forall BloodRequest.valid active ->
  is_ok (urgency_loop set_order db active levels acc) = true.
Proof.
  intros Hv. revert acc. induction levels as [| u us IH]; intros acc; cbn;
    [ reflexivity | ].
  match goal with |- context [count_requests_with_matches set_order db ?sel 0] =>
    pose proof (count_requests_with_matches_total sel 0
                  (Forall_List_filter _ _ _ Hv)) as H;
    destruct (count_requests_with_matches set_order db sel 0) as [c | e];
      [ | discriminate ]
  end.
  run. apply IH.
Qed.

Lemma urgency_loop_no_requests (levels : list string) (acc : gmap string urgency_entry) :
  is_ok (urgency_loop set_order db [] levels acc) = true.
Proof. apply urgency_loop_total. constructor. Qed.
End StatisticsFacts.

(** The exact value is one of the values that the two roundings allow. *)
Lemma double_of_exact (x : Q) : double_of x x.
Proof.
  unfold double_of. assert (E : (x - x == 0)%Q) by ring. rewrite E.
  apply Qmult_le_0_compat; [ apply Qabs_nonneg | discriminate ].
Qed.

(** C6: a division by zero would raise, and the guard keeps the match rate
    away from it: the rate is 0 when there is no active request and otherwise
    the double computed for [requests_with_matches / total_active_requests *
    100], which is that quotient up to the rounding of the division and of
    the product (for counts of rows, which SQLite keeps below 2^63); the
    guarded expression never raises, and the report is produced on every
    table of validated requests. *)
Theorem match_rate_guarded
    (set_order : gset string -> list string) (db : store) (now : string) :
  (forall a : Z, truediv a 0 = Raise (ZeroDivisionError "division by zero")) /\
  (forall requests_with_matches total_active_requests : Z,
      total_active_requests <= 0 ->
      match_rate_of requests_with_matches total_active_requests = Ok (inject_Z 0)) /\
  (forall requests_with_matches total_active_requests : Z,
      0 <= requests_with_matches <= total_active_requests ->
      0 < total_active_requests <= sqlite_max_int ->
      exists rate,
        match_rate_of requests_with_matches total_active_requests = Ok rate /\
        double_of rate
          (inject_Z requests_with_matches / inject_Z total_active_requests * inject_Z 100)) /\
  (forall s : statistics,
      get_matching_statistics set_order db now = Ok s ->
      total_active_requests s =
        Z.of_nat (length (BloodRequestRepository.get_active_requests (blood_requests db))) /\
      (total_active_requests s = 0 -> match_rate s = inject_Z 0) /\
      (0 < total_active_requests s <= sqlite_max_int ->
       double_of (match_rate s)
         (inject_Z (requests_with_potential_matches s) / inject_Z (total_active_requests s)
          * inject_Z 100))) /\
  (BloodRequestRepository.get_active_requests (blood_requests db) = [] ->
   exists s : statistics,
     get_matching_statistics set_order db now = Ok s /\ match_rate s = inject_Z 0) /\
  (requests_valid db -> is_ok (get_matching_statistics set_order db now) = true).
Proof.
  split; [ reflexivity | ].
  split.
  { intros a b Hb. rewrite match_rate_of_value. replace (0 <? b) with false by lia.
    reflexivity. }
  split.
  { intros a b Ha Hb. rewrite match_rate_of_value. replace (0 <? b) with true by lia.
    eexists. split; [ reflexivity | ]. apply double_of_exact. }
  split; [ | split ].
  - intros s. unfold get_matching_statistics. rewrite guarded_Ok.
    cbv zeta. rewrite bind_Ok. intros (counters & _ & H).
    apply bind_Ok in H as (us & _ & H). rewrite match_rate_of_value in H.
    cbn in H. injection H as <-. cbn. split; [ reflexivity | ]. split.
    + intros ->. reflexivity.
    + intros [Hpos _]. apply Z.ltb_lt in Hpos. rewrite Hpos. apply double_of_exact.
  - intros Hnone. unfold get_matching_statistics. rewrite Hnone. cbv zeta.
    cbn [count_potential_matches length]. run.
    match goal with |- context [urgency_loop set_order db [] ?lv ?acc] =>
      pose proof (urgency_loop_no_requests set_order db lv acc) as H;
      destruct (urgency_loop set_order db [] lv acc) as [us | e]; [ | discriminate ]
    end.
    run. eexists. split; reflexivity.
  - intros Hdb. unfold get_matching_statistics. cbv zeta.
    assert (Hactive : Forall BloodRequest.valid
              (BloodRequestRepository.get_active_requests (blood_requests db)))
      by apply Forall_List_filter, Hdb.
    pose proof (count_potential_matches_total set_order db _ 0 0 Hactive) as Hc.
    destruct (count_potential_matches _ _ _ _ _) as [counters | e]; [ | discriminate ].
    run.
    match goal with |- context [urgency_loop set_order db ?act ?lv ?acc] =>
      pose proof (urgency_loop_total set_order db act lv acc Hactive) as H;
      destruct (urgency_loop set_order db act lv acc) as [us | e]; [ | discriminate ]
    end.
    run. rewrite match_rate_of_value. reflexivity.
Qed.

Lemma match_rate_guarded_witness :
  match_rate <$> get_matching_statistics elements Sample.empty "2024-01-01T00:00:00" =
    Ok (inject_Z 0) /\
  exists s,
    get_matching_statistics elements Sample.db "2024-01-01T00:00:00" = Ok s /\
    total_active_requests s = 3 /\
    double_of (match_rate s) (inject_Z 3 / inject_Z 3 * inject_Z 100).
Proof.
  destruct (match_rate_guarded elements Sample.empty "2024-01-01T00:00:00")
    as (_ & _ & _ & _ & Hnone & _).
  destruct (Hnone eq_refl) as (s & Hs & Hzero).
  split; [ rewrite Hs; cbn [fmap result_fmap]; rewrite Hzero; reflexivity | ].
  destruct (match_rate_guarded elements Sample.db "2024-01-01T00:00:00")
    as (_ & _ & _ & Hrate & _ & _).
  destruct (get_matching_statistics elements Sample.db "2024-01-01T00:00:00")
    as [s' | e] eqn:E; [ | vm_compute in E; discriminate ].
  destruct (Hrate s' eq_refl) as (_ & _ & Hs').
  exists s'. split; [ reflexivity | ].
  vm_compute in E. injection E as <-. split; [ reflexivity | ].
  apply Hs'. unfold sqlite_max_int. cbn. lia.
Defined.

(** ** Further properties of the matching service *)

(** *** Blood groups outside the table *)

Lemma compatibility_map_None (R : string) :
  R ∉ valid_blood_groups -> _compatibility_map !! R = None.
Proof.
  intros H. apply not_elem_of_dom. rewrite compatibility_map_dom. exact H.
Qed.

(** X1: a recipient group outside the 8 canonical ones is rejected: the set
    lookup, the compatibility test and the donor search all raise a
    [MatchingServiceError] that names the group, each layer adding its own
    prefix; the set lookup succeeds exactly on the canonical groups. *)
Theorem noncanonical_group_rejected
    (set_order : gset string -> list string) (db : store)
    (D R : string) (r : BloodRequest.t) (cem : bool) (limit : option Z) :
  R ∉ valid_blood_groups ->
  BloodRequest.blood_group r = R ->
  get_compatible_blood_groups R =
    Raise (MatchingServiceError
             ("Failed to get compatible blood groups: " ++ "Invalid blood group: " ++ R)) /\
  is_blood_compatible D R =
    Raise (MatchingServiceError
             ("Failed to check blood compatibility: " ++
              "Failed to get compatible blood groups: " ++ "Invalid blood group: " ++ R)) /\
  find_matching_donors set_order db r cem limit =
    Raise (MatchingServiceError
             ("Unexpected error: " ++
              "Failed to get compatible blood groups: " ++ "Invalid blood group: " ++ R)) /\
  (forall R', is_ok (get_compatible_blood_groups R') = true <-> R' ∈ valid_blood_groups).
Proof.
  intros HR Hr.
  assert (E : get_compatible_blood_groups R =
              Raise (MatchingServiceError
                ("Failed to get compatible blood groups: " ++ "Invalid blood group: " ++ R))).
  { unfold get_compatible_blood_groups. rewrite (compatibility_map_None R HR). reflexivity. }
  split; [ exact E | ]. split; [ | split ].
  - unfold is_blood_compatible. rewrite E. reflexivity.
  - unfold find_matching_donors. rewrite Hr, E. reflexivity.
  - intros R'. split.
    + intros Hok. destruct (get_compatible_blood_groups R') as [g |] eqn:Eg; [ | discriminate ].
      apply get_compatible_blood_groups_Ok in Eg as [Hv _]. exact Hv.
    + intros Hv. rewrite (get_compatible_blood_groups_valid R' Hv). reflexivity.
Qed.

Lemma noncanonical_group_rejected_witness :
  get_compatible_blood_groups "o+" =
    Raise (MatchingServiceError
             "Failed to get compatible blood groups: Invalid blood group: o+") /\
  is_blood_compatible "O-" "" =
    Raise (MatchingServiceError
             "Failed to check blood compatibility: Failed to get compatible blood groups: Invalid blood group: ").
Proof.
  assert (H1 : "o+" ∉ valid_blood_groups) by decide_by_compute.
  assert (H2 : "" ∉ valid_blood_groups) by decide_by_compute.
  pose (r1 := BloodRequest.Build 1 "Jane Smith" "o+" "Delhi" "Low" None "9876543210" "Active" None).
  pose (r2 := BloodRequest.Build 1 "Jane Smith" "" "Delhi" "Low" None "9876543210" "Active" None).
  destruct (noncanonical_group_rejected elements Sample.db "O-" "o+" r1 true None H1 eq_refl)
    as (Hget & _).
  destruct (noncanonical_group_rejected elements Sample.db "O-" "" r2 true None H2 eq_refl)
    as (_ & Hcompat & _).
  split; [ exact Hget | exact Hcompat ].
Defined.

(** *** The compatibility relation *)

Lemma canonical_groups_valid (g : string) : g ∈ canonical_groups <-> g ∈ valid_blood_groups.
Proof.
  unfold canonical_groups, valid_blood_groups.
  rewrite !elem_of_cons, elem_of_nil, !elem_of_union, !elem_of_singleton. tauto.
Qed.

Lemma donates_to_decide (D R : string) :
  R ∈ valid_blood_groups ->
  donates_to D R <-> D ∈ canonical_donor_groups R.
Proof.
  intros HR. unfold donates_to. rewrite (is_blood_compatible_valid D R HR).
  split.
  - intros [= H]. apply bool_decide_eq_true in H. exact H.
  - intros H. f_equal. apply bool_decide_eq_true_2, H.
Qed.

(** The order laws, checked over the 8 groups by evaluation. *)
Lemma compatibility_order_checked :
  let gives A B := bool_decide (A ∈ canonical_donor_groups B) in
  forallb (fun A =>
    gives A A && gives "O-" A && gives A "AB+" &&
    forallb (fun B =>
      implb (gives A B && gives B A) (String.eqb A B) &&
      implb (gives A B && rh_negative B) (rh_negative A) &&
      forallb (fun C => implb (gives A B && gives B C) (gives A C)) canonical_groups)
      canonical_groups)
    canonical_groups = true.
Proof. vm_compute. reflexivity. Qed.

(** X2: on the canonical groups, "may give to" is a partial order with O- at
    the bottom and AB+ at the top: every group gives to itself, O- gives to
    every group, every group gives to AB+, giving is transitive and two
    distinct groups never give to each other; a donor of a Rh-negative
    recipient is Rh-negative. *)
Theorem compatibility_is_an_order (A B C : string) :
  A ∈ valid_blood_groups -> B ∈ valid_blood_groups -> C ∈ valid_blood_groups ->
  donates_to A A /\
  donates_to "O-" A /\
  donates_to A "AB+" /\
  (donates_to A B -> donates_to B C -> donates_to A C) /\
  (donates_to A B -> donates_to B A -> A = B) /\
  (donates_to A B -> rh_negative B = true -> rh_negative A = true).
Proof.
  intros HA HB HC.
  assert (Htop : "AB+" ∈ valid_blood_groups) by decide_by_compute.
  rewrite !(donates_to_decide _ A HA), !(donates_to_decide _ B HB),
    !(donates_to_decide _ C HC), !(donates_to_decide _ "AB+" Htop).
  apply canonical_groups_valid, list_elem_of_In in HA, HB, HC.
  pose proof compatibility_order_checked as Hall. cbv zeta in Hall.
  rewrite forallb_forall in Hall. specialize (Hall A HA).
  rewrite !andb_true_iff in Hall. destruct Hall as [[[Hrefl Hbot] Htopm] Hall].
  rewrite forallb_forall in Hall. specialize (Hall B HB).
  rewrite !andb_true_iff in Hall. destruct Hall as [[Hanti Hrh] Hall].
  rewrite forallb_forall in Hall. specialize (Hall C HC).
  apply bool_decide_eq_true in Hrefl, Hbot, Htopm.
  split; [ exact Hrefl | ]. split; [ exact Hbot | ]. split; [ exact Htopm | ].
  split; [ | split ].
  - intros HAB HBC.
    apply (bool_decide_eq_true_2 _) in HAB. apply (bool_decide_eq_true_2 _) in HBC.
    rewrite HAB, HBC in Hall. exact (bool_decide_eq_true_1 _ Hall).
  - intros HAB HBA.
    apply (bool_decide_eq_true_2 _) in HAB. apply (bool_decide_eq_true_2 _) in HBA.
    rewrite HAB, HBA in Hanti. apply String.eqb_eq, Hanti.
  - intros HAB Hneg. apply (bool_decide_eq_true_2 _) in HAB.
    rewrite HAB, Hneg in Hrh. exact Hrh.
Qed.

Lemma compatibility_is_an_order_witness :
  donates_to "O-" "B-" /\ donates_to "B-" "AB+" /\ donates_to "O-" "AB+".
Proof.
  assert (H1 : "O-" ∈ valid_blood_groups) by decide_by_compute.
  assert (H2 : "B-" ∈ valid_blood_groups) by decide_by_compute.
  assert (H3 : "AB+" ∈ valid_blood_groups) by decide_by_compute.
  destruct (compatibility_is_an_order "O-" "B-" "AB+" H1 H2 H3) as (_ & _ & _ & Htrans & _).
  destruct (compatibility_is_an_order "B-" "B-" "AB+" H2 H2 H3) as (_ & Hbot & Htop & _).
  split; [ exact Hbot | ]. split; [ exact Htop | ].
  apply Htrans; [ exact Hbot | exact Htop ].
Defined.
(** *** The shape of the donor list *)

Lemma is_blood_compatible_Ok (D R : string) (b : bool) :
  is_blood_compatible D R = Ok b ->
  R ∈ valid_blood_groups /\ b = bool_decide (D ∈ canonical_donor_groups R).
Proof.
  unfold is_blood_compatible. rewrite reraise_Ok, bind_Ok.
  intros (groups & Hg & H). apply get_compatible_blood_groups_Ok in Hg as [HR ->].
  injection H as <-. split; [ exact HR | reflexivity ].
Qed.

Lemma point_model_flag_points (d : Donor.t) (r : BloodRequest.t) :
  point_model d r =
    flag_points
      (bool_decide (Donor.blood_group d ∈ canonical_donor_groups (BloodRequest.blood_group r)))
      (String.eqb (Donor.blood_group d) (BloodRequest.blood_group r))
      (String.eqb (lower (Donor.city d)) (lower (BloodRequest.city r)))
      (BloodRequest.urgency r).
Proof.
  unfold point_model, flag_points.
  pose proof (urgency_points_range (BloodRequest.urgency r)).
  destruct (bool_decide _), (String.eqb _ _), (String.eqb _ _); lia.
Qed.

Lemma calculate_match_score_Ok (d : Donor.t) (r : BloodRequest.t) (mode : bool) (s : Z) :
  _calculate_match_score d r mode = Ok s ->
  BloodRequest.blood_group r ∈ valid_blood_groups /\ s = point_model d r.
Proof.
  intros H.
  assert (Hr : BloodRequest.blood_group r ∈ valid_blood_groups).
  { unfold _calculate_match_score in H. apply bind_Ok in H as (b & Hb & _).
    apply is_blood_compatible_Ok in Hb as [Hr _]. exact Hr. }
  rewrite (calculate_match_score_valid d r mode Hr) in H. injection H as <-.
  split; [ exact Hr | reflexivity ].
Qed.

(** What a created donor record holds. *)
Lemma create_match_info_Ok (d : Donor.t) (r : BloodRequest.t) (cem : bool) (m : donor_match) :
  _create_match_info d r cem = Ok m ->
  BloodRequest.blood_group r ∈ valid_blood_groups /\
  m = {| dm_donor := donor_info_of d;
         dm_match_score := point_model d r;
         dm_blood_compatible :=
           bool_decide (Donor.blood_group d ∈
                          canonical_donor_groups (BloodRequest.blood_group r));
         dm_city_match :=
           String.eqb (lower (Donor.city d)) (lower (BloodRequest.city r));
         dm_exact_blood_match :=
           String.eqb (Donor.blood_group d) (BloodRequest.blood_group r);
         dm_match_details := details d r |}.
Proof.
  unfold _create_match_info. rewrite bind_Ok. intros (s & Hs & H).
  apply calculate_match_score_Ok in Hs as [Hr ->]. split; [ exact Hr | ].
  rewrite (is_blood_compatible_valid _ _ Hr) in H. cbn in H. injection H as <-.
  rewrite !bool_decide_eqb. reflexivity.
Qed.

Lemma create_request_match_info_Ok
    (r : BloodRequest.t) (d : Donor.t) (cem : bool) (m : request_match) :
  _create_request_match_info r d cem = Ok m ->
  BloodRequest.blood_group r ∈ valid_blood_groups /\
  m = {| rm_request := request_info_of r;
         rm_match_score := point_model d r;
         rm_urgency_priority := urgency_rank (BloodRequest.urgency r);
         rm_blood_compatible :=
           bool_decide (Donor.blood_group d ∈
                          canonical_donor_groups (BloodRequest.blood_group r));
         rm_city_match :=
           String.eqb (lower (Donor.city d)) (lower (BloodRequest.city r));
         rm_exact_blood_match :=
           String.eqb (Donor.blood_group d) (BloodRequest.blood_group r);
         rm_match_details := details d r |}.
Proof.
  unfold _create_request_match_info. rewrite bind_Ok. intros (s & Hs & H).
  apply calculate_match_score_Ok in Hs as [Hr ->]. split; [ exact Hr | ].
  rewrite (is_blood_compatible_valid _ _ Hr) in H. cbn in H. injection H as <-.
  rewrite !bool_decide_eqb, priority_map_lookup. reflexivity.
Qed.

Lemma append_donor_matches_shape
    (ds : list Donor.t) (r : BloodRequest.t) (cem : bool) (acc l : list donor_match) :
  append_donor_matches ds r cem acc = Ok l ->
  exists ms, l = (acc ++ ms)%list /\ Forall2 (donor_record_of r cem) ds ms.
Proof.
  revert acc. induction ds as [| d ds IH]; intros acc; cbn.
  - intros [= <-]. exists []. split; [ symmetry; apply app_nil_r | constructor ].
  - rewrite bind_Ok. intros (m & Hm & H). apply IH in H as (ms & -> & Hms).
    exists (m :: ms). split; [ rewrite <- app_assoc; reflexivity | ].
    constructor; [ exact Hm | exact Hms ].
Qed.

Lemma collect_donor_matches_shape
    (db : store) (gs : list string) (r : BloodRequest.t) (cem : bool)
    (acc l : list donor_match) :
  collect_donor_matches db gs r cem acc = Ok l ->
  exists ms, l = (acc ++ ms)%list /\
             Forall2 (donor_record_of r cem) (gs ≫= fetched db r cem) ms.
Proof.
  revert acc. induction gs as [| g gs IH]; intros acc; cbn.
  - intros [= <-]. exists []. split; [ symmetry; apply app_nil_r | constructor ].
  - rewrite bind_Ok. intros (acc' & Hacc' & H).
    apply append_donor_matches_shape in Hacc' as (ms1 & -> & H1).
    apply IH in H as (ms2 & -> & H2).
    exists (ms1 ++ ms2)%list. split; [ rewrite <- app_assoc; reflexivity | ].
    apply Forall2_app; [ exact H1 | exact H2 ].
Qed.

(** The list before ranking and truncation: one record per fetched donor, in
    the order of the fetches. *)
Lemma find_matching_donors_shape
    (set_order : gset string -> list string) (db : store) (r : BloodRequest.t)
    (cem : bool) (limit : option Z) (l : list donor_match) :
  find_matching_donors set_order db r cem limit = Ok l ->
  BloodRequest.blood_group r ∈ valid_blood_groups /\
  exists ms,
    Forall2 (donor_record_of r cem)
      (set_order (canonical_donor_groups (BloodRequest.blood_group r)) ≫= fetched db r cem)
      ms /\
    l = apply_limit limit (sort_desc Z.ltb dm_match_score ms).
Proof.
  unfold find_matching_donors. rewrite guarded_Ok, bind_Ok.
  intros (groups & Hg & H). apply get_compatible_blood_groups_Ok in Hg as [Hr ->].
  split; [ exact Hr | ]. apply bind_Ok in H as (ms & Hms & H).
  apply collect_donor_matches_shape in Hms as (ms' & -> & Hms'). cbn in H.
  injection H as <-. exists ms'. split; [ exact Hms' | reflexivity ].
Qed.

Lemma apply_limit_sublist {A} (limit : option Z) (l : list A) (x : A) :
  x ∈ apply_limit limit l -> x ∈ l.
Proof.
  destruct (apply_limit_take limit l) as [n ->]. apply subseteq_take.
Qed.

(** Every ranked record was made for a fetched donor. *)
Lemma find_matching_donors_provenance
    (set_order : gset string -> list string) (db : store) (r : BloodRequest.t)
    (cem : bool) (limit : option Z) (l : list donor_match) (m : donor_match) :
  find_matching_donors set_order db r cem limit = Ok l -> m ∈ l ->
  exists g d,
    g ∈ set_order (canonical_donor_groups (BloodRequest.blood_group r)) /\
    d ∈ fetched db r cem g /\ donor_record_of r cem d m.
Proof.
  intros H Hm. apply find_matching_donors_shape in H as (_ & ms & Hms & ->).
  apply apply_limit_sublist in Hm. rewrite sort_desc_perm in Hm.
  apply list_elem_of_lookup in Hm as [i Hi].
  destruct (Forall2_lookup_r _ _ _ _ _ Hms Hi) as (d & Hd & Hrec).
  apply list_elem_of_lookup_2, list_elem_of_bind in Hd as (g & Hd & Hg).
  exists g, d. auto.
Qed.
Lemma fetched_where (db : store) (r : BloodRequest.t) (cem : bool) (g : string) (d : Donor.t) :
  g ∈ valid_blood_groups ->
  d ∈ fetched db r cem g <->
  d ∈ donors db /\ Donor.blood_group d = g /\
  (negb cem || negb (truthy_str (BloodRequest.city r)) ||
   String.eqb (lower (Donor.city d)) (lower (BloodRequest.city r))) = true.
Proof.
  intros Hg. pose proof (valid_blood_group_truthy g Hg) as Ht.
  unfold fetched, DonorRepository.search_by_blood_group_and_city,
    DonorRepository.search_by_blood_group, DonorRepository.get_all.
  rewrite list_elem_of_In.
  destruct cem; rewrite filter_In, <- list_elem_of_In;
    unfold DonorRepository.where_, DonorRepository.cond; cbn; rewrite Ht;
    rewrite ?andb_true_iff, ?bool_decide_eq_true.
  - destruct (truthy_str (BloodRequest.city r)); cbn;
      rewrite ?bool_decide_eqb; intuition.
  - intuition.
Qed.

(** X3: the records returned by [find_matching_donors], and so by the lookup
    by request id, are in descending order of [match_score]. *)
Theorem find_matching_donors_sorted
    (set_order : gset string -> list string) (db : store) (r : BloodRequest.t)
    (request_id : Z) (cem : bool) (limit : option Z) :
  (forall l, find_matching_donors set_order db r cem limit = Ok l ->
             StronglySorted scores_descend l) /\
  (forall l, find_matching_donors_by_request_id set_order db request_id cem limit = Ok l ->
             StronglySorted scores_descend l).
Proof.
  assert (Hfind : forall r' l, find_matching_donors set_order db r' cem limit = Ok l ->
                               StronglySorted scores_descend l).
  { intros r' l H. apply find_matching_donors_shape in H as (_ & ms & _ & ->).
    destruct (apply_limit_take limit (sort_desc Z.ltb dm_match_score ms)) as [n ->].
    apply StronglySorted_take.
    eapply StronglySorted_weaken; [ | apply sort_desc_sorted ].
    - intros x y. unfold precedes, scores_descend. lia.
    - intros a b. lia.
    - intros a b c. lia. }
  split; [ apply Hfind | ].
  intros l. unfold find_matching_donors_by_request_id. rewrite guarded_Ok.
  destruct (request_id <=? 0); [ discriminate | ].
  destruct (BloodRequestRepository.get_by_id _ _) as [req |]; [ | discriminate ].
  destruct (negb _); [ intros [= <-]; constructor | apply Hfind ].
Qed.

Lemma find_matching_donors_sorted_witness :
  exists l,
    find_matching_donors elements Sample.db Sample.low_ab false None = Ok l /\
    map dm_match_score l = [ 91; 71; 41 ] /\ StronglySorted scores_descend l.
Proof.
  eexists. split; [ vm_compute; reflexivity | ]. split; [ reflexivity | ].
  refine (proj1 (find_matching_donors_sorted
                   elements Sample.db Sample.low_ab 3 false None) _ _).
  vm_compute. reflexivity.
Defined.

Lemma apply_limit_positive {A} (k : Z) (l : list A) :
  0 < k -> apply_limit (Some k) l = take (Z.to_nat k) l.
Proof.
  intros Hk. unfold apply_limit, truthy_opt_int, slice_to.
  replace (k =? 0) with false by lia. replace (k <? 0) with false by lia. reflexivity.
Qed.

(** X4: a positive limit [k] keeps the first [k] records of the ranking that
    is returned without a limit (all of them when there are fewer), in both
    directions of the search; so at most [k] records come back. *)
Theorem positive_limit_keeps_top
    (set_order : gset string -> list string) (db : store)
    (r : BloodRequest.t) (d : Donor.t) (cem active_only : bool) (k : Z) :
  0 < k ->
  find_matching_donors set_order db r cem (Some k) =
    take (Z.to_nat k) <$> find_matching_donors set_order db r cem None /\
  find_requests_for_donor db d cem active_only (Some k) =
    take (Z.to_nat k) <$> find_requests_for_donor db d cem active_only None /\
  (forall l, find_matching_donors set_order db r cem (Some k) = Ok l ->
             Z.of_nat (length l) <= k) /\
  (forall l, find_requests_for_donor db d cem active_only (Some k) = Ok l ->
             Z.of_nat (length l) <= k).
Proof.
  intros Hk.
  assert (E1 : find_matching_donors set_order db r cem (Some k) =
               take (Z.to_nat k) <$> find_matching_donors set_order db r cem None).
  { unfold find_matching_donors.
    destruct (get_compatible_blood_groups _) as [groups | e]; [ | raised ]. run.
    destruct (collect_donor_matches _ _ _ _ _) as [ms | e]; [ | raised ]. run.
    rewrite (apply_limit_positive k _ Hk). reflexivity. }
  assert (E2 : find_requests_for_donor db d cem active_only (Some k) =
               take (Z.to_nat k) <$> find_requests_for_donor db d cem active_only None).
  { unfold find_requests_for_donor.
    match goal with |- context [if cem then ?a else ?b] =>
      destruct (if cem then a else b) as [rs | e]; [ | raised ] end.
    run.
    destruct (append_request_matches _ _ _ _) as [ms | e]; [ | raised ]. run.
    rewrite (apply_limit_positive k _ Hk). reflexivity. }
  split; [ exact E1 | ]. split; [ exact E2 | ]. split.
  - intros l. rewrite E1.
    destruct (find_matching_donors set_order db r cem None) as [full | e]; [ | discriminate ].
    intros [= <-]. rewrite length_take. lia.
  - intros l. rewrite E2.
    destruct (find_requests_for_donor db d cem active_only None) as [full | e];
      [ | discriminate ].
    intros [= <-]. rewrite length_take. lia.
Qed.

Lemma positive_limit_keeps_top_witness :
  map dm_match_score <$>
    find_matching_donors elements Sample.db Sample.low_ab false (Some 2) = Ok [ 91; 71 ] /\
  map request_key <$>
    find_requests_for_donor Sample.db Sample.asha false false (Some 5) =
    Ok [ (4, 80); (3, 77); (1, 91); (1, 71) ].
Proof.
  destruct (positive_limit_keeps_top elements Sample.db Sample.low_ab Sample.asha
              false false 2 ltac:(lia)) as (-> & _).
  destruct (positive_limit_keeps_top elements Sample.db Sample.low_ab Sample.asha
              false false 5 ltac:(lia)) as (_ & -> & _).
  split; vm_compute; reflexivity.
Defined.

(** X5: with the city filter on and a request that names a city, every
    record returned has [city_match] true, comes from a donor of a compatible
    group and scores at least 70. *)
Theorem city_filter_gives_city_matches
    (set_order : gset string -> list string) (db : store) (r : BloodRequest.t)
    (limit : option Z) (l : list donor_match) :
  set_iteration set_order ->
  truthy_str (BloodRequest.city r) = true ->
  find_matching_donors set_order db r true limit = Ok l ->
  Forall (fun m => dm_city_match m = true /\ dm_blood_compatible m = true /\
                   70 <= dm_match_score m) l.
Proof.
  intros Hiter Hcity H. apply Forall_forall. intros m Hm.
  destruct (find_matching_donors_provenance _ _ _ _ _ _ _ H Hm) as (g & d & Hg & Hd & Hrec).
  pose proof (set_iteration_member set_order
                (canonical_donor_groups (BloodRequest.blood_group r)) Hiter) as Hmem.
  rewrite Forall_forall in Hmem. apply Hmem in Hg.
  apply (fetched_where db r true g d (canonical_donor_groups_valid _ _ Hg)) in Hd
    as (_ & Hbg & Hc).
  rewrite Hcity in Hc. cbn in Hc.
  apply create_match_info_Ok in Hrec as [_ ->]. cbn.
  rewrite point_model_flag_points, Hc, Hbg, (bool_decide_eq_true_2 _ Hg).
  split; [ reflexivity | ]. split; [ reflexivity | ].
  pose proof (urgency_points_range (BloodRequest.urgency r)).
  cbv beta iota delta [flag_points].
  destruct (String.eqb g (BloodRequest.blood_group r)); lia.
Qed.

Lemma city_filter_gives_city_matches_witness :
  exists l,
    find_matching_donors elements Sample.db Sample.low_ab true None = Ok l /\
    map dm_match_score l = [ 91; 71 ] /\
    Forall (fun m => dm_city_match m = true /\ dm_blood_compatible m = true /\
                     70 <= dm_match_score m) l.
Proof.
  eexists. split; [ vm_compute; reflexivity | ]. split; [ reflexivity | ].
  refine (city_filter_gives_city_matches elements Sample.db Sample.low_ab None _ _ _ _).
  - intros X. reflexivity.
  - reflexivity.
  - vm_compute. reflexivity.
Defined.
(** *** No donor is missed *)

Lemma List_filter_ext_in {A} (f g : A -> bool) (l : list A) :
  (forall x, x ∈ l -> f x = g x) -> List.filter f l = List.filter g l.
Proof.
  intros H. apply filter_ext_in. intros x Hx. apply H, list_elem_of_In, Hx.
Qed.

Lemma List_filter_split {A} (p q pq : A -> bool) (l : list A) :
  (forall x, pq x = p x || q x) -> (forall x, p x && q x = false) ->
  List.filter pq l ≡ₚ (List.filter p l ++ List.filter q l)%list.
Proof.
  intros Hpq Hdisj. induction l as [| x l IH]; cbn; [ reflexivity | ].
  rewrite (Hpq x). specialize (Hdisj x).
  destruct (p x), (q x); cbn in *; try discriminate.
  - rewrite IH. reflexivity.
  - rewrite IH. apply Permutation_middle.
  - exact IH.
Qed.

Lemma List_filter_none {A} (f : A -> bool) (l : list A) :
  (forall x, f x = false) -> List.filter f l = [].
Proof.
  intros H. induction l as [| x l IH]; cbn; [ reflexivity | ]. rewrite (H x). exact IH.
Qed.

Section Fetches.
Variables (db : store) (r : BloodRequest.t) (cem : bool).

(** The city condition of a fetch. *)
Let in_city (d : Donor.t) : bool :=
  negb cem || negb (truthy_str (BloodRequest.city r)) ||
  String.eqb (lower (Donor.city d)) (lower (BloodRequest.city r)).

Lemma fetched_filter (g : string) :
  g ∈ valid_blood_groups ->
  fetched db r cem g =
    List.filter (fun d => bool_decide (Donor.blood_group d = g) && in_city d) (donors db).
Proof.
  intros Hg. pose proof (valid_blood_group_truthy g Hg) as Ht.
  unfold fetched, DonorRepository.search_by_blood_group_and_city,
    DonorRepository.search_by_blood_group, DonorRepository.get_all, in_city.
  destruct cem; apply List_filter_ext_in; intros d _;
    unfold DonorRepository.where_, DonorRepository.cond; cbn; rewrite Ht.
  - destruct (truthy_str (BloodRequest.city r)); cbn;
      rewrite ?bool_decide_eqb; reflexivity.
  - rewrite andb_true_r. reflexivity.
Qed.

Lemma bind_fetched_perm (gs : list string) :
  NoDup gs -> Forall (fun g => g ∈ valid_blood_groups) gs ->
  gs ≫= fetched db r cem ≡ₚ
    List.filter (fun d => bool_decide (Donor.blood_group d ∈ gs) && in_city d) (donors db).
Proof.
  induction gs as [| g gs IH]; intros Hnd Hv.
  - cbn. rewrite List_filter_none; [ reflexivity | ].
    intros d. rewrite bool_decide_eq_false_2; [ reflexivity | apply not_elem_of_nil ].
  - apply NoDup_cons in Hnd as [Hg Hnd]. apply Forall_cons in Hv as [Hgv Hv].
    cbn. rewrite (IH Hnd Hv), (fetched_filter g Hgv).
    symmetry. apply List_filter_split.
    + intros d. rewrite <- andb_orb_distrib_l. f_equal.
      destruct (decide (Donor.blood_group d = g)) as [E | E].
      * rewrite (bool_decide_eq_true_2 _ E).
        apply bool_decide_eq_true_2. rewrite E. apply list_elem_of_here.
      * rewrite (bool_decide_eq_false_2 _ E). cbn.
        apply bool_decide_ext. rewrite elem_of_cons. tauto.
    + intros d. destruct (decide (Donor.blood_group d = g)) as [E | E].
      * rewrite (bool_decide_eq_false_2 (Donor.blood_group d ∈ gs));
          [ | rewrite E; exact Hg ].
        cbn. apply andb_false_r.
      * rewrite (bool_decide_eq_false_2 _ E). reflexivity.
Qed.
End Fetches.

Lemma donor_records_info
    (r : BloodRequest.t) (cem : bool) (ds : list Donor.t) (ms : list donor_match) :
  Forall2 (donor_record_of r cem) ds ms -> map dm_donor ms = map donor_info_of ds.
Proof.
  induction 1 as [| d m ds ms Hrec _ IH]; cbn; [ reflexivity | ].
  apply create_match_info_Ok in Hrec as [_ ->]. cbn. f_equal. exact IH.
Qed.

Lemma find_matching_donors_perm
    (set_order : gset string -> list string) (db : store) (r : BloodRequest.t)
    (cem : bool) (l : list donor_match) :
  set_iteration set_order ->
  find_matching_donors set_order db r cem None = Ok l ->
  map dm_donor l ≡ₚ map donor_info_of (List.filter (eligible_donor r cem) (donors db)).
Proof.
  intros Hiter H.
  apply find_matching_donors_shape in H as (_ & ms & Hms & ->).
  cbn [apply_limit]. rewrite (Permutation_map dm_donor (sort_desc_perm _ _ ms)).
  rewrite (donor_records_info _ _ _ _ Hms). apply Permutation_map.
  set (S := canonical_donor_groups (BloodRequest.blood_group r)).
  rewrite bind_fetched_perm.
  - erewrite List_filter_ext_in; [ reflexivity | ].
    intros d _. unfold eligible_donor. f_equal. apply bool_decide_ext.
    rewrite (Hiter S). apply elem_of_elements.
  - rewrite (Hiter S). apply NoDup_elements.
  - apply Forall_forall. intros g Hg. rewrite (Hiter S) in Hg.
    apply elem_of_elements in Hg. exact (canonical_donor_groups_valid _ _ Hg).
Qed.

(** X6: without a limit, [find_matching_donors] lists each eligible donor of
    the store exactly once: the ['donor'] entries of the result are, up to
    order, those of the donors whose group is compatible with the request
    (and, with the city filter on, whose city is the request's up to case). *)
Theorem find_matching_donors_complete
    (set_order : gset string -> list string) (db : store) (r : BloodRequest.t)
    (cem : bool) (l : list donor_match) :
  set_iteration set_order ->
  find_matching_donors set_order db r cem None = Ok l ->
  map dm_donor l ≡ₚ map donor_info_of (List.filter (eligible_donor r cem) (donors db)) /\
  length l = length (List.filter (eligible_donor r cem) (donors db)).
Proof.
  intros Hiter H.
  pose proof (find_matching_donors_perm set_order db r cem l Hiter H) as Hperm.
  split; [ exact Hperm | ].
  apply Permutation_length in Hperm. rewrite !length_map in Hperm. exact Hperm.
Qed.

Lemma find_matching_donors_complete_witness :
  exists l,
    find_matching_donors elements Sample.db Sample.critical_a false None = Ok l /\
    map dm_donor l ≡ₚ [ donor_info_of Sample.asha; donor_info_of Sample.ravi ].
Proof.
  eexists. split; [ vm_compute; reflexivity | ].
  refine (proj1 (find_matching_donors_complete
                   elements Sample.db Sample.critical_a false _ _ _)).
  - intros X. reflexivity.
  - vm_compute. reflexivity.
Defined.
(** *** The shape of the request list *)

Lemma List_filter_filter {A} (f g : A -> bool) (l : list A) :
  List.filter f (List.filter g l) = List.filter (fun x => g x && f x) l.
Proof.
  induction l as [| x l IH]; cbn; [ reflexivity | ].
  destruct (g x); cbn; [ destruct (f x) | ]; rewrite IH; reflexivity.
Qed.

Lemma compatible_requests_shape (d : Donor.t) (rs kept : list BloodRequest.t) :
  compatible_requests d rs = Ok kept -> kept = List.filter (can_give d) rs.
Proof.
  revert kept. induction rs as [| r rs IH]; intros kept; cbn.
  - intros [= <-]. reflexivity.
  - rewrite bind_Ok. intros (b & Hb & H). apply bind_Ok in H as (kept' & Hk & H).
    apply is_blood_compatible_Ok in Hb as [_ ->]. rewrite (IH _ Hk) in H.
    injection H as <-. destruct (can_give d r) eqn:E; unfold can_give in E; rewrite E;
      reflexivity.
Qed.

Lemma append_request_matches_shape
    (rs : list BloodRequest.t) (d : Donor.t) (cem : bool) (acc l : list request_match) :
  append_request_matches rs d cem acc = Ok l ->
  exists ms, l = (acc ++ ms)%list /\
             Forall2 (request_record_of d cem) (List.filter (can_give d) rs) ms.
Proof.
  revert acc. induction rs as [| r rs IH]; intros acc; cbn.
  - intros [= <-]. exists []. split; [ symmetry; apply app_nil_r | constructor ].
  - rewrite bind_Ok. intros (b & Hb & H).
    apply is_blood_compatible_Ok in Hb as [_ ->].
    destruct (can_give d r) eqn:E; unfold can_give in E; rewrite E in H.
    + apply bind_Ok in H as (m & Hm & H). apply IH in H as (ms & -> & Hms).
      exists (m :: ms). split; [ rewrite <- app_assoc; reflexivity | ].
      constructor; [ exact Hm | exact Hms ].
    + apply IH, H.
Qed.

Lemma request_where_ (d : Donor.t) (r : BloodRequest.t) :
  BloodRequestRepository.where_
    (BloodRequestRepository.Filters (Some (Donor.blood_group d)) (Some (Donor.city d))
       None None) r =
  (negb (truthy_str (Donor.blood_group d)) ||
   String.eqb (BloodRequest.blood_group r) (Donor.blood_group d)) &&
  (negb (truthy_str (Donor.city d)) ||
   String.eqb (lower (BloodRequest.city r)) (lower (Donor.city d))).
Proof.
  unfold BloodRequestRepository.where_, BloodRequestRepository.cond. cbn.
  rewrite !andb_true_r, !bool_decide_eqb.
  destruct (truthy_str (Donor.blood_group d)), (truthy_str (Donor.city d)); reflexivity.
Qed.

(** The list before ranking and truncation: one record per eligible request,
    in the order of the table. *)
Lemma find_requests_for_donor_shape
    (db : store) (d : Donor.t) (cem active_only : bool) (limit : option Z)
    (l : list request_match) :
  find_requests_for_donor db d cem active_only limit = Ok l ->
  exists ms,
    Forall2 (request_record_of d cem)
      (List.filter (eligible_request d cem active_only) (blood_requests db)) ms /\
    l = apply_limit limit (sort_desc pair_ltb request_key ms).
Proof.
  unfold find_requests_for_donor. rewrite guarded_Ok, bind_Ok.
  intros (rs & Hrs & H). apply bind_Ok in H as (ms & Hms & H).
  cbn in H. injection H as <-.
  apply append_request_matches_shape in Hms as (ms' & -> & Hms').
  exists ms'. split; [ | reflexivity ].
  assert (E : List.filter (can_give d)
                (if active_only
                 then List.filter
                        (fun req => String.eqb (BloodRequest.status req) "Active") rs
                 else rs) =
              List.filter (eligible_request d cem active_only) (blood_requests db)).
  { destruct cem.
    - injection Hrs as <-.
      unfold BloodRequestRepository.get_requests_by_blood_group_and_city,
        BloodRequestRepository.get_all.
      destruct active_only; rewrite !List_filter_filter; apply List_filter_ext_in;
        intros r _; rewrite request_where_; unfold eligible_request, can_give; cbn;
        destruct (bool_decide _), (String.eqb (BloodRequest.status r) "Active"),
          (_ || _), (_ || _); reflexivity.
    - apply compatible_requests_shape in Hrs as ->.
      unfold BloodRequestRepository.get_all.
      destruct active_only; rewrite !List_filter_filter; apply List_filter_ext_in;
        intros r _; unfold eligible_request, can_give,
          BloodRequestRepository.where_, BloodRequestRepository.cond; cbn;
        destruct (bool_decide _), (String.eqb (BloodRequest.status r) "Active");
        reflexivity. }
  rewrite <- E. exact Hms'.
Qed.

Lemma request_records_info
    (d : Donor.t) (cem : bool) (rs : list BloodRequest.t) (ms : list request_match) :
  Forall2 (request_record_of d cem) rs ms -> map rm_request ms = map request_info_of rs.
Proof.
  induction 1 as [| r m rs ms Hrec _ IH]; cbn; [ reflexivity | ].
  apply create_request_match_info_Ok in Hrec as [_ ->]. cbn. f_equal. exact IH.
Qed.

Lemma find_requests_for_donor_provenance
    (db : store) (d : Donor.t) (cem active_only : bool) (limit : option Z)
    (l : list request_match) (m : request_match) :
  find_requests_for_donor db d cem active_only limit = Ok l -> m ∈ l ->
  exists r, r ∈ blood_requests db /\ eligible_request d cem active_only r = true /\
            request_record_of d cem r m.
Proof.
  intros H Hm. apply find_requests_for_donor_shape in H as (ms & Hms & ->).
  apply apply_limit_sublist in Hm. rewrite sort_desc_perm in Hm.
  apply list_elem_of_lookup in Hm as [i Hi].
  destruct (Forall2_lookup_r _ _ _ _ _ Hms Hi) as (r & Hr & Hrec).
  apply list_elem_of_lookup_2, list_elem_of_In, filter_In in Hr as [Hin He].
  exists r. split; [ apply list_elem_of_In, Hin | auto ].
Qed.

(** X7: without a limit, [find_requests_for_donor] lists each eligible
    request of the table exactly once: the ['request'] entries of the result
    are, up to order, those of the requests that the donor's group may give
    to, restricted to Active ones when [active_only] is on and, with the city
    filter on, to the donor's own group and city. *)
Theorem find_requests_for_donor_complete
    (db : store) (d : Donor.t) (cem active_only : bool) (l : list request_match) :
  find_requests_for_donor db d cem active_only None = Ok l ->
  map rm_request l ≡ₚ
    map request_info_of
      (List.filter (eligible_request d cem active_only) (blood_requests db)) /\
  length l = length (List.filter (eligible_request d cem active_only) (blood_requests db)).
Proof.
  intros H.
  assert (Hperm : map rm_request l ≡ₚ
            map request_info_of
              (List.filter (eligible_request d cem active_only) (blood_requests db))).
  { apply find_requests_for_donor_shape in H as (ms & Hms & ->).
    cbn [apply_limit]. rewrite (Permutation_map rm_request (sort_desc_perm _ _ ms)).
    rewrite (request_records_info _ _ _ _ Hms). reflexivity. }
  split; [ exact Hperm | ].
  apply Permutation_length in Hperm. rewrite !length_map in Hperm. exact Hperm.
Qed.

Lemma find_requests_for_donor_complete_witness :
  exists l,
    find_requests_for_donor Sample.db Sample.asha false true None = Ok l /\
    map rm_request l ≡ₚ
      [ request_info_of Sample.critical_a; request_info_of Sample.low_ab;
        request_info_of Sample.low_o ].
Proof.
  eexists. split; [ vm_compute; reflexivity | ].
  refine (proj1 (find_requests_for_donor_complete Sample.db Sample.asha false true _ _)).
  vm_compute. reflexivity.
Defined.

(** X8: with [active_only] on, every record returned for a donor, by the
    donor or by the donor's id, is the record of a stored request whose status
    is "Active": a Fulfilled request is never offered. *)
Theorem active_only_excludes_fulfilled
    (db : store) (d : Donor.t) (donor_id : Z) (cem : bool) (limit : option Z) :
  let active_stored (m : request_match) :=
    exists r, r ∈ blood_requests db /\ BloodRequest.status r = "Active" /\
              rm_request m = request_info_of r in
  (forall l, find_requests_for_donor db d cem true limit = Ok l ->
             Forall active_stored l) /\
  (forall l, find_requests_for_donor_by_id db donor_id cem true limit = Ok l ->
             Forall active_stored l).
Proof.
  intros active_stored.
  assert (Hfind : forall d' l, find_requests_for_donor db d' cem true limit = Ok l ->
                               Forall active_stored l).
  { intros d' l H. apply Forall_forall. intros m Hm.
    destruct (find_requests_for_donor_provenance _ _ _ _ _ _ _ H Hm) as (r & Hr & He & Hrec).
    exists r. split; [ exact Hr | ]. split.
    - unfold eligible_request in He. cbn in He.
      apply andb_true_iff in He as [He _]. apply andb_true_iff in He as [_ He].
      apply String.eqb_eq, He.
    - apply create_request_match_info_Ok in Hrec as [_ ->]. reflexivity. }
  split; [ apply Hfind | ].
  intros l. unfold find_requests_for_donor_by_id. rewrite guarded_Ok.
  destruct (donor_id <=? 0); [ discriminate | ].
  destruct (DonorRepository.get_by_id _ _) as [d' |]; [ apply Hfind | discriminate ].
Qed.

Lemma active_only_excludes_fulfilled_witness :
  exists l,
    find_requests_for_donor_by_id Sample.db 1 false true None = Ok l /\
    map (fun m => ri_id (rm_request m)) l = [ 1; 4; 3 ] /\
    Forall (fun m => exists r, r ∈ blood_requests Sample.db /\
                               BloodRequest.status r = "Active" /\
                               rm_request m = request_info_of r) l.
Proof.
  eexists. split; [ vm_compute; reflexivity | ]. split; [ reflexivity | ].
  refine (proj2 (active_only_excludes_fulfilled Sample.db Sample.asha 1 false None) _ _).
  vm_compute. reflexivity.
Defined.
(** *** What the records say *)

Lemma self_compatible (g : string) :
  g ∈ valid_blood_groups -> g ∈ canonical_donor_groups g.
Proof.
  intros H. apply valid_blood_group_cases in H.
  repeat (destruct H as [-> | H]); try subst g; decide_by_compute.
Qed.

(** X9: every record returned for a donor has [blood_compatible] true and a
    score of at least 40; with the city filter on, for a donor whose group and
    city are not empty, only requests of the donor's own group and city are
    returned, so every record also has [exact_blood_match] and [city_match]
    true and scores at least 90. *)
Theorem find_requests_for_donor_records
    (db : store) (d : Donor.t) (active_only : bool) (limit : option Z) :
  (forall cem l,
      find_requests_for_donor db d cem active_only limit = Ok l ->
      Forall (fun m => rm_blood_compatible m = true /\ 40 <= rm_match_score m) l) /\
  (truthy_str (Donor.blood_group d) = true ->
   truthy_str (Donor.city d) = true ->
   forall l,
     find_requests_for_donor db d true active_only limit = Ok l ->
     Forall (fun m => ri_blood_group (rm_request m) = Donor.blood_group d /\
                      rm_exact_blood_match m = true /\ rm_city_match m = true /\
                      90 <= rm_match_score m) l).
Proof.
  split.
  - intros cem l H. apply Forall_forall. intros m Hm.
    destruct (find_requests_for_donor_provenance _ _ _ _ _ _ _ H Hm) as (r & _ & He & Hrec).
    apply create_request_match_info_Ok in Hrec as [_ ->]. cbn.
    unfold eligible_request in He. apply andb_true_iff in He as [He _].
    apply andb_true_iff in He as [He _]. rewrite point_model_flag_points, He.
    split; [ reflexivity | ].
    pose proof (urgency_points_range (BloodRequest.urgency r)).
    cbv beta iota delta [flag_points]. destruct (String.eqb _ _), (String.eqb _ _); lia.
  - intros Hbg Hcity l H. apply Forall_forall. intros m Hm.
    destruct (find_requests_for_donor_provenance _ _ _ _ _ _ _ H Hm) as (r & _ & He & Hrec).
    apply create_request_match_info_Ok in Hrec as [_ ->]. cbn.
    unfold eligible_request in He. rewrite Hbg, Hcity in He. cbn in He.
    apply andb_true_iff in He as [He Hsel]. apply andb_true_iff in He as [He _].
    apply andb_true_iff in Hsel as [Hg Hc].
    apply String.eqb_eq in Hg. apply String.eqb_eq in Hc.
    rewrite point_model_flag_points, He, Hg, Hc, !String.eqb_refl.
    split; [ reflexivity | ]. split; [ reflexivity | ]. split; [ reflexivity | ].
    pose proof (urgency_points_range (BloodRequest.urgency r)).
    cbv beta iota delta [flag_points]. lia.
Qed.

Lemma find_requests_for_donor_records_witness :
  exists l,
    find_requests_for_donor Sample.db Sample.asha true false None = Ok l /\
    map request_key l = [ (1, 91) ] /\
    Forall (fun m => ri_blood_group (rm_request m) = "O-" /\
                     rm_exact_blood_match m = true /\ rm_city_match m = true /\
                     90 <= rm_match_score m) l.
Proof.
  eexists. split; [ vm_compute; reflexivity | ]. split; [ reflexivity | ].
  refine (proj2 (find_requests_for_donor_records Sample.db Sample.asha false None) _ _ _ _).
  - reflexivity.
  - reflexivity.
  - vm_compute. reflexivity.
Defined.

(** X10: in both directions the score of a returned record is the sum that
    its own entries stand for: 40 if [blood_compatible], 20 if
    [exact_blood_match], 30 if [city_match], plus the bonus of the
    [request_urgency] under [match_details]. *)
Theorem score_is_sum_of_flags
    (set_order : gset string -> list string) (db : store)
    (r : BloodRequest.t) (d : Donor.t) (cem active_only : bool) (limit : option Z) :
  (forall l, find_matching_donors set_order db r cem limit = Ok l ->
     Forall (fun m => dm_match_score m =
                        flag_points (dm_blood_compatible m) (dm_exact_blood_match m)
                          (dm_city_match m) (request_urgency (dm_match_details m))) l) /\
  (forall l, find_requests_for_donor db d cem active_only limit = Ok l ->
     Forall (fun m => rm_match_score m =
                        flag_points (rm_blood_compatible m) (rm_exact_blood_match m)
                          (rm_city_match m) (request_urgency (rm_match_details m))) l).
Proof.
  split; intros l H; apply Forall_forall; intros m Hm.
  - destruct (find_matching_donors_provenance _ _ _ _ _ _ _ H Hm) as (g & d' & _ & _ & Hrec).
    apply create_match_info_Ok in Hrec as [_ ->]. cbn. apply point_model_flag_points.
  - destruct (find_requests_for_donor_provenance _ _ _ _ _ _ _ H Hm) as (r' & _ & _ & Hrec).
    apply create_request_match_info_Ok in Hrec as [_ ->]. cbn. apply point_model_flag_points.
Qed.

Lemma score_is_sum_of_flags_witness :
  exists l,
    find_matching_donors elements Sample.db Sample.low_ab false None = Ok l /\
    Forall (fun m => dm_match_score m =
                       flag_points (dm_blood_compatible m) (dm_exact_blood_match m)
                         (dm_city_match m) (request_urgency (dm_match_details m))) l.
Proof.
  eexists. split; [ vm_compute; reflexivity | ].
  refine (proj1 (score_is_sum_of_flags elements Sample.db Sample.low_ab Sample.asha
                   false false None) _ _).
  vm_compute. reflexivity.
Defined.

Lemma urgency_points_critical (u : string) : urgency_points u = 10 <-> u = "Critical".
Proof.
  unfold urgency_points.
  destruct (String.eqb_spec u "Critical") as [-> | H1]; [ tauto | ].
  repeat match goal with |- context [String.eqb ?a ?b] => destruct (String.eqb a b) end;
    split; intros; (lia || contradiction).
Qed.

(** X11: on a request with a canonical group, and two cities that are ASCII
    text or agree once A-Z is folded, the cap at 100 never changes the score,
    which is the plain sum of the points; the score is 100 exactly when the
    blood groups are equal, the cities are equal up to case and the urgency
    is Critical.  Whatever the cities, a donor of the requested group scores
    at least 60. *)
Theorem full_score_iff (d : Donor.t) (r : BloodRequest.t) (mode : bool) :
  BloodRequest.blood_group r ∈ valid_blood_groups ->
  (case_decided (Donor.city d) (BloodRequest.city r) ->
   _calculate_match_score d r mode =
     Ok (flag_points
           (bool_decide (Donor.blood_group d ∈
                           canonical_donor_groups (BloodRequest.blood_group r)))
           (String.eqb (Donor.blood_group d) (BloodRequest.blood_group r))
           (String.eqb (lower (Donor.city d)) (lower (BloodRequest.city r)))
           (BloodRequest.urgency r)) /\
   (_calculate_match_score d r mode = Ok 100 <->
    Donor.blood_group d = BloodRequest.blood_group r /\
    lower (Donor.city d) = lower (BloodRequest.city r) /\
    BloodRequest.urgency r = "Critical")) /\
  (Donor.blood_group d = BloodRequest.blood_group r ->
   exists s, _calculate_match_score d r mode = Ok s /\ 60 <= s).
Proof.
  intros Hr. rewrite (calculate_match_score_valid d r mode Hr), point_model_flag_points.
  assert (Hgoal : forall P Q R : Prop, P /\ Q /\ R -> (case_decided (Donor.city d)
            (BloodRequest.city r) -> P /\ Q) /\ R) by tauto.
  apply Hgoal. clear Hgoal.
  split; [ reflexivity | ].
  pose proof (urgency_points_range (BloodRequest.urgency r)) as Hu.
  pose proof (urgency_points_critical (BloodRequest.urgency r)) as Hc.
  pose proof (self_compatible _ Hr) as Hself.
  split.
  - destruct (String.eqb_spec (Donor.blood_group d) (BloodRequest.blood_group r)) as [E | E].
    + rewrite E, (bool_decide_eq_true_2 _ Hself).
      destruct (String.eqb_spec (lower (Donor.city d)) (lower (BloodRequest.city r)))
        as [E' | E']; cbv beta iota delta [flag_points]; split.
      * intros [= H]. split; [ reflexivity | ]. split; [ exact E' | ]. apply Hc. lia.
      * intros (_ & _ & H). apply Hc in H. f_equal. lia.
      * intros [= H]. lia.
      * intros (_ & H & _). contradiction.
    + cbv beta iota delta [flag_points]. split.
      * intros [= H]. destruct (bool_decide _), (String.eqb _ _); lia.
      * intros (H & _). contradiction.
  - intros E. eexists. split; [ reflexivity | ].
    rewrite E, (bool_decide_eq_true_2 _ Hself), String.eqb_refl.
    cbv beta iota delta [flag_points]. destruct (String.eqb _ _); lia.
Qed.

Lemma full_score_iff_witness :
  _calculate_match_score
    (Donor.Build 5 "Kiran Das" "A+" "DELHI" "9876543216" None None)
    Sample.critical_a false = Ok 100.
Proof.
  assert (Hr : BloodRequest.blood_group Sample.critical_a ∈ valid_blood_groups)
    by decide_by_compute.
  assert (Hc : case_decided "DELHI" (BloodRequest.city Sample.critical_a))
    by (left; split; reflexivity).
  apply (proj2 (proj1 (full_score_iff
           (Donor.Build 5 "Kiran Das" "A+" "DELHI" "9876543216" None None)
           Sample.critical_a false Hr) Hc)).
  split; [ reflexivity | ]. split; reflexivity.
Defined.

(** *** The statistics report *)

Lemma List_filter_true {A} (l : list A) : List.filter (fun _ => true) l = l.
Proof. induction l as [| x l IH]; cbn; [ reflexivity | rewrite IH; reflexivity ]. Qed.

Lemma existsb_filter_length {A} (p : A -> bool) (l : list A) :
  existsb p l = negb (Nat.eqb (length (List.filter p l)) 0).
Proof.
  induction l as [| x l IH]; cbn; [ reflexivity | ].
  destruct (p x); cbn; [ reflexivity | exact IH ].
Qed.

Lemma donor_get_all_unfiltered (table : list Donor.t) :
  DonorRepository.get_all table (DonorRepository.Filters None None) = table.
Proof. unfold DonorRepository.get_all. apply List_filter_true. Qed.

Lemma sum_over_add (f g : string -> Z) (keys : list string) :
  sum_over (fun k => f k + g k) keys = sum_over f keys + sum_over g keys.
Proof. induction keys as [| k keys IH]; cbn; [ reflexivity | rewrite IH; lia ]. Qed.

Lemma sum_over_ext (f g : string -> Z) (keys : list string) :
  (forall k, k ∈ keys -> f k = g k) -> sum_over f keys = sum_over g keys.
Proof.
  induction keys as [| k keys IH]; intros H; cbn; [ reflexivity | ].
  rewrite (H k), IH; [ reflexivity | | apply list_elem_of_here ].
  intros k' Hk'. apply H. apply list_elem_of_further, Hk'.
Qed.

Lemma sum_over_zero (keys : list string) : sum_over (fun _ => 0) keys = 0.
Proof. induction keys as [| k keys IH]; cbn; [ reflexivity | rewrite IH; reflexivity ]. Qed.

(** One unit lands in exactly one class. *)
Lemma sum_over_indicator (k0 : string) (b : bool) (keys : list string) :
  NoDup keys -> k0 ∈ keys ->
  sum_over (fun k => if String.eqb k0 k && b then 1 else 0) keys = if b then 1 else 0.
Proof.
  induction keys as [| k keys IH]; intros Hnd Hin; [ inversion Hin | ].
  apply NoDup_cons in Hnd as [Hk Hnd]. cbn.
  destruct (String.eqb_spec k0 k) as [-> | Hne].
  - rewrite (sum_over_ext _ (fun _ => 0)), sum_over_zero; [ destruct b; reflexivity | ].
    intros k' Hk'. destruct (String.eqb_spec k k') as [-> | _]; [ contradiction | reflexivity ].
  - cbn. apply IH; [ exact Hnd | ].
    apply elem_of_cons in Hin as [E | Hin]; [ contradiction | exact Hin ].
Qed.

(** Classes by key partition a list: the counts of the classes add up. *)
Lemma count_partition {A} (key : A -> string) (p : A -> bool)
    (keys : list string) (l : list A) :
  NoDup keys -> Forall (fun x => key x ∈ keys) l ->
  sum_over (fun k => count_where p (List.filter (fun x => String.eqb (key x) k) l)) keys =
    count_where p l.
Proof.
  intros Hnd. induction l as [| x l IH]; intros Hl.
  - unfold count_where. cbn. apply sum_over_zero.
  - apply Forall_cons in Hl as [Hx Hl]. specialize (IH Hl).
    rewrite (sum_over_ext _
      (fun k => (if String.eqb (key x) k && p x then 1 else 0)
                + count_where p (List.filter (fun y => String.eqb (key y) k) l))).
    + rewrite sum_over_add, IH, (sum_over_indicator _ _ _ Hnd Hx).
      unfold count_where. cbn. destruct (p x); cbn [length]; lia.
    + intros k _. unfold count_where. cbn.
      destruct (String.eqb (key x) k); cbn; [ destruct (p x); cbn [length]; lia | lia ].
Qed.

Section StatisticsShape.
Variable set_order : gset string -> list string.
Hypothesis Hiter : set_iteration set_order.
Variable db : store.

Lemma find_for_statistics (r : BloodRequest.t) (l : list donor_match) :
  find_matching_donors set_order db r false None = Ok l ->
  length l = compatible_donor_count db r.
Proof.
  intros H. pose proof (find_matching_donors_perm set_order db r false l Hiter H) as Hp.
  apply Permutation_length in Hp. rewrite !length_map in Hp. exact Hp.
Qed.

Lemma count_potential_matches_shape (act : list BloodRequest.t) (n m n' m' : Z) :
  count_potential_matches set_order db act n m = Ok (n', m') ->
  n' = n + count_where (matchable db) act /\
  m' = m + Z.of_nat (sum_list (map (compatible_donor_count db) act)).
Proof.
  revert n m. induction act as [| r rs IH]; intros n m; cbn.
  - intros [= <- <-]. unfold count_where. cbn. lia.
  - rewrite bind_Ok. intros (l & Hl & H).
    pose proof (find_for_statistics r l Hl) as Hlen.
    unfold count_where, matchable in *. cbn [List.filter].
    rewrite existsb_filter_length. fold (compatible_donor_count db r). rewrite <- Hlen.
    destruct l as [| x xs]; apply IH in H as [-> ->]; cbn [length Nat.eqb negb]; lia.
Qed.

Lemma count_requests_with_matches_shape (urgent : list BloodRequest.t) (n n' : Z) :
  count_requests_with_matches set_order db urgent n = Ok n' ->
  n' = n + count_where (matchable db) urgent.
Proof.
  revert n. induction urgent as [| r rs IH]; intros n; cbn.
  - intros [= <-]. unfold count_where. cbn. lia.
  - rewrite bind_Ok. intros (l & Hl & H).
    pose proof (find_for_statistics r l Hl) as Hlen.
    unfold count_where, matchable in *. cbn [List.filter].
    rewrite existsb_filter_length. fold (compatible_donor_count db r). rewrite <- Hlen.
    destruct l as [| x xs]; apply IH in H as ->; cbn [length Nat.eqb negb]; lia.
Qed.
End StatisticsShape.

(** The report, field by field, before the handler. *)
Lemma get_matching_statistics_Ok
    (set_order : gset string -> list string) (db : store) (now : string) (s : statistics) :
  get_matching_statistics set_order db now = Ok s ->
  let active := BloodRequestRepository.get_active_requests (blood_requests db) in
  exists counters us,
    count_potential_matches set_order db active 0 0 = Ok counters /\
    urgency_loop set_order db active urgency_levels ∅ = Ok us /\
    s = {| total_active_requests := Z.of_nat (length active);
           total_donors := Z.of_nat (length (donors db));
           requests_with_potential_matches := counters.1;
           total_potential_matches := counters.2;
           match_rate :=
             (if 0 <? Z.of_nat (length active)
              then inject_Z counters.1 / inject_Z (Z.of_nat (length active)) * inject_Z 100
              else inject_Z 0)%Q;
           blood_group_breakdown := blood_group_breakdown_of active (donors db);
           urgency_breakdown := us;
           last_updated := now |}.
Proof.
  unfold get_matching_statistics. rewrite guarded_Ok. cbv zeta. rewrite bind_Ok.
  intros (counters & Hc & H). apply bind_Ok in H as (us & Hus & H).
  rewrite match_rate_of_value in H. cbn in H. injection H as <-.
  exists counters, us. rewrite donor_get_all_unfiltered.
  split; [ exact Hc | ]. split; [ exact Hus | reflexivity ].
Qed.

(** X12: the counters of the report count what the store holds:
    [total_active_requests] the Active requests, [total_donors] the donors,
    [requests_with_potential_matches] the Active requests that some donor of
    the store may give to, and [total_potential_matches] the pairs of an
    Active request and a donor that may give to it. *)
Theorem statistics_counters
    (set_order : gset string -> list string) (db : store) (now : string) (s : statistics) :
  set_iteration set_order ->
  get_matching_statistics set_order db now = Ok s ->
  let active := BloodRequestRepository.get_active_requests (blood_requests db) in
  total_active_requests s = Z.of_nat (length active) /\
  total_donors s = Z.of_nat (length (donors db)) /\
  requests_with_potential_matches s = count_where (matchable db) active /\
  total_potential_matches s =
    Z.of_nat (sum_list (map (compatible_donor_count db) active)).
Proof.
  intros Hiter H active.
  apply get_matching_statistics_Ok in H as ([n m] & us & Hc & _ & ->). cbn.
  apply (count_potential_matches_shape set_order Hiter) in Hc as [-> ->].
  split; [ reflexivity | ]. split; [ reflexivity | ]. split; [ reflexivity | ].
  reflexivity.
Qed.

Lemma statistics_counters_witness :
  exists s,
    get_matching_statistics elements Sample.db "2024-01-01T00:00:00" = Ok s /\
    total_active_requests s = 3 /\ total_donors s = 3 /\
    requests_with_potential_matches s = 3 /\ total_potential_matches s = 6.
Proof.
  destruct (get_matching_statistics elements Sample.db "2024-01-01T00:00:00")
    as [s | e] eqn:E; [ | vm_compute in E; discriminate ].
  exists s. split; [ reflexivity | ].
  assert (Hiter : set_iteration elements) by (intros X; reflexivity).
  destruct (statistics_counters elements Sample.db _ s Hiter E) as (-> & -> & -> & ->).
  repeat split; vm_compute; reflexivity.
Defined.
Lemma count_potential_matches_bounds
    (set_order : gset string -> list string) (db : store)
    (act : list BloodRequest.t) (n m n' m' : Z) :
  count_potential_matches set_order db act n m = Ok (n', m') ->
  n <= n' <= n + Z.of_nat (length act) /\ n' - n <= m' - m.
Proof.
  revert n m. induction act as [| r rs IH]; intros n m; cbn [count_potential_matches].
  - intros [= <- <-]. cbn. lia.
  - rewrite bind_Ok. intros ([| x xs] & _ & H); apply IH in H; cbn [length] in *; lia.
Qed.

Lemma rate_bounds (a t : Z) :
  0 <= a <= t -> 0 < t ->
  (0 <= inject_Z a / inject_Z t * inject_Z 100)%Q /\
  (inject_Z a / inject_Z t * inject_Z 100 <= inject_Z 100)%Q /\
  ((inject_Z a / inject_Z t * inject_Z 100 == inject_Z 100)%Q <-> a = t).
Proof.
  intros Ha Ht. destruct t as [| p | p]; try lia.
  unfold Qle, Qeq, Qdiv, Qmult, Qinv, inject_Z. cbn. nia.
Qed.

(** X13: in every report the matched requests are at most the Active ones and
    at most the potential matches, and the match rate lies between 0 and 100;
    it is 100 exactly when there is an Active request and each Active request
    has a potential match. *)
Theorem statistics_rate_bounds
    (set_order : gset string -> list string) (db : store) (now : string) (s : statistics) :
  get_matching_statistics set_order db now = Ok s ->
  0 <= requests_with_potential_matches s <= total_active_requests s /\
  requests_with_potential_matches s <= total_potential_matches s /\
  (0 <= match_rate s)%Q /\ (match_rate s <= inject_Z 100)%Q /\
  ((match_rate s == inject_Z 100)%Q <->
   0 < total_active_requests s /\
   requests_with_potential_matches s = total_active_requests s).
Proof.
  intros H. apply get_matching_statistics_Ok in H as ([n m] & us & Hc & _ & ->). cbn.
  apply count_potential_matches_bounds in Hc as [Hn Hm].
  split; [ lia | ]. split; [ lia | ].
  destruct (0 <? Z.of_nat _) eqn:E.
  - destruct (rate_bounds n (Z.of_nat (length
      (BloodRequestRepository.get_active_requests (blood_requests db))))) as (H1 & H2 & H3);
      [ lia | lia | ].
    split; [ exact H1 | ]. split; [ exact H2 | ]. rewrite H3. lia.
  - split; [ discriminate | ]. split; [ discriminate | ].
    split; [ intros Hq; vm_compute in Hq; discriminate | lia ].
Qed.

Lemma statistics_rate_bounds_witness :
  exists s,
    get_matching_statistics elements Sample.db "2024-01-01T00:00:00" = Ok s /\
    (match_rate s == inject_Z 100)%Q.
Proof.
  destruct (get_matching_statistics elements Sample.db "2024-01-01T00:00:00")
    as [s | e] eqn:E; [ | vm_compute in E; discriminate ].
  exists s. split; [ reflexivity | ].
  destruct (statistics_rate_bounds elements Sample.db _ s E) as (_ & _ & _ & _ & Hfull).
  apply Hfull. vm_compute in E. injection E as <-. split; reflexivity.
Defined.

(** The entry that the urgency loop writes for one level. *)
Lemma urgency_loop_shape
    (set_order : gset string -> list string) (db : store)
    (act : list BloodRequest.t) (levels : list string)
    (acc us : gmap string urgency_entry) :
  set_iteration set_order ->
  urgency_loop set_order db act levels acc = Ok us ->
  us = foldl (fun a u =>
                <[ u := {| total_requests :=
                             count_where (fun r => String.eqb (BloodRequest.urgency r) u) act;
                           requests_with_matches :=
                             count_where (matchable db)
                               (List.filter
                                  (fun r => String.eqb (BloodRequest.urgency r) u) act) |} ]> a)
             acc levels.
Proof.
  intros Hiter. revert acc. induction levels as [| u us' IH]; intros acc; cbn.
  - intros [= <-]. reflexivity.
  - rewrite bind_Ok. intros (c & Hc & H).
    apply (count_requests_with_matches_shape set_order Hiter) in Hc as ->.
    apply IH in H as ->. reflexivity.
Qed.

Lemma blood_group_breakdown_lookup
    (active : list BloodRequest.t) (all_donors : list Donor.t) (g : string) :
  blood_group_breakdown_of active all_donors !! g =
    if bool_decide (g ∈ valid_blood_groups)
    then Some {| active_requests :=
                   count_where (fun r => String.eqb (BloodRequest.blood_group r) g) active;
                 available_donors :=
                   count_where (fun d => String.eqb (Donor.blood_group d) g) all_donors |}
    else None.
Proof.
  unfold blood_group_breakdown_of. rewrite map_lookup_imap.
  destruct (decide (g ∈ valid_blood_groups)) as [Hg | Hg].
  - rewrite (bool_decide_eq_true_2 _ Hg), (compatibility_map_lookup g Hg). reflexivity.
  - rewrite (bool_decide_eq_false_2 _ Hg), (compatibility_map_None g Hg). reflexivity.
Qed.

Lemma valid_urgency_cases (u : string) :
  u ∈ valid_urgency_levels <-> u = "Critical" \/ u = "High" \/ u = "Medium" \/ u = "Low".
Proof.
  unfold valid_urgency_levels. rewrite !elem_of_union, !elem_of_singleton. tauto.
Qed.

(** The two breakdowns of a report, read key by key. *)
Lemma statistics_breakdowns
    (set_order : gset string -> list string) (db : store) (now : string) (s : statistics) :
  set_iteration set_order ->
  get_matching_statistics set_order db now = Ok s ->
  let active := BloodRequestRepository.get_active_requests (blood_requests db) in
  (forall g,
      blood_group_breakdown s !! g =
        if bool_decide (g ∈ valid_blood_groups)
        then Some {| active_requests :=
                       count_where (fun r => String.eqb (BloodRequest.blood_group r) g) active;
                     available_donors :=
                       count_where (fun d => String.eqb (Donor.blood_group d) g)
                         (donors db) |}
        else None) /\
  (forall u,
      urgency_breakdown s !! u =
        if bool_decide (u ∈ valid_urgency_levels)
        then Some {| total_requests :=
                       count_where (fun r => String.eqb (BloodRequest.urgency r) u) active;
                     requests_with_matches :=
                       count_where (matchable db)
                         (List.filter
                            (fun r => String.eqb (BloodRequest.urgency r) u) active) |}
        else None).
Proof.
  intros Hiter H active.
  apply get_matching_statistics_Ok in H as (counters & us & _ & Hus & ->). cbn.
  split; [ apply blood_group_breakdown_lookup | ].
  apply (urgency_loop_shape set_order _ _ _ _ _ Hiter) in Hus as ->.
  intros u. cbn [foldl urgency_levels].
  destruct (decide (u ∈ valid_urgency_levels)) as [Hu | Hu].
  - rewrite (bool_decide_eq_true_2 _ Hu). apply valid_urgency_cases in Hu.
    destruct Hu as [-> | [-> | [-> | ->]]];
      repeat (rewrite lookup_insert_ne by discriminate); rewrite lookup_insert_eq;
      reflexivity.
  - rewrite (bool_decide_eq_false_2 _ Hu). rewrite valid_urgency_cases in Hu.
    rewrite !lookup_insert_ne by (intros <-; tauto). apply lookup_empty.
Qed.

(** X14: the blood group breakdown of a report has one entry for each of the
    8 canonical groups, holding the number of Active requests and of donors
    of that group; the urgency breakdown has one entry for each of the 4
    levels, holding the number of Active requests of that level and how many
    of them some donor may give to. *)
Theorem statistics_breakdown_entries
    (set_order : gset string -> list string) (db : store) (now : string) (s : statistics) :
  set_iteration set_order ->
  get_matching_statistics set_order db now = Ok s ->
  let active := BloodRequestRepository.get_active_requests (blood_requests db) in
  dom (blood_group_breakdown s) = valid_blood_groups /\
  dom (urgency_breakdown s) = valid_urgency_levels /\
  (forall g, g ∈ valid_blood_groups ->
     group_requests s g =
       count_where (fun r => String.eqb (BloodRequest.blood_group r) g) active /\
     group_donors s g =
       count_where (fun d => String.eqb (Donor.blood_group d) g) (donors db)) /\
  (forall u, u ∈ valid_urgency_levels ->
     urgency_total s u =
       count_where (fun r => String.eqb (BloodRequest.urgency r) u) active /\
     urgency_matched s u =
       count_where (matchable db)
         (List.filter (fun r => String.eqb (BloodRequest.urgency r) u) active)).
Proof.
  intros Hiter H active.
  destruct (statistics_breakdowns set_order db now s Hiter H) as [Hg Hu].
  split; [ | split; [ | split ] ].
  - apply set_eq. intros g. rewrite elem_of_dom, Hg.
    destruct (decide (g ∈ valid_blood_groups)) as [Hv | Hv].
    + rewrite (bool_decide_eq_true_2 _ Hv). split; [ intros _; exact Hv | eauto ].
    + rewrite (bool_decide_eq_false_2 _ Hv). split; [ intros [x Hx]; discriminate | tauto ].
  - apply set_eq. intros u. rewrite elem_of_dom, Hu.
    destruct (decide (u ∈ valid_urgency_levels)) as [Hv | Hv].
    + rewrite (bool_decide_eq_true_2 _ Hv). split; [ intros _; exact Hv | eauto ].
    + rewrite (bool_decide_eq_false_2 _ Hv). split; [ intros [x Hx]; discriminate | tauto ].
  - intros g Hv. unfold group_requests, group_donors.
    rewrite Hg, (bool_decide_eq_true_2 _ Hv). split; reflexivity.
  - intros u Hv. unfold urgency_total, urgency_matched.
    rewrite Hu, (bool_decide_eq_true_2 _ Hv). split; reflexivity.
Qed.

Lemma statistics_breakdown_entries_witness :
  exists s,
    get_matching_statistics elements Sample.db "2024-01-01T00:00:00" = Ok s /\
    group_requests s "A+" = 1 /\ group_donors s "O-" = 1 /\
    urgency_total s "Low" = 2 /\ urgency_matched s "Low" = 2.
Proof.
  destruct (get_matching_statistics elements Sample.db "2024-01-01T00:00:00")
    as [s | e] eqn:E; [ | vm_compute in E; discriminate ].
  exists s. split; [ reflexivity | ].
  assert (Hiter : set_iteration elements) by (intros X; reflexivity).
  destruct (statistics_breakdown_entries elements Sample.db _ s Hiter E)
    as (_ & _ & Hg & Hu).
  destruct (Hg "A+" ltac:(decide_by_compute)) as [-> _].
  destruct (Hg "O-" ltac:(decide_by_compute)) as [_ ->].
  destruct (Hu "Low" ltac:(decide_by_compute)) as [-> ->].
  repeat split; vm_compute; reflexivity.
Defined.

Lemma Forall_urgency_levels (rs : list BloodRequest.t) :
  Forall BloodRequest.valid rs ->
  Forall (fun r => BloodRequest.urgency r ∈ urgency_levels) rs /\
  Forall (fun r => BloodRequest.blood_group r ∈ canonical_groups) rs.
Proof.
  intros H. split; eapply Forall_impl; try exact H; intros r (Hg & Hu & _).
  - apply bool_decide_eq_true in Hu. apply valid_urgency_cases in Hu.
    unfold urgency_levels. rewrite !elem_of_cons. tauto.
  - apply bool_decide_eq_true in Hg. apply canonical_groups_valid, Hg.
Qed.

Lemma count_where_true {A} (l : list A) : count_where (fun _ => true) l = Z.of_nat (length l).
Proof. unfold count_where. rewrite List_filter_true. reflexivity. Qed.

Lemma count_where_filter_true {A} (f : A -> bool) (l : list A) :
  count_where f l = count_where (fun _ => true) (List.filter f l).
Proof. unfold count_where. rewrite List_filter_true. reflexivity. Qed.

(** X15: on validated tables the breakdowns of a report add up: over the 4
    urgency levels the totals give [total_active_requests] and the matched
    counts give [requests_with_potential_matches]; over the 8 blood groups the
    request counts give [total_active_requests] and the donor counts
    [total_donors]; no level has more matched requests than requests. *)
Theorem statistics_breakdowns_add_up
    (set_order : gset string -> list string) (db : store) (now : string) (s : statistics) :
  set_iteration set_order ->
  requests_valid db ->
  donors_valid db ->
  get_matching_statistics set_order db now = Ok s ->
  sum_over (urgency_total s) urgency_levels = total_active_requests s /\
  sum_over (urgency_matched s) urgency_levels = requests_with_potential_matches s /\
  sum_over (group_requests s) canonical_groups = total_active_requests s /\
  sum_over (group_donors s) canonical_groups = total_donors s /\
  (forall u, 0 <= urgency_matched s u <= urgency_total s u).
Proof.
  intros Hiter Hreq Hdon H.
  destruct (statistics_breakdowns set_order db now s Hiter H) as [Hg Hu].
  assert (Hactive : Forall BloodRequest.valid
            (BloodRequestRepository.get_active_requests (blood_requests db)))
    by apply Forall_List_filter, Hreq.
  destruct (Forall_urgency_levels _ Hactive) as [Hlev Hgrp].
  assert (Hnd4 : NoDup urgency_levels) by (apply (bool_decide_unpack _); vm_compute; exact I).
  assert (Hnd8 : NoDup canonical_groups) by (apply (bool_decide_unpack _); vm_compute; exact I).
  apply get_matching_statistics_Ok in H as ([n m] & us & Hc & _ & Hs).
  apply (count_potential_matches_shape set_order Hiter) in Hc as [Hn _]. cbn in Hn.
  assert (Ht : total_active_requests s = Z.of_nat (length
            (BloodRequestRepository.get_active_requests (blood_requests db))))
    by (rewrite Hs; reflexivity).
  assert (Hr : requests_with_potential_matches s =
            count_where (matchable db)
              (BloodRequestRepository.get_active_requests (blood_requests db)))
    by (rewrite Hs; cbn; lia).
  assert (Hd : total_donors s = Z.of_nat (length (donors db))) by (rewrite Hs; reflexivity).
  clear Hs. split; [ | split; [ | split; [ | split ] ] ].
  - rewrite Ht, <- count_where_true, <- (count_partition BloodRequest.urgency _ _ _ Hnd4 Hlev).
    apply sum_over_ext. intros u Hin. unfold urgency_total. rewrite Hu.
    rewrite bool_decide_eq_true_2; [ apply count_where_filter_true | ].
    apply valid_urgency_cases. unfold urgency_levels in Hin.
    rewrite !elem_of_cons, elem_of_nil in Hin. tauto.
  - rewrite Hr, <- (count_partition BloodRequest.urgency _ _ _ Hnd4 Hlev).
    apply sum_over_ext. intros u Hin. unfold urgency_matched. rewrite Hu.
    rewrite bool_decide_eq_true_2; [ reflexivity | ].
    apply valid_urgency_cases. unfold urgency_levels in Hin.
    rewrite !elem_of_cons, elem_of_nil in Hin. tauto.
  - rewrite Ht, <- count_where_true,
      <- (count_partition BloodRequest.blood_group _ _ _ Hnd8 Hgrp).
    apply sum_over_ext. intros g Hin. unfold group_requests. rewrite Hg.
    rewrite bool_decide_eq_true_2; [ apply count_where_filter_true | ].
    apply canonical_groups_valid, Hin.
  - assert (Hdg : Forall (fun d => Donor.blood_group d ∈ canonical_groups) (donors db)).
    { eapply Forall_impl; [ exact Hdon | ]. intros d Hv.
      apply bool_decide_eq_true in Hv. apply canonical_groups_valid, Hv. }
    rewrite Hd, <- count_where_true,
      <- (count_partition Donor.blood_group _ _ _ Hnd8 Hdg).
    apply sum_over_ext. intros g Hin. unfold group_donors. rewrite Hg.
    rewrite bool_decide_eq_true_2; [ apply count_where_filter_true | ].
    apply canonical_groups_valid, Hin.
  - intros u. unfold urgency_matched, urgency_total. rewrite Hu.
    destruct (bool_decide _); cbn; [ | lia ].
    unfold count_where. split; [ lia | ].
    apply inj_le, filter_length_le.
Qed.

Lemma statistics_breakdowns_add_up_witness :
  exists s,
    get_matching_statistics elements Sample.db "2024-01-01T00:00:00" = Ok s /\
    sum_over (urgency_total s) urgency_levels = 3 /\
    sum_over (group_donors s) canonical_groups = 3.
Proof.
  destruct (get_matching_statistics elements Sample.db "2024-01-01T00:00:00")
    as [s | e] eqn:E; [ | vm_compute in E; discriminate ].
  exists s. split; [ reflexivity | ].
  assert (Hiter : set_iteration elements) by (intros X; reflexivity).
  assert (Hreq : requests_valid Sample.db)
    by (repeat (constructor; [ repeat split; vm_compute; reflexivity | ]); constructor).
  assert (Hdon : donors_valid Sample.db)
    by (repeat (constructor; [ vm_compute; reflexivity | ]); constructor).
  destruct (statistics_breakdowns_add_up elements Sample.db _ s Hiter Hreq Hdon E)
    as (-> & _ & _ & -> & _).
  vm_compute in E. injection E as <-. split; reflexivity.
Defined.

(** ** Properties of the matching endpoints *)

Import MatchingRouter.

Lemma donor_get_by_id_Some (table : list Donor.t) (id : Z) (d : Donor.t) :
  DonorRepository.get_by_id table id = Some d -> d ∈ table /\ Donor.id d = id.
Proof.
  unfold DonorRepository.get_by_id. intros H.
  apply find_some in H as [Hin Heq]. split; [ apply list_elem_of_In, Hin | lia ].
Qed.

Lemma apply_limit_length {A} (k : Z) (l : list A) :
  0 < k -> Z.of_nat (length (apply_limit (Some k) l)) <= k.
Proof. intros Hk. rewrite (apply_limit_positive k l Hk), length_take. lia. Qed.

Lemma find_matching_donors_length
    (set_order : gset string -> list string) (db : store) (r : BloodRequest.t)
    (cem : bool) (k : Z) (l : list donor_match) :
  0 < k -> find_matching_donors set_order db r cem (Some k) = Ok l ->
  Z.of_nat (length l) <= k.
Proof.
  intros Hk H. apply find_matching_donors_shape in H as (_ & ms & _ & ->).
  apply apply_limit_length, Hk.
Qed.

Lemma find_requests_for_donor_length
    (db : store) (d : Donor.t) (cem active_only : bool) (k : Z) (l : list request_match) :
  0 < k -> find_requests_for_donor db d cem active_only (Some k) = Ok l ->
  Z.of_nat (length l) <= k.
Proof.
  intros Hk H. apply find_requests_for_donor_shape in H as (ms & _ & ->).
  apply apply_limit_length, Hk.
Qed.

(** X16: what the two match endpoints answer on a store of validated requests
    with positive keys.  A limit outside 1..50 is refused with 422 before the
    service is called.  Otherwise an identifier that is not positive gives
    400, a positive identifier within the range of SQLite's integers and
    without a row gives 404 with the "not found" message, and a stored
    identifier gives 200 with a list that is empty for a request that is not
    Active and never longer than the limit. *)
Theorem match_endpoints_answers
    (set_order : gset string -> list string) (db : store) (id : Z)
    (cem active_only : bool) (limit : option Z) :
  keys_positive db -> requests_valid db ->
  (query_in_bounds 1 50 limit = false ->
   get_matching_donors_for_request set_order db id cem limit = RequestValidationError /\
   get_matching_requests_for_donor db id cem active_only limit = RequestValidationError) /\
  (query_in_bounds 1 50 limit = true ->
   (id <= 0 ->
    get_matching_donors_for_request set_order db id cem limit =
      HTTPException 400 "Unexpected error: Blood request ID must be a positive integer" /\
    get_matching_requests_for_donor db id cem active_only limit =
      HTTPException 400 "Unexpected error: Donor ID must be a positive integer") /\
   (0 < id <= sqlite_max_int ->
    BloodRequestRepository.get_by_id (blood_requests db) id = None ->
    get_matching_donors_for_request set_order db id cem limit =
      HTTPException 404
        ("Unexpected error: " ++ "Blood request with ID " ++ pretty id ++ " not found")) /\
   (0 < id <= sqlite_max_int ->
    DonorRepository.get_by_id (donors db) id = None ->
    get_matching_requests_for_donor db id cem active_only limit =
      HTTPException 404
        ("Unexpected error: " ++ "Donor with ID " ++ pretty id ++ " not found")) /\
   (forall r, BloodRequestRepository.get_by_id (blood_requests db) id = Some r ->
      exists l, get_matching_donors_for_request set_order db id cem limit = Returned l /\
                (BloodRequest.status r <> "Active" -> l = []) /\
                (forall k, limit = Some k -> Z.of_nat (length l) <= k <= 50)) /\
   (forall d, DonorRepository.get_by_id (donors db) id = Some d ->
      exists l, get_matching_requests_for_donor db id cem active_only limit = Returned l /\
                (forall k, limit = Some k -> Z.of_nat (length l) <= k <= 50))).
Proof.
  intros [Hdk Hrk] Hvalid.
  unfold get_matching_donors_for_request, get_matching_requests_for_donor.
  split; [ intros ->; split; reflexivity | ]. intros Hb. rewrite Hb. cbn [negb].
  assert (Hlim : forall k, limit = Some k -> 0 < k <= 50).
  { intros k ->. cbn in Hb. lia. }
  unfold find_matching_donors_by_request_id, find_requests_for_donor_by_id.
  split; [ | split; [ | split; [ | split ] ] ].
  - intros Hid. replace (id <=? 0) with true by lia. split; reflexivity.
  - intros Hid Hnone. replace (id <=? 0) with false by lia. rewrite Hnone.
    cbn [guarded is_repository_error str match_handlers].
    rewrite (mentions_not_found "Unexpected error: " "Blood request with ID " (pretty id)).
    reflexivity.
  - intros Hid Hnone. replace (id <=? 0) with false by lia. rewrite Hnone.
    cbn [guarded is_repository_error str match_handlers].
    rewrite (mentions_not_found "Unexpected error: " "Donor with ID " (pretty id)).
    reflexivity.
  - intros r Hget. destruct (get_by_id_Some _ _ _ Hget) as [Hin Hid].
    rewrite Forall_forall in Hrk. specialize (Hrk r Hin).
    unfold requests_valid in Hvalid. rewrite Forall_forall in Hvalid.
    destruct (Hvalid r Hin) as [Hg _]. apply bool_decide_eq_true in Hg.
    replace (id <=? 0) with false by lia. rewrite Hget.
    destruct (String.eqb_spec (BloodRequest.status r) "Active") as [E | E]; cbn [negb].
    + pose proof (find_matching_donors_total set_order db r cem Hg limit) as Hok.
      destruct (find_matching_donors set_order db r cem limit) as [l | e] eqn:El;
        [ | discriminate ].
      exists l. split; [ reflexivity | ]. split; [ contradiction | ].
      intros k ->. split; [ | apply Hlim; reflexivity ].
      apply (find_matching_donors_length _ _ _ _ _ _ (proj1 (Hlim k eq_refl)) El).
    + exists []. split; [ reflexivity | ]. split; [ reflexivity | ].
      intros k Hk. cbn. specialize (Hlim k Hk). lia.
  - intros d Hget. destruct (donor_get_by_id_Some _ _ _ Hget) as [Hin Hid].
    rewrite Forall_forall in Hdk. specialize (Hdk d Hin).
    replace (id <=? 0) with false by lia. rewrite Hget.
    pose proof (find_requests_for_donor_total db d cem active_only limit Hvalid) as Hok.
    destruct (find_requests_for_donor db d cem active_only limit) as [l | e] eqn:El;
      [ | discriminate ].
    exists l. split; [ reflexivity | ].
    intros k ->. split; [ | apply Hlim; reflexivity ].
    apply (find_requests_for_donor_length _ _ _ _ _ _ (proj1 (Hlim k eq_refl)) El).
Qed.

Lemma sample_store_checked : keys_positive Sample.db /\ requests_valid Sample.db.
Proof.
  split; [ split | ].
  - repeat (constructor; [ reflexivity | ]); constructor.
  - repeat (constructor; [ reflexivity | ]); constructor.
  - repeat (constructor; [ repeat split; vm_compute; reflexivity | ]); constructor.
Qed.

Lemma match_endpoints_answers_witness :
  get_matching_donors_for_request elements Sample.db 3 false (Some 0) =
    RequestValidationError /\
  get_matching_donors_for_request elements Sample.db 9 false (Some 5) =
    HTTPException 404 "Unexpected error: Blood request with ID 9 not found" /\
  get_matching_donors_for_request elements Sample.db 2 false (Some 5) = Returned [].
Proof.
  destruct sample_store_checked as [Hk Hv].
  destruct (match_endpoints_answers elements Sample.db 3 false true (Some 0) Hk Hv)
    as [H422 _].
  destruct (match_endpoints_answers elements Sample.db 9 false true (Some 5) Hk Hv)
    as (_ & H9).
  destruct (H9 eq_refl) as (_ & H404 & _).
  destruct (match_endpoints_answers elements Sample.db 2 false true (Some 5) Hk Hv)
    as (_ & H2).
  destruct (H2 eq_refl) as (_ & _ & _ & H200 & _).
  destruct (H200 Sample.fulfilled_a eq_refl) as (l & Hl & Hempty & _).
  split; [ apply H422; reflexivity | ].
  split; [ apply H404; [ unfold sqlite_max_int; lia | reflexivity ] | ].
  rewrite Hl, Hempty; [ reflexivity | discriminate ].
Defined.

Lemma insert_asc_perm (x : string) (l : list string) : PyStr.insert_asc x l ≡ₚ x :: l.
Proof.
  induction l as [| y ys IH]; cbn; [ reflexivity | ].
  destruct (String.leb x y); [ reflexivity | ].
  rewrite IH. apply Permutation_swap.
Qed.

Lemma sorted_perm (l : list string) : PyStr.sorted l ≡ₚ l.
Proof.
  induction l as [| x xs IH]; cbn; [ reflexivity | ].
  rewrite insert_asc_perm, IH. reflexivity.
Qed.

Lemma sorted_set_order
    (set_order : gset string -> list string) (X : gset string) (x : string) :
  set_iteration set_order ->
  (x ∈ PyStr.sorted (set_order X) <-> x ∈ X) /\
  length (PyStr.sorted (set_order X)) = size X.
Proof.
  intros Hiter. rewrite sorted_perm, (Hiter X). split; [ apply elem_of_elements | ].
  reflexivity.
Qed.

Lemma compatible_recipients_spec (D R : string) :
  R ∈ compatible_recipients D <-> R ∈ valid_blood_groups /\ D ∈ canonical_donor_groups R.
Proof.
  unfold compatible_recipients. rewrite elem_of_dom. unfold is_Some. split.
  - intros (v & Hv). apply map_lookup_filter_Some in Hv as [Hv HD]. cbn in HD.
    apply compatibility_map_Some in Hv as [HR ->]. auto.
  - intros [HR HD]. exists (canonical_donor_groups R).
    apply map_lookup_filter_Some. split; [ apply compatibility_map_lookup, HR | exact HD ].
Qed.

(** The two flags against the two counts, checked over the 8 groups. *)
Lemma universal_flags_checked :
  forallb (fun g =>
    Bool.eqb (String.eqb g "O-") (Nat.eqb (size (compatible_recipients g)) 8) &&
    Bool.eqb (String.eqb g "AB+") (Nat.eqb (size (canonical_donor_groups g)) 8))
    canonical_groups = true.
Proof. vm_compute. reflexivity. Qed.

(** X17: the compatibility report of a canonical group.  The two lists are
    dual, a group [R] is under [can_donate_to] of [D] exactly when [D] is
    under [can_receive_from] of [R]; each list is as long as the count given
    for it; [is_universal_donor] holds exactly when all 8 groups are
    recipients, [is_universal_recipient] exactly when all 8 are donors.  A
    group outside the table is answered with 400. *)
Theorem compatibility_info_consistent
    (set_order : gset string -> list string) (D R : string) :
  set_iteration set_order ->
  D ∈ valid_blood_groups -> R ∈ valid_blood_groups ->
  exists iD iR,
    get_blood_compatibility_info set_order D = Returned iD /\
    get_blood_compatibility_info set_order R = Returned iR /\
    (R ∈ can_donate_to iD <-> D ∈ can_receive_from iR) /\
    Z.of_nat (length (can_receive_from iD)) =
      total_compatible_donors (ci_compatibility_details iD) /\
    Z.of_nat (length (can_donate_to iD)) =
      total_compatible_recipients (ci_compatibility_details iD) /\
    (is_universal_donor iD = true <->
     total_compatible_recipients (ci_compatibility_details iD) = 8) /\
    (is_universal_recipient iD = true <->
     total_compatible_donors (ci_compatibility_details iD) = 8) /\
    (forall X, X ∉ valid_blood_groups ->
       get_blood_compatibility_info set_order X =
         HTTPException 400
           ("Failed to get compatible blood groups: " ++ "Invalid blood group: " ++ X)).
Proof.
  intros Hiter HD HR. unfold get_blood_compatibility_info.
  rewrite (get_compatible_blood_groups_valid D HD), (get_compatible_blood_groups_valid R HR).
  eexists. eexists. split; [ reflexivity | ]. split; [ reflexivity | ]. cbn.
  pose proof universal_flags_checked as Hflags. rewrite forallb_forall in Hflags.
  specialize (Hflags D (proj1 (list_elem_of_In _ _) (proj2 (canonical_groups_valid D) HD))).
  apply andb_true_iff in Hflags as [Hdon Hrec].
  apply Bool.eqb_prop in Hdon. apply Bool.eqb_prop in Hrec.
  split; [ | split; [ | split; [ | split; [ | split ] ] ] ].
  - rewrite (proj1 (sorted_set_order set_order _ R Hiter)),
      (proj1 (sorted_set_order set_order _ D Hiter)), compatible_recipients_spec. tauto.
  - rewrite (proj2 (sorted_set_order set_order _ D Hiter)). reflexivity.
  - rewrite (proj2 (sorted_set_order set_order _ D Hiter)). reflexivity.
  - rewrite Hdon, Nat.eqb_eq. lia.
  - rewrite Hrec, Nat.eqb_eq. lia.
  - intros X HX. unfold get_compatible_blood_groups.
    rewrite (compatibility_map_None X HX). reflexivity.
Qed.

Lemma compatibility_info_consistent_witness :
  exists iD,
    get_blood_compatibility_info elements "O-" = Returned iD /\
    can_receive_from iD = [ "O-" ] /\
    can_donate_to iD = [ "A+"; "A-"; "AB+"; "AB-"; "B+"; "B-"; "O+"; "O-" ] /\
    is_universal_donor iD = true.
Proof.
  assert (Hiter : set_iteration elements) by (intros X; reflexivity).
  assert (HD : "O-" ∈ valid_blood_groups) by decide_by_compute.
  destruct (compatibility_info_consistent elements "O-" "O-" Hiter HD HD)
    as (iD & _ & HiD & _ & _ & _ & _ & _ & Hdon & _).
  exists iD. split; [ exact HiD | ].
  vm_compute in HiD. injection HiD as <-. repeat split; reflexivity.
Defined.
(** *** Searching compatible donors *)

Lemma unique_by_id_spec (all_donors : list Donor.t) (seen : gset Z) (acc : list Donor.t) :
  (forall i, i ∈ seen <-> i ∈ map Donor.id acc) -> NoDup (map Donor.id acc) ->
  NoDup (map Donor.id (unique_by_id all_donors seen acc)) /\
  (forall d, d ∈ unique_by_id all_donors seen acc -> d ∈ acc \/ d ∈ all_donors).
Proof.
  revert seen acc. induction all_donors as [| d ds IH]; intros seen acc Hseen Hnd; cbn.
  - split; [ exact Hnd | auto ].
  - destruct (decide (Donor.id d ∈ seen)) as [Hin | Hout].
    + rewrite (bool_decide_eq_true_2 _ Hin). destruct (IH seen acc Hseen Hnd) as [H1 H2].
      split; [ exact H1 | ]. intros x Hx. destruct (H2 x Hx); [ auto | ].
      right. apply list_elem_of_further. assumption.
    + rewrite (bool_decide_eq_false_2 _ Hout).
      destruct (IH ({[ Donor.id d ]} ∪ seen) (acc ++ [ d ])%list) as [H1 H2].
      * intros i. rewrite map_app, elem_of_app, elem_of_union, elem_of_singleton, Hseen.
        cbn. rewrite list_elem_of_singleton. tauto.
      * rewrite map_app. cbn. apply NoDup_app. split; [ exact Hnd | ]. split.
        -- intros i Hi Hi'. apply list_elem_of_singleton in Hi'. subst i.
           apply Hout, Hseen, Hi.
        -- apply NoDup_singleton.
      * split; [ exact H1 | ]. intros x Hx. destruct (H2 x Hx) as [Hx' | Hx'].
        -- apply elem_of_app in Hx' as [Hx' | Hx']; [ auto | ].
           apply list_elem_of_singleton in Hx'. subst x. right. apply list_elem_of_here.
        -- right. apply list_elem_of_further, Hx'.
Qed.

Lemma unique_by_id_keeps_all (all_donors : list Donor.t) (seen : gset Z) (acc : list Donor.t) :
  (forall i, i ∈ seen <-> i ∈ map Donor.id acc) ->
  NoDup (map Donor.id (acc ++ all_donors)) ->
  unique_by_id all_donors seen acc = (acc ++ all_donors)%list.
Proof.
  revert seen acc. induction all_donors as [| d ds IH]; intros seen acc Hseen Hnd; cbn.
  - symmetry. apply app_nil_r.
  - assert (Hout : Donor.id d ∉ seen).
    { rewrite Hseen. rewrite map_app in Hnd. apply NoDup_app in Hnd as (_ & Hd & _).
      intros Hin. apply (Hd _ Hin). cbn. apply list_elem_of_here. }
    rewrite (bool_decide_eq_false_2 _ Hout).
    rewrite (IH ({[ Donor.id d ]} ∪ seen) (acc ++ [ d ])%list).
    + rewrite <- app_assoc. reflexivity.
    + intros i. rewrite map_app, elem_of_app, elem_of_union, elem_of_singleton, Hseen.
      cbn. rewrite list_elem_of_singleton. tauto.
    + rewrite <- app_assoc. exact Hnd.
Qed.

Section CompatibleSearch.
Variable set_order : gset string -> list string.
Variables (db : store) (blood_group : string).

Lemma extend_without_city (gs : list string) (city : option string) (acc : list Donor.t) :
  PyStr.truthy_opt_str city = false ->
  Forall (fun g => g ∈ valid_blood_groups) gs ->
  extend_compatible_donors set_order db gs city acc =
    Found (acc ++ (gs ≫= fetched db (probe blood_group "") false))%list.
Proof.
  intros Hc. revert acc. induction gs as [| g gs IH]; intros acc Hv; cbn.
  - rewrite app_nil_r. reflexivity.
  - apply Forall_cons in Hv as [Hg Hv].
    assert (E : match city with
                | Some c =>
                    if truthy_str c
                    then DonorService.search_donors_by_blood_group_and_city set_order db g c
                    else DonorService.search_donors_by_blood_group set_order db g
                | None => DonorService.search_donors_by_blood_group set_order db g
                end = DonorService.Done (fetched db (probe blood_group "") false g)).
    { unfold DonorService.search_donors_by_blood_group.
      destruct city as [c |]; cbn in Hc; [ rewrite Hc | ];
        rewrite (bool_decide_eq_true_2 _ Hg); reflexivity. }
    rewrite E, (IH _ Hv), <- app_assoc. reflexivity.
Qed.

Lemma extend_with_city (gs : list string) (c : string) (acc : list Donor.t) :
  truthy_str c = true -> truthy_str (PyStr.strip c) = true ->
  Forall (fun g => g ∈ valid_blood_groups) gs ->
  extend_compatible_donors set_order db gs (Some c) acc =
    Found (acc ++ (gs ≫= fetched db (probe blood_group (PyStr.strip c)) true))%list.
Proof.
  intros Hc Hs. revert acc. induction gs as [| g gs IH]; intros acc Hv; cbn.
  - rewrite app_nil_r. reflexivity.
  - apply Forall_cons in Hv as [Hg Hv]. rewrite Hc.
    unfold DonorService.search_donors_by_blood_group_and_city.
    rewrite (bool_decide_eq_true_2 _ Hg), Hc, Hs. cbn.
    rewrite (IH _ Hv), <- app_assoc. reflexivity.
Qed.

Lemma extend_with_blank_city (g : string) (gs : list string) (c : string) (acc : list Donor.t) :
  truthy_str c = true -> truthy_str (PyStr.strip c) = false ->
  g ∈ valid_blood_groups ->
  extend_compatible_donors set_order db (g :: gs) (Some c) acc =
    Failed "Unexpected error: City cannot be empty".
Proof.
  intros Hc Hs Hg. cbn. rewrite Hc.
  unfold DonorService.search_donors_by_blood_group_and_city.
  rewrite (bool_decide_eq_true_2 _ Hg), Hc, Hs. reflexivity.
Qed.
End CompatibleSearch.

Lemma NoDup_map_filter {A B} (f : A -> B) (p : A -> bool) (l : list A) :
  NoDup (map f l) -> NoDup (map f (List.filter p l)).
Proof.
  induction l as [| x l IH]; cbn; intros H; [ constructor | ].
  apply NoDup_cons in H as [Hx H]. destruct (p x); cbn; [ | apply IH, H ].
  apply NoDup_cons. split; [ | apply IH, H ].
  intros Hin. apply Hx. apply list_elem_of_In, in_map_iff in Hin as (y & <- & Hy).
  apply filter_In in Hy as [Hy _]. apply list_elem_of_In, in_map, Hy.
Qed.

(** X18: [search_compatible_donors] on a canonical group, a city of ASCII
    text and a limit within its bounds.  A city made of blanks only is
    answered with 400.  Otherwise
    the donors returned have pairwise distinct ids, each is a stored donor of
    a compatible group (in the given city, when one is given), at most
    [limit] of them come back, and on a table with unique keys and no limit
    they are, up to order, all such donors: the pass that drops repeated ids
    drops nothing. *)
Theorem search_compatible_donors_answers
    (set_order : gset string -> list string) (db : store)
    (blood_group : string) (city : option string) (limit : option Z) :
  set_iteration set_order ->
  blood_group ∈ valid_blood_groups ->
  query_in_bounds 1 100 limit = true ->
  (forall c, city = Some c -> ascii_text c = true) ->
  (forall c, city = Some c -> truthy_str c = true -> truthy_str (PyStr.strip c) = false ->
     search_compatible_donors set_order db blood_group city limit =
       HTTPException 400 "Unexpected error: City cannot be empty") /\
  ((forall c, city = Some c -> truthy_str c = true -> truthy_str (PyStr.strip c) = true) ->
   exists l,
     search_compatible_donors set_order db blood_group city limit = Returned l /\
     NoDup (map Donor.id l) /\
     Forall (fun d => d ∈ donors db /\ compatible_in_city blood_group city d = true) l /\
     (forall k, limit = Some k -> Z.of_nat (length l) <= k) /\
     (donor_keys_unique db -> limit = None ->
      l ≡ₚ List.filter (compatible_in_city blood_group city) (donors db))).
Proof.
  intros Hiter Hbg Hb _. unfold search_compatible_donors. rewrite Hb. cbn [negb].
  rewrite (get_compatible_blood_groups_valid _ Hbg).
  set (S := canonical_donor_groups blood_group).
  assert (Hv : Forall (fun g => g ∈ valid_blood_groups) (set_order S)).
  { apply Forall_forall. intros g Hg. rewrite (Hiter S) in Hg.
    apply elem_of_elements in Hg. exact (canonical_donor_groups_valid _ _ Hg). }
  assert (Hnd : NoDup (set_order S)) by (rewrite (Hiter S); apply NoDup_elements).
  assert (Hmem : forall g, g ∈ set_order S <-> g ∈ S).
  { intros g. rewrite (Hiter S). apply elem_of_elements. }
  split.
  - intros c -> Hc Hs.
    destruct (set_order S) as [| g gs] eqn:Eg.
    + exfalso. apply (not_elem_of_nil blood_group).
      apply Hmem, self_compatible, Hbg.
    + apply Forall_cons in Hv as [Hg _].
      rewrite (extend_with_blank_city set_order db g gs c [] Hc Hs Hg). reflexivity.
  - intros Hcity.
    assert (Hall : exists cem c',
      extend_compatible_donors set_order db (set_order S) city [] =
        Found (set_order S ≫= fetched db (probe blood_group c') cem) /\
      forall d, eligible_donor (probe blood_group c') cem d =
                compatible_in_city blood_group city d).
    { destruct city as [c |]; [ destruct (truthy_str c) eqn:Hc | ].
      - exists true, (PyStr.strip c). split.
        + rewrite (extend_with_city set_order db blood_group _ c [] Hc
                     (Hcity c eq_refl Hc) Hv). reflexivity.
        + intros d. unfold eligible_donor, compatible_in_city. cbn.
          rewrite Hc, (Hcity c eq_refl Hc). reflexivity.
      - exists false, "". split.
        + rewrite (extend_without_city set_order db blood_group _ (Some c) []); auto.
        + intros d. unfold eligible_donor, compatible_in_city. cbn. rewrite Hc. reflexivity.
      - exists false, "". split.
        + rewrite (extend_without_city set_order db blood_group _ None []); auto.
        + intros d. reflexivity. }
    destruct Hall as (cem & c' & -> & Hel).
    set (all := set_order S ≫= fetched db (probe blood_group c') cem).
    assert (Hperm : all ≡ₚ List.filter (compatible_in_city blood_group city) (donors db)).
    { unfold all. rewrite (bind_fetched_perm db (probe blood_group c') cem _ Hnd Hv).
      erewrite List_filter_ext_in; [ reflexivity | ].
      intros d _. rewrite <- Hel. unfold eligible_donor. f_equal.
      apply bool_decide_ext. apply Hmem. }
    destruct (unique_by_id_spec all ∅ []) as [Hun Hsub].
    { intros i. cbn. rewrite elem_of_nil.
        pose proof (not_elem_of_empty (C:=gset Z) i). tauto. }
    { constructor. }
    eexists. split; [ reflexivity | ].
    assert (Htake : exists n, apply_limit limit (unique_by_id all ∅ []) =
                              take n (unique_by_id all ∅ []))
      by apply apply_limit_take.
    destruct Htake as [n Htake].
    split; [ | split; [ | split ] ].
    + rewrite Htake. rewrite <- (take_drop n (unique_by_id all ∅ [])) in Hun.
      rewrite map_app in Hun. apply NoDup_app in Hun as [Hun _]. exact Hun.
    + apply Forall_forall. intros d Hd. apply apply_limit_sublist in Hd.
      destruct (Hsub d Hd) as [Hd' | Hd']; [ inversion Hd' | ].
      rewrite Hperm in Hd'. apply list_elem_of_In, filter_In in Hd' as [Hin Hc].
      split; [ apply list_elem_of_In, Hin | exact Hc ].
    + intros k ->. cbn in Hb. apply apply_limit_length. lia.
    + intros Hkeys ->. cbn [apply_limit].
      rewrite (unique_by_id_keeps_all all ∅ []); [ exact Hperm | | ].
      * intros i. cbn. rewrite elem_of_nil.
        pose proof (not_elem_of_empty (C:=gset Z) i). tauto.
      * cbn. rewrite (Permutation_map Donor.id Hperm).
        apply NoDup_map_filter, Hkeys.
Qed.

Lemma search_compatible_donors_answers_witness :
  search_compatible_donors elements Sample.db "A+" (Some "   ") None =
    HTTPException 400 "Unexpected error: City cannot be empty" /\
  exists l,
    search_compatible_donors elements Sample.db "A+" (Some " Delhi ") None = Returned l /\
    map Donor.id l = [ 1 ].
Proof.
  assert (Hiter : set_iteration elements) by (intros X; reflexivity).
  assert (Hbg : "A+" ∈ valid_blood_groups) by decide_by_compute.
  destruct (search_compatible_donors_answers elements Sample.db "A+" (Some "   ") None
              Hiter Hbg eq_refl) as [Hblank _]; [ intros c [= <-]; reflexivity | ].
  destruct (search_compatible_donors_answers elements Sample.db "A+" (Some " Delhi ") None
              Hiter Hbg eq_refl) as [_ Hcity]; [ intros c [= <-]; reflexivity | ].
  split; [ apply (Hblank "   "); reflexivity | ].
  destruct Hcity as (l & Hl & _).
  { intros c [= <-] _. reflexivity. }
  exists l. split; [ exact Hl | ].
  vm_compute in Hl. injection Hl as <-. reflexivity.
Defined.

(** ** Properties of the repositories and of the donor service *)

Lemma strip_blank_iff (c : string) :
  truthy_str (PyStr.strip c) = false <-> PyStr.strip c = "".
Proof. destruct (PyStr.strip c); cbn; split; congruence. Qed.

(** X20: a city made of blanks only.  [get_all_donors] strips it to the empty
    string, which the repository takes for "no city filter": the answer is
    the one given without a city.  [search_donors_by_city] and
    [search_donors_by_blood_group_and_city] refuse the same city with
    "City cannot be empty". *)
Theorem blank_city_is_no_filter
    (set_order : gset string -> list string) (db : store)
    (blood_group : option string) (g c : string) (limit offset : option Z) :
  truthy_str c = true -> PyStr.strip c = "" -> g ∈ valid_blood_groups ->
  DonorService.get_all_donors set_order db blood_group (Some c) limit offset =
    DonorService.get_all_donors set_order db blood_group None limit offset /\
  DonorService.search_donors_by_city db c =
    DonorService.DonorServiceError "Unexpected error: City cannot be empty" /\
  DonorService.search_donors_by_blood_group_and_city set_order db g c =
    DonorService.DonorServiceError "Unexpected error: City cannot be empty".
Proof.
  intros Hc Hs Hg. split; [ | split ].
  - unfold DonorService.get_all_donors. rewrite Hc, Hs.
    unfold DonorRepositoryFull.get_all, DonorRepositoryFull.where_,
      DonorRepository.where_, DonorRepository.cond. cbn. reflexivity.
  - unfold DonorService.search_donors_by_city. rewrite Hc, Hs. reflexivity.
  - unfold DonorService.search_donors_by_blood_group_and_city.
    rewrite (bool_decide_eq_true_2 _ Hg), Hc, Hs. reflexivity.
Qed.

Lemma blank_city_is_no_filter_witness :
  (map Donor.id <$>
     match DonorService.get_all_donors elements Sample.db None (Some "  ") None None with
     | DonorService.Done l => Some l
     | DonorService.DonorServiceError _ => None
     end) = Some [ 1; 2; 3 ] /\
  DonorService.search_donors_by_city Sample.db "  " =
    DonorService.DonorServiceError "Unexpected error: City cannot be empty".
Proof.
  assert (Hg : "A+" ∈ valid_blood_groups) by decide_by_compute.
  destruct (blank_city_is_no_filter elements Sample.db None "A+" "  " None None
              eq_refl eq_refl Hg) as (-> & Hsearch & _).
  split; [ reflexivity | exact Hsearch ].
Defined.

(** X21: the duplicate check of [create_donor], for a donor whose city and
    name are ASCII text and not blank.  The repository does not read the
    [contact_number] key, so the check sees every donor of the table: on a
    table that holds a donor, whatever the contact numbers, the creation is
    refused with "already exists" and the store is left as it was; on an
    empty table the donor is created as the only row, with the key and the
    time given by the database. *)
Theorem create_donor_duplicate_check
    (db : store) (donor_data : DonorRepositoryFull.DonorCreate)
    (now : string) (lastrowid : Z) :
  ascii_text (DonorRepositoryFull.c_city donor_data) = true ->
  ascii_text (DonorRepositoryFull.c_name donor_data) = true ->
  truthy_str (PyStr.strip (DonorRepositoryFull.c_city donor_data)) = true ->
  truthy_str (PyStr.strip (DonorRepositoryFull.c_name donor_data)) = true ->
  (donors db <> [] ->
   DonorService.create_donor db donor_data now lastrowid =
     (DonorService.DonorServiceError
        ("Unexpected error: " ++ "Donor with contact number " ++
         DonorRepositoryFull.c_contact_number donor_data ++ " already exists"),
      db)) /\
  (donors db = [] ->
   exists row,
     DonorService.create_donor db donor_data now lastrowid =
       (DonorService.Done row, Store [ row ] (blood_requests db)) /\
     Donor.id row = lastrowid /\
     Donor.contact_number row = DonorRepositoryFull.c_contact_number donor_data /\
     Donor.created_at row = Some now).
Proof.
  intros _ _ Hcity Hname.
  unfold DonorService.create_donor, DonorService._validate_donor_creation.
  rewrite Hcity, Hname. cbn [negb].
  assert (E : DonorRepositoryFull.get_all (donors db)
                (DonorRepositoryFull.Filters None None None None
                   (Some (DonorRepositoryFull.c_contact_number donor_data))) = donors db).
  { unfold DonorRepositoryFull.get_all, DonorRepositoryFull.where_,
      DonorRepository.where_, DonorRepository.cond. cbn. apply List_filter_true. }
  rewrite E. split.
  - intros Hne. destruct (donors db) as [| d ds]; [ contradiction | reflexivity ].
  - intros ->. eexists. split; [ reflexivity | ]. repeat split; reflexivity.
Qed.

Lemma create_donor_duplicate_check_witness :
  (DonorService.create_donor Sample.db
     (DonorRepositoryFull.MkCreate "Nila Bose" "B-" "Kochi" "9000000001" None)
     "2024-02-01 09:00:00" 4).1 =
    DonorService.DonorServiceError
      "Unexpected error: Donor with contact number 9000000001 already exists" /\
  (DonorService.create_donor Sample.empty
     (DonorRepositoryFull.MkCreate "Nila Bose" "B-" "Kochi" "9000000001" None)
     "2024-02-01 09:00:00" 4).2 =
    Store [ Donor.Build 4 "Nila Bose" "B-" "Kochi" "9000000001" None
              (Some "2024-02-01 09:00:00") ] [].
Proof.
  destruct (create_donor_duplicate_check Sample.db
              (DonorRepositoryFull.MkCreate "Nila Bose" "B-" "Kochi" "9000000001" None)
              "2024-02-01 09:00:00" 4 eq_refl eq_refl eq_refl eq_refl) as [Hfull _].
  destruct (create_donor_duplicate_check Sample.empty
              (DonorRepositoryFull.MkCreate "Nila Bose" "B-" "Kochi" "9000000001" None)
              "2024-02-01 09:00:00" 4 eq_refl eq_refl eq_refl eq_refl) as [_ Hempty].
  assert (Hne : donors Sample.db <> []) by (cbn; discriminate).
  rewrite (Hfull Hne). destruct (Hempty eq_refl) as (row & Hrow & _).
  split; [ reflexivity | ]. rewrite Hrow. vm_compute in Hrow. injection Hrow as <-.
  reflexivity.
Defined.

(** *** Writes and lookups *)

Lemma find_map_same {A} (p : A -> bool) (f : A -> A) (l : list A) :
  (forall x, p (f x) = p x) -> List.find p (map f l) = f <$> List.find p l.
Proof.
  intros H. induction l as [| x l IH]; cbn; [ reflexivity | ].
  rewrite H. destruct (p x); [ reflexivity | exact IH ].
Qed.

Lemma find_filter {A} (p q : A -> bool) (l : list A) :
  List.find p (List.filter q l) = List.find (fun x => q x && p x) l.
Proof.
  induction l as [| x l IH]; cbn; [ reflexivity | ].
  destruct (q x); cbn; [ destruct (p x); [ reflexivity | exact IH ] | exact IH ].
Qed.

Lemma find_ext {A} (p q : A -> bool) (l : list A) :
  (forall x, p x = q x) -> List.find p l = List.find q l.
Proof.
  intros H. induction l as [| x l IH]; cbn; [ reflexivity | ].
  rewrite H, IH. reflexivity.
Qed.

Lemma find_none_all {A} (p : A -> bool) (l : list A) :
  (forall x, p x = false) -> List.find p l = None.
Proof.
  intros H. induction l as [| x l IH]; cbn; [ reflexivity | ]. rewrite H. exact IH.
Qed.

Lemma filter_shrinks {A} (p : A -> bool) (l : list A) (x : A) :
  List.find p l = Some x ->
  Nat.eqb (length l) (length (List.filter (fun y => negb (p y)) l)) = false.
Proof.
  intros H. apply Nat.eqb_neq.
  assert (Hlt : (length (List.filter (fun y => negb (p y)) l) < length l)%nat); [ | lia ].
  induction l as [| y l IH]; cbn in *; [ discriminate | ].
  destruct (p y); cbn.
  - pose proof (filter_length_le (fun y => negb (p y)) l). lia.
  - specialize (IH H). lia.
Qed.

Section RequestWrites.
Import BloodRequestRepositoryFull.

Lemma request_update_lookup (table : list BloodRequest.t) (id j : Z) (u : BloodRequestUpdate) :
  BloodRequestRepository.get_by_id
    (map (fun r => if BloodRequest.id r =? id then set_fields u r else r) table) j =
  (fun r => if BloodRequest.id r =? id then set_fields u r else r) <$>
    BloodRequestRepository.get_by_id table j.
Proof.
  unfold BloodRequestRepository.get_by_id. apply find_map_same.
  intros r. destruct (BloodRequest.id r =? id); reflexivity.
Qed.

Lemma request_delete_lookup (table : list BloodRequest.t) (id j : Z) :
  BloodRequestRepository.get_by_id
    (List.filter (fun r => negb (BloodRequest.id r =? id)) table) j =
  if j =? id then None else BloodRequestRepository.get_by_id table j.
Proof.
  unfold BloodRequestRepository.get_by_id. rewrite find_filter.
  destruct (Z.eqb_spec j id) as [-> | Hne].
  - apply find_none_all. intros r. destruct (BloodRequest.id r =? id); reflexivity.
  - apply find_ext. intros r.
    destruct (Z.eqb_spec (BloodRequest.id r) id) as [E | E]; cbn; [ lia | reflexivity ].
Qed.

Lemma request_no_fields (u : BloodRequestUpdate) (r : BloodRequest.t) :
  no_fields u = true -> set_fields u r = r.
Proof.
  destruct u as [a b c d e f g], r. unfold no_fields, set_fields. cbn.
  destruct a, b, c, d, e, f, g; try discriminate. reflexivity.
Qed.
End RequestWrites.

Section DonorWrites.
Import DonorRepositoryFull.

Lemma donor_update_lookup (table : list Donor.t) (id j : Z) (u : DonorUpdate) :
  DonorRepository.get_by_id
    (map (fun d => if Donor.id d =? id then set_fields u d else d) table) j =
  (fun d => if Donor.id d =? id then set_fields u d else d) <$>
    DonorRepository.get_by_id table j.
Proof.
  unfold DonorRepository.get_by_id. apply find_map_same.
  intros d. destruct (Donor.id d =? id); reflexivity.
Qed.

Lemma donor_delete_lookup (table : list Donor.t) (id j : Z) :
  DonorRepository.get_by_id (List.filter (fun d => negb (Donor.id d =? id)) table) j =
  if j =? id then None else DonorRepository.get_by_id table j.
Proof.
  unfold DonorRepository.get_by_id. rewrite find_filter.
  destruct (Z.eqb_spec j id) as [-> | Hne].
  - apply find_none_all. intros d. destruct (Donor.id d =? id); reflexivity.
  - apply find_ext. intros d.
    destruct (Z.eqb_spec (Donor.id d) id) as [E | E]; cbn; [ lia | reflexivity ].
Qed.

Lemma donor_no_fields (u : DonorUpdate) (d : Donor.t) :
  no_fields u = true -> set_fields u d = d.
Proof.
  destruct u as [a b c e f], d. unfold no_fields, set_fields. cbn.
  destruct a, b, c, e, f; try discriminate. reflexivity.
Qed.
End DonorWrites.

(** X22: deleting and looking up.  [delete_donor] and [delete_blood_request]
    on a positive identifier within the range of SQLite's integers answer
    whether a row was stored under it; after
    the call a lookup of that identifier finds nothing, a lookup of any other
    identifier finds what it found before, the other table is untouched, and
    when no row was stored the store is the same. *)
Theorem delete_then_lookup (db : store) (id : Z) :
  0 < id <= sqlite_max_int ->
  (let out := DonorService.delete_donor db id in
   out.1 = DonorService.Done (bool_decide (is_Some (DonorRepository.get_by_id (donors db) id))) /\
   DonorRepository.get_by_id (donors out.2) id = None /\
   (forall j, j <> id ->
      DonorRepository.get_by_id (donors out.2) j = DonorRepository.get_by_id (donors db) j) /\
   blood_requests out.2 = blood_requests db /\
   (DonorRepository.get_by_id (donors db) id = None -> out.2 = db)) /\
  (let out := BloodRequestService.delete_blood_request db id in
   out.1 = BloodRequestService.Done
             (bool_decide (is_Some (BloodRequestRepository.get_by_id (blood_requests db) id))) /\
   BloodRequestRepository.get_by_id (blood_requests out.2) id = None /\
   (forall j, j <> id ->
      BloodRequestRepository.get_by_id (blood_requests out.2) j =
        BloodRequestRepository.get_by_id (blood_requests db) j) /\
   donors out.2 = donors db /\
   (BloodRequestRepository.get_by_id (blood_requests db) id = None -> out.2 = db)).
Proof.
  intros Hid. split.
  - unfold DonorService.delete_donor. replace (id <=? 0) with false by lia.
    destruct (DonorRepository.get_by_id (donors db) id) as [d |] eqn:E;
      unfold DonorRepositoryFull.delete; cbn [fst snd donors blood_requests].
    + unfold DonorRepository.get_by_id in E. rewrite (filter_shrinks _ _ _ E).
      cbn [negb bool_decide decide_rel]. rewrite bool_decide_eq_true_2 by eauto.
      split; [ reflexivity | ]. split; [ | split; [ | split; [ reflexivity | discriminate ] ] ].
      * rewrite donor_delete_lookup, Z.eqb_refl. reflexivity.
      * intros j Hj. rewrite donor_delete_lookup. replace (j =? id) with false by lia.
        reflexivity.
    + rewrite bool_decide_eq_false_2 by (intros [? ?]; discriminate).
      split; [ reflexivity | ]. split; [ exact E | ]. repeat split; reflexivity.
  - unfold BloodRequestService.delete_blood_request. replace (id <=? 0) with false by lia.
    destruct (BloodRequestRepository.get_by_id (blood_requests db) id) as [r |] eqn:E;
      unfold BloodRequestRepositoryFull.delete; cbn [fst snd donors blood_requests].
    + unfold BloodRequestRepository.get_by_id in E. rewrite (filter_shrinks _ _ _ E).
      cbn [negb]. rewrite bool_decide_eq_true_2 by eauto.
      split; [ reflexivity | ]. split; [ | split; [ | split; [ reflexivity | discriminate ] ] ].
      * rewrite request_delete_lookup, Z.eqb_refl. reflexivity.
      * intros j Hj. rewrite request_delete_lookup. replace (j =? id) with false by lia.
        reflexivity.
    + rewrite bool_decide_eq_false_2 by (intros [? ?]; discriminate).
      split; [ reflexivity | ]. split; [ exact E | ]. repeat split; reflexivity.
Qed.

Lemma delete_then_lookup_witness :
  (DonorService.delete_donor Sample.db 2).1 = DonorService.Done true /\
  map Donor.id (donors (DonorService.delete_donor Sample.db 2).2) = [ 1; 3 ] /\
  (BloodRequestService.delete_blood_request Sample.db 9).1 = BloodRequestService.Done false.
Proof.
  destruct (delete_then_lookup Sample.db 2 ltac:(unfold sqlite_max_int; lia))
    as [(H1 & _) _].
  destruct (delete_then_lookup Sample.db 9 ltac:(unfold sqlite_max_int; lia))
    as [_ (H2 & _)].
  split; [ exact H1 | ]. split; [ reflexivity | exact H2 ].
Defined.

(** X23: a successful [update_donor] or [update_blood_request] returns the
    stored row with the given fields replaced ([None] when no row has the
    identifier); a lookup of the identifier afterwards returns the same, the
    rows under other identifiers, the identifiers and the order of the table,
    and the other table are as before. *)
Theorem update_then_lookup (db : store) (id : Z) :
  (forall upd res db',
     DonorService.update_donor db id upd = (DonorService.Done res, db') ->
     res = DonorRepositoryFull.set_fields upd <$> DonorRepository.get_by_id (donors db) id /\
     DonorService.get_donor_by_id db' id = DonorService.Done res /\
     (forall j, j <> id ->
        DonorRepository.get_by_id (donors db') j = DonorRepository.get_by_id (donors db) j) /\
     map Donor.id (donors db') = map Donor.id (donors db) /\
     blood_requests db' = blood_requests db) /\
  (forall upd res db',
     BloodRequestService.update_blood_request db id upd = (BloodRequestService.Done res, db') ->
     res = BloodRequestRepositoryFull.set_fields upd <$>
             BloodRequestRepository.get_by_id (blood_requests db) id /\
     BloodRequestService.get_blood_request_by_id db' id = BloodRequestService.Done res /\
     (forall j, j <> id ->
        BloodRequestRepository.get_by_id (blood_requests db') j =
          BloodRequestRepository.get_by_id (blood_requests db) j) /\
     map BloodRequest.id (blood_requests db') = map BloodRequest.id (blood_requests db) /\
     donors db' = donors db).
Proof.
  split.
  - intros upd res db'. unfold DonorService.update_donor, DonorService.get_donor_by_id.
    destruct (id <=? 0); [ discriminate | ].
    destruct (DonorRepository.get_by_id (donors db) id) as [d |] eqn:E.
    2: { intros H. injection H as <- <-. rewrite E. repeat split; reflexivity. }
    destruct (DonorService._validate_donor_update upd d); [ | discriminate ].
    match goal with |- context [if ?c then _ else _] => destruct c end; [ discriminate | ].
    unfold DonorRepositoryFull.update. rewrite E.
    destruct (DonorRepositoryFull.no_fields upd) eqn:Hno; cbn [fst snd]; intros H;
      injection H as <- <-; cbn [donors blood_requests fmap option_fmap option_map].
    + rewrite (donor_no_fields _ _ Hno), E. repeat split; reflexivity.
    + destruct (donor_get_by_id_Some _ _ _ E) as [_ Hid].
      assert (Hres : DonorRepository.get_by_id
                (map (fun d0 => if Donor.id d0 =? id
                                then DonorRepositoryFull.set_fields upd d0 else d0) (donors db))
                id = Some (DonorRepositoryFull.set_fields upd d)).
      { rewrite donor_update_lookup, E. cbn. replace (Donor.id d =? id) with true by lia.
        reflexivity. }
      rewrite Hres. split; [ reflexivity | ]. split; [ reflexivity | ].
      split; [ | split; [ | reflexivity ] ].
      * intros j Hj. rewrite donor_update_lookup.
        destruct (DonorRepository.get_by_id (donors db) j) as [x |] eqn:Ex; [ | reflexivity ].
        destruct (donor_get_by_id_Some _ _ _ Ex) as [_ Hx]. cbn.
        replace (Donor.id x =? id) with false by lia. reflexivity.
      * rewrite map_map. apply map_ext. intros x.
        destruct (Donor.id x =? id); reflexivity.
  - intros upd res db'.
    unfold BloodRequestService.update_blood_request,
      BloodRequestService.get_blood_request_by_id.
    destruct (id <=? 0); [ discriminate | ].
    destruct (BloodRequestRepository.get_by_id (blood_requests db) id) as [r |] eqn:E.
    2: { intros H. injection H as <- <-. rewrite E. repeat split; reflexivity. }
    destruct (BloodRequestService._validate_blood_request_update upd r); [ | discriminate ].
    unfold BloodRequestRepositoryFull.update. rewrite E.
    destruct (BloodRequestRepositoryFull.no_fields upd) eqn:Hno; cbn [fst snd]; intros H;
      injection H as <- <-; cbn [donors blood_requests fmap option_fmap option_map].
    + rewrite (request_no_fields _ _ Hno), E. repeat split; reflexivity.
    + destruct (get_by_id_Some _ _ _ E) as [_ Hid].
      assert (Hres : BloodRequestRepository.get_by_id
                (map (fun r0 => if BloodRequest.id r0 =? id
                                then BloodRequestRepositoryFull.set_fields upd r0 else r0)
                   (blood_requests db))
                id = Some (BloodRequestRepositoryFull.set_fields upd r)).
      { rewrite request_update_lookup, E. cbn. replace (BloodRequest.id r =? id) with true by lia.
        reflexivity. }
      rewrite Hres. split; [ reflexivity | ]. split; [ reflexivity | ].
      split; [ | split; [ | reflexivity ] ].
      * intros j Hj. rewrite request_update_lookup.
        destruct (BloodRequestRepository.get_by_id (blood_requests db) j) as [x |] eqn:Ex;
          [ | reflexivity ].
        destruct (get_by_id_Some _ _ _ Ex) as [_ Hx]. cbn.
        replace (BloodRequest.id x =? id) with false by lia. reflexivity.
      * rewrite map_map. apply map_ext. intros x.
        destruct (BloodRequest.id x =? id); reflexivity.
Qed.

Lemma update_then_lookup_witness :
  let upd := DonorRepositoryFull.MkUpdate None None (Some "Mumbai") None None in
  exists db',
    DonorService.update_donor Sample.db 2 upd =
      (DonorService.Done
         (Some (Donor.Build 2 "Ravi Kumar" "A+" "Mumbai" "9876543211" None None)), db') /\
    DonorService.get_donor_by_id db' 2 =
      DonorService.Done
        (Some (Donor.Build 2 "Ravi Kumar" "A+" "Mumbai" "9876543211" None None)) /\
    DonorRepository.get_by_id (donors db') 1 = Some Sample.asha.
Proof.
  intros upd.
  destruct (DonorService.update_donor Sample.db 2 upd) as [res db'] eqn:E.
  assert (Hres : res = DonorService.Done
            (Some (Donor.Build 2 "Ravi Kumar" "A+" "Mumbai" "9876543211" None None))).
  { vm_compute in E. injection E as <- _. reflexivity. }
  subst res. exists db'. split; [ reflexivity | ].
  destruct (update_then_lookup Sample.db 2) as [H _].
  destruct (H upd _ db' E) as (_ & Hget & Hother & _).
  split; [ exact Hget | ]. rewrite (Hother 1) by lia. reflexivity.
Defined.

(** *** The life cycle of a request *)

Lemma fulfilled_set_fields (r : BloodRequest.t) :
  BloodRequestRepositoryFull.set_fields
    (BloodRequestRepositoryFull.MkUpdate None None None None None None (Some "Fulfilled")) r =
  fulfilled r.
Proof. reflexivity. Qed.

Lemma updated_row_origin
    (table : list BloodRequest.t) (id : Z) (u : BloodRequestRepositoryFull.BloodRequestUpdate)
    (r' : BloodRequest.t) :
  r' ∈ map (fun r => if BloodRequest.id r =? id
                     then BloodRequestRepositoryFull.set_fields u r else r) table ->
  exists r, r ∈ table /\ BloodRequest.id r = BloodRequest.id r' /\
            (r' = r /\ BloodRequest.id r <> id \/
             r' = BloodRequestRepositoryFull.set_fields u r /\ BloodRequest.id r = id).
Proof.
  intros H. apply list_elem_of_fmap in H as (r & -> & Hr). exists r.
  split; [ exact Hr | ].
  destruct (Z.eqb_spec (BloodRequest.id r) id) as [E | E].
  - split; [ reflexivity | right; split; [ reflexivity | exact E ] ].
  - split; [ reflexivity | left; split; [ reflexivity | exact E ] ].
Qed.

(** X24: fulfilling a stored request that is not yet fulfilled.
    [fulfill_blood_request] returns the request with status "Fulfilled" and
    stores it so; from then on the request has no matching donors, no donor is
    offered it among the active requests, a second [fulfill_blood_request]
    is refused with "Blood request is already fulfilled", and every update
    that would set its status back to "Active" is refused and changes
    nothing. *)
Theorem fulfil_closes_request
    (set_order : gset string -> list string) (db : store) (id : Z) (r : BloodRequest.t) :
  0 < id ->
  BloodRequestRepository.get_by_id (blood_requests db) id = Some r ->
  BloodRequest.status r <> "Fulfilled" ->
  let out := BloodRequestService.fulfill_blood_request db id in
  out.1 = BloodRequestService.Done (Some (fulfilled r)) /\
  BloodRequestRepository.get_by_id (blood_requests out.2) id = Some (fulfilled r) /\
  donors out.2 = donors db /\
  (forall cem limit, find_matching_donors_by_request_id set_order out.2 id cem limit = Ok []) /\
  (forall d cem limit l,
     find_requests_for_donor out.2 d cem true limit = Ok l ->
     Forall (fun m => ri_id (rm_request m) <> id) l) /\
  BloodRequestService.fulfill_blood_request out.2 id =
    (BloodRequestService.BloodRequestServiceError
       "Unexpected error: Blood request is already fulfilled", out.2) /\
  (forall upd,
     BloodRequestRepositoryFull.u_status upd = Some "Active" ->
     exists msg,
       BloodRequestService.update_blood_request out.2 id upd =
         (BloodRequestService.BloodRequestServiceError msg, out.2)).
Proof.
  intros Hid Hget Hstatus out.
  destruct (get_by_id_Some _ _ _ Hget) as [_ Hrid].
  assert (Hget' : BloodRequestRepository.get_by_id
            (map (fun x => if BloodRequest.id x =? id then fulfilled x else x)
               (blood_requests db)) id = Some (fulfilled r)).
  { pose proof (request_update_lookup (blood_requests db) id id
                  (BloodRequestRepositoryFull.MkUpdate None None None None None None
                     (Some "Fulfilled"))) as Hl.
    rewrite Hget in Hl. cbn [fmap option_fmap option_map] in Hl.
    replace (BloodRequest.id r =? id) with true in Hl by lia. exact Hl. }
  assert (Hout : out =
            (BloodRequestService.Done (Some (fulfilled r)),
             Store (donors db)
               (map (fun x => if BloodRequest.id x =? id then fulfilled x else x)
                  (blood_requests db)))).
  { subst out. unfold BloodRequestService.fulfill_blood_request.
    replace (id <=? 0) with false by lia. rewrite Hget.
    destruct (String.eqb_spec (BloodRequest.status r) "Fulfilled") as [E | _];
      [ contradiction | ].
    unfold BloodRequestRepositoryFull.fulfill_request, BloodRequestRepositoryFull.update.
    rewrite Hget. cbn [BloodRequestRepositoryFull.no_fields
                         BloodRequestRepositoryFull.u_patient_name
                         BloodRequestRepositoryFull.u_blood_group
                         BloodRequestRepositoryFull.u_city
                         BloodRequestRepositoryFull.u_urgency
                         BloodRequestRepositoryFull.u_hospital_name
                         BloodRequestRepositoryFull.u_contact_number
                         BloodRequestRepositoryFull.u_status fst snd].
    f_equal. f_equal. exact Hget'. }
  rewrite Hout. cbn [fst snd donors blood_requests].
  split; [ reflexivity | ]. split; [ exact Hget' | ]. split; [ reflexivity | ].
  split; [ | split; [ | split ] ].
  - intros cem limit. unfold find_matching_donors_by_request_id.
    replace (id <=? 0) with false by lia. cbn [blood_requests]. rewrite Hget'. reflexivity.
  - intros d cem limit l H. apply Forall_forall. intros m Hm.
    destruct (find_requests_for_donor_provenance _ _ _ _ _ _ _ H Hm) as (x & Hx & He & Hrec).
    apply create_request_match_info_Ok in Hrec as [_ ->]. cbn.
    unfold eligible_request in He. cbn in He.
    apply andb_true_iff in He as [He _]. apply andb_true_iff in He as [_ He].
    apply String.eqb_eq in He. cbn [blood_requests] in Hx.
    apply list_elem_of_fmap in Hx as (y & -> & _).
    destruct (Z.eqb_spec (BloodRequest.id y) id) as [E | E]; [ discriminate He | exact E ].
  - unfold BloodRequestService.fulfill_blood_request.
    replace (id <=? 0) with false by lia. cbn [blood_requests]. rewrite Hget'. reflexivity.
  - intros upd Hupd. unfold BloodRequestService.update_blood_request.
    replace (id <=? 0) with false by lia. cbn [blood_requests]. rewrite Hget'.
    unfold BloodRequestService._validate_blood_request_update. rewrite Hupd.
    cbn [fulfilled BloodRequest.status].
    destruct (BloodRequestRepositoryFull.u_city upd) as [c |];
      [ destruct (negb (truthy_str (PyStr.strip c))); [ eexists; reflexivity | ] | ];
      (destruct (BloodRequestRepositoryFull.u_patient_name upd) as [n |];
       [ destruct (negb (truthy_str (PyStr.strip n))); [ eexists; reflexivity | ] | ]);
      eexists; reflexivity.
Qed.

Lemma fulfil_closes_request_witness :
  let db' := (BloodRequestService.fulfill_blood_request Sample.db 1).2 in
  (BloodRequestService.fulfill_blood_request Sample.db 1).1 =
    BloodRequestService.Done (Some (fulfilled Sample.critical_a)) /\
  find_matching_donors_by_request_id elements db' 1 false None = Ok [] /\
  (exists l, find_matching_donors_by_request_id elements Sample.db 1 false None = Ok l /\
             length l = 2%nat).
Proof.
  intros db'.
  destruct (fulfil_closes_request elements Sample.db 1 Sample.critical_a)
    as (H1 & _ & _ & H2 & _); [ lia | reflexivity | discriminate | ].
  split; [ exact H1 | ]. split; [ apply H2 | ].
  eexists. split; [ vm_compute; reflexivity | reflexivity ].
Defined.

Lemma no_reactivation_refl (db : store) : no_reactivation db db.
Proof. intros r Hr Hs. exists r. auto. Qed.

Lemma set_fields_valid
    (u : BloodRequestRepositoryFull.BloodRequestUpdate) (r : BloodRequest.t) :
  BloodRequestRepositoryFull.update_valid u -> BloodRequest.valid r ->
  BloodRequest.valid (BloodRequestRepositoryFull.set_fields u r).
Proof.
  intros (Hg & Hu & Hs) (Vg & Vu & Vs).
  unfold BloodRequest.valid, BloodRequestRepositoryFull.set_fields. cbn.
  split; [ | split ].
  - destruct (BloodRequestRepositoryFull.u_blood_group u) as [g |]; [ | exact Vg ].
    apply bool_decide_eq_true_2, Hg. reflexivity.
  - destruct (BloodRequestRepositoryFull.u_urgency u) as [v |]; [ | exact Vu ].
    apply bool_decide_eq_true_2, Hu. reflexivity.
  - destruct (BloodRequestRepositoryFull.u_status u) as [s |]; [ | exact Vs ].
    apply bool_decide_eq_true_2, Hs. reflexivity.
Qed.

(** The effect of [UPDATE blood_requests SET ... WHERE id = ?] on the
    statuses, when the update sets "Active" only for an identifier that has
    an Active row. *)
Lemma update_rows_lifecycle
    (db : store) (id : Z) (u : BloodRequestRepositoryFull.BloodRequestUpdate) :
  requests_valid db -> BloodRequestRepositoryFull.update_valid u ->
  (BloodRequestRepositoryFull.u_status u = Some "Active" ->
   exists r, r ∈ blood_requests db /\ BloodRequest.id r = id /\
             BloodRequest.status r = "Active") ->
  let db' :=
    Store (donors db)
      (map (fun r => if BloodRequest.id r =? id
                     then BloodRequestRepositoryFull.set_fields u r else r)
         (blood_requests db)) in
  no_reactivation db db' /\ requests_valid db'.
Proof.
  intros Hvalid Hu Hactive db'. split.
  - intros r' Hr' Hs. cbn [db' blood_requests] in Hr'.
    apply updated_row_origin in Hr' as (r & Hr & Hid & [[-> _] | [-> E]]).
    + exists r. auto.
    + cbn in Hs. destruct (BloodRequestRepositoryFull.u_status u) as [s |] eqn:Es.
      * cbn in Hs. subst s. destruct (Hactive eq_refl) as (x & Hx & Hxid & Hxs).
        exists x. cbn. split; [ exact Hx | ]. split; [ lia | exact Hxs ].
      * exists r. cbn in *. auto.
  - unfold requests_valid. cbn [db' blood_requests]. apply Forall_forall. intros r' Hr'.
    unfold requests_valid in Hvalid. rewrite Forall_forall in Hvalid.
    apply updated_row_origin in Hr' as (r & Hr & _ & [[-> _] | [-> _]]).
    + apply Hvalid, Hr.
    + apply set_fields_valid; [ exact Hu | apply Hvalid, Hr ].
Qed.

Lemma valid_status_cases (r : BloodRequest.t) :
  BloodRequest.valid r ->
  BloodRequest.status r = "Active" \/ BloodRequest.status r = "Fulfilled".
Proof.
  intros (_ & _ & H). apply bool_decide_eq_true_1 in H.
  unfold valid_statuses in H. set_unfold. tauto.
Qed.

(** X25: "Fulfilled" is final.  On a table of validated requests, whatever
    the identifier and the update, after [update_blood_request],
    [fulfill_blood_request] and [delete_blood_request] a request is Active
    only if the request with its identifier was Active before, and the table
    still holds validated requests only. *)
Theorem fulfilled_is_final
    (db : store) (id : Z) (upd : BloodRequestRepositoryFull.BloodRequestUpdate) :
  requests_valid db ->
  BloodRequestRepositoryFull.update_valid upd ->
  Forall (fun db' => no_reactivation db db' /\ requests_valid db')
    [ (BloodRequestService.update_blood_request db id upd).2;
      (BloodRequestService.fulfill_blood_request db id).2;
      (BloodRequestService.delete_blood_request db id).2 ].
Proof.
  intros Hvalid Hupd.
  assert (Hsame : no_reactivation db db /\ requests_valid db)
    by (split; [ apply no_reactivation_refl | exact Hvalid ]).
  assert (Heta : forall t, t = blood_requests db ->
            no_reactivation db (Store (donors db) t) /\ requests_valid (Store (donors db) t)).
  { intros t ->. destruct db. exact Hsame. }
  repeat apply Forall_cons_2; [ | | | apply Forall_nil_2 ].
  - unfold BloodRequestService.update_blood_request.
    destruct (id <=? 0); [ exact Hsame | ].
    destruct (BloodRequestRepository.get_by_id (blood_requests db) id) as [r |] eqn:E;
      [ | exact Hsame ].
    destruct (BloodRequestService._validate_blood_request_update upd r) eqn:Ev;
      [ | exact Hsame ].
    unfold BloodRequestRepositoryFull.update. rewrite E.
    destruct (BloodRequestRepositoryFull.no_fields upd); cbn [fst snd];
      [ apply Heta; reflexivity | ].
    apply update_rows_lifecycle; [ exact Hvalid | exact Hupd | ].
    intros Hs. destruct (get_by_id_Some _ _ _ E) as [Hr Hid].
    exists r. split; [ exact Hr | ]. split; [ exact Hid | ].
    unfold requests_valid in Hvalid. rewrite Forall_forall in Hvalid.
    destruct (valid_status_cases r (Hvalid r Hr)) as [Ha | Hf]; [ exact Ha | ].
    unfold BloodRequestService._validate_blood_request_update in Ev.
    rewrite Hs, Hf in Ev. cbn [String.eqb] in Ev.
    destruct (BloodRequestRepositoryFull.u_city upd) as [c |];
      [ destruct (negb (truthy_str (PyStr.strip c))); [ discriminate Ev | ] | ];
      (destruct (BloodRequestRepositoryFull.u_patient_name upd) as [n |];
       [ destruct (negb (truthy_str (PyStr.strip n))); [ discriminate Ev | ] | ]);
      discriminate Ev.
  - unfold BloodRequestService.fulfill_blood_request.
    destruct (id <=? 0); [ exact Hsame | ].
    destruct (BloodRequestRepository.get_by_id (blood_requests db) id) as [r |] eqn:E;
      [ | exact Hsame ].
    destruct (String.eqb (BloodRequest.status r) "Fulfilled"); [ exact Hsame | ].
    unfold BloodRequestRepositoryFull.fulfill_request, BloodRequestRepositoryFull.update.
    rewrite E. cbn [BloodRequestRepositoryFull.no_fields
                      BloodRequestRepositoryFull.u_patient_name
                      BloodRequestRepositoryFull.u_blood_group
                      BloodRequestRepositoryFull.u_city
                      BloodRequestRepositoryFull.u_urgency
                      BloodRequestRepositoryFull.u_hospital_name
                      BloodRequestRepositoryFull.u_contact_number
                      BloodRequestRepositoryFull.u_status fst snd].
    apply update_rows_lifecycle; [ exact Hvalid | | discriminate ].
    split; [ discriminate | ]. split; [ discriminate | ].
    intros s Hs. injection Hs as <-. unfold valid_statuses. set_solver.
  - unfold BloodRequestService.delete_blood_request.
    destruct (id <=? 0); [ exact Hsame | ].
    destruct (BloodRequestRepository.get_by_id (blood_requests db) id) as [r |];
      [ | exact Hsame ].
    unfold BloodRequestRepositoryFull.delete. cbn [fst snd]. split.
    + intros r' Hr' Hs. cbn [blood_requests] in Hr'.
      apply list_elem_of_In, filter_In in Hr' as [Hr' _].
      exists r'. split; [ apply list_elem_of_In, Hr' | auto ].
    + unfold requests_valid. cbn [blood_requests]. apply Forall_List_filter, Hvalid.
Qed.

Lemma fulfilled_is_final_witness :
  let reopen :=
    BloodRequestRepositoryFull.MkUpdate None None None None None None (Some "Active") in
  no_reactivation Sample.db (BloodRequestService.update_blood_request Sample.db 2 reopen).2 /\
  (BloodRequestService.update_blood_request Sample.db 2 reopen).1 =
    BloodRequestService.BloodRequestServiceError
      "Unexpected error: Cannot reactivate a fulfilled blood request".
Proof.
  intros reopen. split; [ | reflexivity ].
  assert (H := fulfilled_is_final Sample.db 2 reopen).
  rewrite Forall_cons in H. apply H.
  - apply sample_store_checked.
  - split; [ discriminate | ]. split; [ discriminate | ].
    intros s Hs. injection Hs as <-. decide_by_compute.
Defined.

(** *** Contact numbers *)

Lemma update_keeps_contacts
    (table : list Donor.t) (id : Z) (u : DonorRepositoryFull.DonorUpdate) :
  DonorRepositoryFull.u_contact_number u = None ->
  map Donor.contact_number
    (map (fun d => if Donor.id d =? id then DonorRepositoryFull.set_fields u d else d) table) =
  map Donor.contact_number table.
Proof.
  intros Hu. rewrite map_map. apply map_ext. intros d.
  destruct (Donor.id d =? id); [ | reflexivity ]. cbn. rewrite Hu. reflexivity.
Qed.

Lemma update_contact_NoDup
    (table : list Donor.t) (id : Z) (u : DonorRepositoryFull.DonorUpdate) (cn : string) :
  NoDup (map Donor.id table) ->
  NoDup (map Donor.contact_number table) ->
  DonorRepositoryFull.u_contact_number u = Some cn ->
  DonorService.contact_taken table cn id = false ->
  NoDup (map Donor.contact_number
           (map (fun d => if Donor.id d =? id
                          then DonorRepositoryFull.set_fields u d else d) table)).
Proof.
  intros Hids Hcs Hu. unfold DonorService.contact_taken.
  induction table as [| d l IH]; intros Htaken; cbn; [ constructor | ].
  cbn in Htaken, Hids, Hcs.
  apply orb_false_iff in Htaken as [Hd Hl].
  apply NoDup_cons in Hids as [Hid Hids]. apply NoDup_cons in Hcs as [Hc Hcs].
  specialize (IH Hids Hcs Hl).
  assert (Hothers : forall x, x ∈ l ->
            (String.eqb (Donor.contact_number x) cn && negb (Donor.id x =? id)) = false).
  { intros x Hx. rewrite <- not_true_iff_false. intros Ht.
    rewrite <- not_true_iff_false in Hl. apply Hl, existsb_exists.
    exists x. split; [ apply list_elem_of_In, Hx | exact Ht ]. }
  apply NoDup_cons. split; [ | exact IH ].
  rewrite list_elem_of_fmap. intros (y & Hy & Hyin).
  apply list_elem_of_fmap in Hyin as (x & -> & Hx).
  specialize (Hothers x Hx).
  destruct (Z.eqb_spec (Donor.id d) id) as [Ed | Ed].
  - cbn in Hy. rewrite Hu in Hy. cbn in Hy.
    destruct (Z.eqb_spec (Donor.id x) id) as [Ex | Ex].
    + apply Hid, list_elem_of_fmap. exists x. split; [ congruence | exact Hx ].
    + cbn in Hothers. rewrite andb_true_r in Hothers.
      apply String.eqb_neq in Hothers. congruence.
  - cbn in Hd. rewrite andb_true_r in Hd. apply String.eqb_neq in Hd.
    destruct (Z.eqb_spec (Donor.id x) id) as [Ex | Ex].
    + cbn in Hy. rewrite Hu in Hy. cbn in Hy. congruence.
    + apply Hc, list_elem_of_fmap. exists x. split; [ exact Hy | exact Hx ].
Qed.

(** X26: contact numbers stay unique.  On a table whose identifiers and
    contact numbers are unique, the table left by [update_donor] (for an
    update whose contact number, if given, is not empty), by [delete_donor]
    and by [create_donor] again has unique contact numbers. *)
Theorem contacts_stay_unique
    (db : store) (id : Z) (upd : DonorRepositoryFull.DonorUpdate)
    (donor_data : DonorRepositoryFull.DonorCreate) (now : string) (lastrowid : Z) :
  donor_keys_unique db ->
  contacts_unique db ->
  DonorRepositoryFull.u_contact_number upd <> Some "" ->
  Forall contacts_unique
    [ (DonorService.update_donor db id upd).2;
      (DonorService.delete_donor db id).2;
      (DonorService.create_donor db donor_data now lastrowid).2 ].
Proof.
  intros Hids Hcs Hcn. unfold donor_keys_unique in Hids. unfold contacts_unique in *.
  repeat apply Forall_cons_2; [ | | | apply Forall_nil_2 ].
  - unfold DonorService.update_donor.
    destruct (id <=? 0); [ exact Hcs | ].
    destruct (DonorRepository.get_by_id (donors db) id) as [d |] eqn:E; [ | exact Hcs ].
    destruct (DonorService._validate_donor_update upd d); [ | exact Hcs ].
    destruct (DonorRepositoryFull.u_contact_number upd) as [cn |] eqn:Eu.
    + destruct cn as [| c cn]; [ contradiction | ]. cbn [truthy_str andb].
      assert (Eall : DonorRepositoryFull.get_all (donors db) DonorRepositoryFull.no_filter =
                     donors db).
      { unfold DonorRepositoryFull.get_all, DonorRepositoryFull.where_,
          DonorRepository.where_, DonorRepository.cond. cbn. apply List_filter_true. }
      rewrite Eall.
      destruct (DonorService.contact_taken (donors db) (String c cn) id) eqn:Et;
        [ exact Hcs | ].
      unfold DonorRepositoryFull.update. rewrite E.
      destruct (DonorRepositoryFull.no_fields upd); cbn [fst snd donors]; [ exact Hcs | ].
      apply (update_contact_NoDup _ _ _ _ Hids Hcs Eu Et).
    + unfold DonorRepositoryFull.update. rewrite E.
      destruct (DonorRepositoryFull.no_fields upd); cbn [fst snd donors]; [ exact Hcs | ].
      rewrite (update_keeps_contacts _ _ _ Eu). exact Hcs.
  - unfold DonorService.delete_donor.
    destruct (id <=? 0); [ exact Hcs | ].
    destruct (DonorRepository.get_by_id (donors db) id) as [d |]; [ | exact Hcs ].
    unfold DonorRepositoryFull.delete. cbn [fst snd donors].
    apply NoDup_map_filter, Hcs.
  - unfold DonorService.create_donor.
    destruct (DonorService._validate_donor_creation donor_data); [ | exact Hcs ].
    assert (E : DonorRepositoryFull.get_all (donors db)
                  (DonorRepositoryFull.Filters None None None None
                     (Some (DonorRepositoryFull.c_contact_number donor_data))) = donors db).
    { unfold DonorRepositoryFull.get_all, DonorRepositoryFull.where_,
        DonorRepository.where_, DonorRepository.cond. cbn. apply List_filter_true. }
    rewrite E. destruct (donors db) as [| d ds] eqn:Ed;
      [ | cbn [snd donors]; rewrite Ed; exact Hcs ].
    cbn. apply NoDup_singleton.
Qed.

Lemma contacts_stay_unique_witness :
  let upd := DonorRepositoryFull.MkUpdate None None None (Some "9876543299") None in
  map Donor.contact_number (donors (DonorService.update_donor Sample.db 2 upd).2) =
    [ "9876543210"; "9876543299"; "9876543212" ] /\
  contacts_unique (DonorService.update_donor Sample.db 2 upd).2 /\
  (DonorService.update_donor Sample.db 2
     (DonorRepositoryFull.MkUpdate None None None (Some "9876543210") None)).1 =
    DonorService.DonorServiceError
      "Unexpected error: Another donor with contact number 9876543210 already exists".
Proof.
  intros upd. split; [ reflexivity | ]. split; [ | reflexivity ].
  assert (H := contacts_stay_unique Sample.db 2 upd
                 (DonorRepositoryFull.MkCreate "Nila Bose" "B-" "Kochi" "9000000001" None)
                 "2024-02-01 09:00:00" 4).
  rewrite Forall_cons in H. apply H.
  - unfold donor_keys_unique. decide_by_compute.
  - unfold contacts_unique. decide_by_compute.
  - discriminate.
Defined.

(** *** The statistics of the donors *)

Lemma foldl_insert_lookup {V} (f : string -> V) (keys : list string) (acc : gmap string V)
    (k : string) :
  foldl (fun stats key => <[ key := f key ]> stats) acc keys !! k =
    if bool_decide (k ∈ keys) then Some (f k) else acc !! k.
Proof.
  revert acc. induction keys as [| key keys IH]; intros acc; cbn [foldl].
  - rewrite bool_decide_eq_false_2 by apply not_elem_of_nil. reflexivity.
  - rewrite IH. destruct (decide (k ∈ keys)) as [Hin | Hnin].
    + rewrite !bool_decide_eq_true_2; [ reflexivity | apply list_elem_of_further, Hin | exact Hin ].
    + rewrite (bool_decide_eq_false_2 _ Hnin).
      destruct (decide (k = key)) as [-> | Hne].
      * rewrite lookup_insert_eq, bool_decide_eq_true_2 by apply list_elem_of_here.
        reflexivity.
      * rewrite lookup_insert_ne by congruence.
        rewrite bool_decide_eq_false_2; [ reflexivity | ].
        rewrite elem_of_cons. tauto.
Qed.

Lemma count_cities_lookup (cities : list string) (acc : gmap string Z) (c : string) :
  foldl (fun city_stats city => <[ city := default 0 (city_stats !! city) + 1 ]> city_stats)
    acc cities !! c =
    let n := count_where (String.eqb c) cities in
    if n =? 0 then acc !! c else Some (default 0 (acc !! c) + n).
Proof.
  revert acc. induction cities as [| city cities IH]; intros acc; cbn [foldl].
  - reflexivity.
  - rewrite IH. unfold count_where. cbn [List.filter]. cbv zeta.
    destruct (String.eqb_spec c city) as [<- | Hne].
    + rewrite lookup_insert_eq. cbn [length default].
      set (m := length (List.filter (String.eqb c) cities)). clearbody m.
      destruct (Z.eqb_spec (Z.of_nat (S m)) 0) as [E | _]; [ lia | ].
      destruct (Z.eqb_spec (Z.of_nat m) 0) as [E | E]; f_equal;
        unfold id; destruct (acc !! c); cbn [default from_option id]; lia.
    + rewrite lookup_insert_ne by congruence. reflexivity.
Qed.

Lemma count_where_map {A B} (f : A -> B) (p : B -> bool) (l : list A) :
  count_where p (map f l) = count_where (fun x => p (f x)) l.
Proof.
  unfold count_where. f_equal.
  induction l as [| x l IH]; cbn; [ reflexivity | ].
  destruct (p (f x)); cbn; rewrite IH; reflexivity.
Qed.

Lemma count_where_ext {A} (p q : A -> bool) (l : list A) :
  (forall x, p x = q x) -> count_where p l = count_where q l.
Proof.
  intros H. unfold count_where. f_equal. f_equal. apply List_filter_ext_in. auto.
Qed.

Lemma count_donors_of_group (table : list Donor.t) (g : string) :
  g ∈ valid_blood_groups ->
  DonorRepositoryFull.count_donors table
    (DonorRepositoryFull.Filters (Some g) None None None None) =
  count_where (fun d => String.eqb (Donor.blood_group d) g) table.
Proof.
  intros Hg. unfold DonorRepositoryFull.count_donors, count_where. f_equal. f_equal.
  apply List_filter_ext_in. intros d _.
  unfold DonorRepositoryFull.where_, DonorRepository.where_, DonorRepository.cond. cbn.
  rewrite (valid_blood_group_truthy g Hg), andb_true_r. apply bool_decide_eqb.
Qed.

(** X27: what [get_donor_statistics] reports.  [total_donors] is the number
    of rows; [blood_group_distribution] has exactly the eight groups as keys,
    each with the number of donors of that group; [city_distribution] has
    exactly the city spellings that occur as keys, each with the number of
    donors whose city is spelt so (so "Delhi" and "delhi" are two keys); and
    when the donors passed the validator the eight group counts add up to
    [total_donors]. *)
Theorem donor_statistics_counts
    (set_order : gset string -> list string) (db : store) (now : string) :
  set_iteration set_order ->
  exists s,
    DonorService.get_donor_statistics set_order db now = DonorService.Done s /\
    DonorService.ds_total_donors s = Z.of_nat (length (donors db)) /\
    (forall g,
       DonorService.ds_blood_group_distribution s !! g =
         if bool_decide (g ∈ valid_blood_groups)
         then Some (count_where (fun d => String.eqb (Donor.blood_group d) g) (donors db))
         else None) /\
    (forall c,
       DonorService.ds_city_distribution s !! c =
         let n := count_where (fun d => String.eqb (Donor.city d) c) (donors db) in
         if n =? 0 then None else Some n) /\
    (donors_valid db ->
     sum_over (fun g => default 0 (DonorService.ds_blood_group_distribution s !! g))
       canonical_groups = DonorService.ds_total_donors s).
Proof.
  intros Hiter. eexists. split; [ reflexivity | ].
  cbn [DonorService.ds_total_donors DonorService.ds_blood_group_distribution
         DonorService.ds_city_distribution].
  assert (Eall : DonorRepositoryFull.get_all (donors db) DonorRepositoryFull.no_filter =
                 donors db).
  { unfold DonorRepositoryFull.get_all, DonorRepositoryFull.where_,
      DonorRepository.where_, DonorRepository.cond. cbn. apply List_filter_true. }
  assert (Etotal : DonorRepositoryFull.count_donors (donors db) DonorRepositoryFull.no_filter =
                   Z.of_nat (length (donors db))).
  { unfold DonorRepositoryFull.count_donors, DonorRepositoryFull.where_,
      DonorRepository.where_, DonorRepository.cond. cbn. rewrite List_filter_true.
    reflexivity. }
  assert (Hgroups : forall g,
            foldl (fun stats blood_group =>
                     <[ blood_group :=
                          DonorRepositoryFull.count_donors (donors db)
                            (DonorRepositoryFull.Filters (Some blood_group) None None None None) ]>
                       stats)
              (∅ : gmap string Z) (set_order valid_blood_groups) !! g =
            if bool_decide (g ∈ valid_blood_groups)
            then Some (count_where (fun d => String.eqb (Donor.blood_group d) g) (donors db))
            else None).
  { intros g.
    rewrite (foldl_insert_lookup
               (fun blood_group =>
                  DonorRepositoryFull.count_donors (donors db)
                    (DonorRepositoryFull.Filters (Some blood_group) None None None None))).
    rewrite lookup_empty.
    destruct (decide (g ∈ valid_blood_groups)) as [Hg | Hg].
    - rewrite !bool_decide_eq_true_2;
        [ | exact Hg | rewrite (Hiter _); apply elem_of_elements, Hg ].
      f_equal. apply count_donors_of_group, Hg.
    - rewrite !bool_decide_eq_false_2; [ reflexivity | exact Hg | ].
      rewrite (Hiter _), elem_of_elements. exact Hg. }
  split; [ exact Etotal | ]. split; [ exact Hgroups | ]. split.
  - intros c. unfold DonorService.count_cities. rewrite Eall, count_cities_lookup.
    rewrite lookup_empty, count_where_map. cbn zeta. cbn [default].
    rewrite (count_where_ext (fun x => String.eqb c (Donor.city x))
               (fun d => String.eqb (Donor.city d) c)) by (intros; apply String.eqb_sym).
    destruct (_ =? 0); reflexivity.
  - intros Hvalid. rewrite Etotal, <- count_where_true.
    rewrite <- (count_partition Donor.blood_group (fun _ => true) canonical_groups (donors db)).
    + apply sum_over_ext. intros g Hg. rewrite Hgroups.
      rewrite bool_decide_eq_true_2 by (apply canonical_groups_valid, Hg).
      cbn [default]. rewrite count_where_true. reflexivity.
    + decide_by_compute.
    + unfold donors_valid in Hvalid. eapply Forall_impl; [ exact Hvalid | ].
      intros d Hd. apply canonical_groups_valid.
      apply bool_decide_eq_true_1 in Hd. exact Hd.
Qed.

Lemma donor_statistics_counts_witness :
  exists s,
    DonorService.get_donor_statistics elements Sample.db "2024-02-01T09:00:00" =
      DonorService.Done s /\
    DonorService.ds_city_distribution s !! "Delhi" = Some 1 /\
    DonorService.ds_city_distribution s !! "delhi" = Some 1 /\
    DonorService.ds_city_distribution s !! "Kochi" = None /\
    DonorService.ds_blood_group_distribution s !! "B-" = Some 0.
Proof.
  destruct (donor_statistics_counts elements Sample.db "2024-02-01T09:00:00")
    as (s & Hs & _ & Hg & Hc & _); [ intros X; reflexivity | ].
  exists s. split; [ exact Hs | ].
  rewrite !Hc, Hg. repeat split; reflexivity.
Defined.

(** *** Creating a request *)

Lemma request_insert_row_perm (row : BloodRequest.t) (table : list BloodRequest.t) :
  BloodRequestRepositoryFull.insert_row row table ≡ₚ row :: table.
Proof.
  induction table as [| r rest IH]; cbn; [ reflexivity | ].
  destruct (later _ _); [ reflexivity | ].
  rewrite IH. apply Permutation_swap.
Qed.

Lemma request_insert_row_lookup
    (row : BloodRequest.t) (table : list BloodRequest.t) (j : Z) :
  Forall (fun r => BloodRequest.id r <> BloodRequest.id row) table ->
  BloodRequestRepository.get_by_id (BloodRequestRepositoryFull.insert_row row table) j =
    if j =? BloodRequest.id row then Some row else BloodRequestRepository.get_by_id table j.
Proof.
  unfold BloodRequestRepository.get_by_id.
  induction table as [| r rest IH]; intros Hfresh; cbn.
  - rewrite (Z.eqb_sym j). destruct (_ =? _); reflexivity.
  - apply Forall_cons in Hfresh as [Hr Hrest]. specialize (IH Hrest).
    destruct (later _ _); cbn.
    + rewrite (Z.eqb_sym j). destruct (BloodRequest.id row =? j); reflexivity.
    + rewrite IH. destruct (Z.eqb_spec (BloodRequest.id r) j) as [E | E]; [ | reflexivity ].
      replace (j =? BloodRequest.id row) with false by lia. reflexivity.
Qed.

(** X28: creating a request.  With a city and a patient name that are ASCII
    text and not blank, and a key that the database has not used,
    [create_blood_request]
    returns a request with that key, the submitted fields and status
    "Active", and adds it to the table: a lookup of the key returns it, it is
    among the active requests, every other lookup and the donors are as
    before.  With a blank city or patient name nothing is stored. *)
Theorem create_request_then_lookup
    (db : store) (request_data : BloodRequestRepositoryFull.BloodRequestCreate)
    (now : string) (lastrowid : Z) :
  (ascii_text (BloodRequestRepositoryFull.c_city request_data) = true ->
   ascii_text (BloodRequestRepositoryFull.c_patient_name request_data) = true ->
   truthy_str (PyStr.strip (BloodRequestRepositoryFull.c_city request_data)) = true ->
   truthy_str (PyStr.strip (BloodRequestRepositoryFull.c_patient_name request_data)) = true ->
   0 < lastrowid <= sqlite_max_int ->
   Forall (fun r => BloodRequest.id r <> lastrowid) (blood_requests db) ->
   exists row db',
     BloodRequestService.create_blood_request db request_data now lastrowid =
       (BloodRequestService.Done row, db') /\
     BloodRequest.id row = lastrowid /\
     BloodRequest.status row = "Active" /\
     BloodRequest.blood_group row = BloodRequestRepositoryFull.c_blood_group request_data /\
     BloodRequest.city row = BloodRequestRepositoryFull.c_city request_data /\
     BloodRequest.urgency row = BloodRequestRepositoryFull.c_urgency request_data /\
     BloodRequestService.get_blood_request_by_id db' lastrowid =
       BloodRequestService.Done (Some row) /\
     (forall j, j <> lastrowid ->
        BloodRequestRepository.get_by_id (blood_requests db') j =
          BloodRequestRepository.get_by_id (blood_requests db) j) /\
     blood_requests db' ≡ₚ row :: blood_requests db /\
     (exists active,
        BloodRequestService.get_active_blood_requests db' = BloodRequestService.Done active /\
        row ∈ active) /\
     donors db' = donors db) /\
  (truthy_str (PyStr.strip (BloodRequestRepositoryFull.c_city request_data)) = false \/
   truthy_str (PyStr.strip (BloodRequestRepositoryFull.c_patient_name request_data)) = false ->
   exists msg,
     BloodRequestService.create_blood_request db request_data now lastrowid =
       (BloodRequestService.BloodRequestServiceError msg, db)).
Proof.
  unfold BloodRequestService.create_blood_request,
    BloodRequestService._validate_blood_request_creation.
  split.
  - intros _ _ -> -> Hpos Hfresh. cbn [negb].
    unfold BloodRequestRepositoryFull.create. cbn [fst snd].
    eexists. eexists. split; [ reflexivity | ].
    cbn [BloodRequest.id BloodRequest.status BloodRequest.blood_group BloodRequest.city
           BloodRequest.urgency blood_requests donors].
    repeat (split; [ reflexivity | ]).
    split; [ | split; [ | split; [ | split; [ | reflexivity ] ] ] ].
    + unfold BloodRequestService.get_blood_request_by_id.
      replace (lastrowid <=? 0) with false by lia. cbn [blood_requests].
      rewrite request_insert_row_lookup by exact Hfresh.
      cbn [BloodRequest.id]. rewrite Z.eqb_refl. reflexivity.
    + intros j Hj. rewrite request_insert_row_lookup by exact Hfresh.
      cbn [BloodRequest.id]. replace (j =? lastrowid) with false by lia. reflexivity.
    + apply request_insert_row_perm.
    + eexists. split; [ reflexivity | ].
      unfold BloodRequestRepository.get_active_requests, BloodRequestRepository.get_all.
      apply list_elem_of_In, filter_In. split.
      * apply list_elem_of_In. cbn [blood_requests]. rewrite request_insert_row_perm.
        apply list_elem_of_here.
      * reflexivity.
  - intros [-> | Hname]; cbn [negb]; [ eexists; reflexivity | ].
    rewrite Hname. destruct (negb _); eexists; reflexivity.
Qed.

Lemma create_request_then_lookup_witness :
  let data :=
    BloodRequestRepositoryFull.MkCreate "Rita Paul" "O-" "Delhi" "High" None "9000000002" in
  let row :=
    BloodRequest.Build 5 "Rita Paul" "O-" "Delhi" "High" None "9000000002" "Active"
      (Some "2024-02-01 09:00:00") in
  exists db',
    BloodRequestService.create_blood_request Sample.db data "2024-02-01 09:00:00" 5 =
      (BloodRequestService.Done row, db') /\
    BloodRequestService.get_blood_request_by_id db' 5 = BloodRequestService.Done (Some row) /\
    map BloodRequest.id (blood_requests db') = [ 5; 1; 2; 3; 4 ].
Proof.
  intros data row.
  destruct (create_request_then_lookup Sample.db data "2024-02-01 09:00:00" 5) as [H _].
  destruct H as (row' & db' & E & _ & _ & _ & _ & _ & Hget & _).
  - reflexivity.
  - reflexivity.
  - reflexivity.
  - reflexivity.
  - unfold sqlite_max_int. lia.
  - repeat (constructor; [ discriminate | ]). constructor.
  - exists db'. vm_compute in E. injection E as <- <-.
    split; [ reflexivity | ]. split; [ exact Hget | reflexivity ].
Defined.

(** *** The searches of the donor service *)

Lemma lower_truthy (s : string) : truthy_str (lower s) = truthy_str s.
Proof. destruct s; reflexivity. Qed.

(** X29: the three searches of the donor service agree.  For one of the
    eight groups and a city of ASCII text that is not blank, the donors found
    by group and
    city are those found by group whose city is the queried one, and those
    found by city whose group is the queried one, in the same order; the city
    is compared without regard to ASCII case and to blanks around the query,
    so two queries that differ only in these find the same donors.  A group
    outside the eight is refused. *)
Theorem donor_searches_agree
    (set_order : gset string -> list string) (db : store) (g c : string) :
  (g ∈ valid_blood_groups ->
   ascii_text c = true ->
   truthy_str (PyStr.strip c) = true ->
   exists by_group by_city both,
     DonorService.search_donors_by_blood_group set_order db g = DonorService.Done by_group /\
     DonorService.search_donors_by_city db c = DonorService.Done by_city /\
     DonorService.search_donors_by_blood_group_and_city set_order db g c =
       DonorService.Done both /\
     by_group = List.filter (fun d => String.eqb (Donor.blood_group d) g) (donors db) /\
     both = List.filter
              (fun d => String.eqb (lower (Donor.city d)) (lower (PyStr.strip c))) by_group /\
     both = List.filter (fun d => String.eqb (Donor.blood_group d) g) by_city /\
     (forall c', ascii_text c' = true ->
                 lower (PyStr.strip c') = lower (PyStr.strip c) ->
                 DonorService.search_donors_by_city db c' = DonorService.Done by_city)) /\
  (g ∉ valid_blood_groups ->
   DonorService.search_donors_by_blood_group set_order db g =
     DonorService.DonorServiceError
       ("Unexpected error: " ++ DonorService.invalid_blood_group_message set_order) /\
   DonorService.search_donors_by_blood_group_and_city set_order db g c =
     DonorService.DonorServiceError
       ("Unexpected error: " ++ DonorService.invalid_blood_group_message set_order)).
Proof.
  split.
  - intros Hg _ Hc.
    assert (Hc0 : truthy_str c = true).
    { destruct c; [ discriminate Hc | reflexivity ]. }
    pose proof (valid_blood_group_truthy g Hg) as Hgt.
    unfold DonorService.search_donors_by_blood_group, DonorService.search_donors_by_city,
      DonorService.search_donors_by_blood_group_and_city.
    rewrite (bool_decide_eq_true_2 _ Hg), Hc, Hc0. cbn [negb orb DonorService.unexpected].
    eexists. eexists. eexists.
    split; [ reflexivity | ]. split; [ reflexivity | ]. split; [ reflexivity | ].
    unfold DonorRepository.search_by_blood_group,
      DonorRepository.search_by_blood_group_and_city, DonorRepositoryFull.search_by_city,
      DonorRepositoryFull.get_all, DonorRepository.get_all, DonorRepositoryFull.where_,
      DonorRepository.where_, DonorRepository.cond.
    cbn [DonorRepository.f_blood_group DonorRepository.f_city
           DonorRepositoryFull.f_blood_group DonorRepositoryFull.f_city
           DonorRepositoryFull.f_limit DonorRepositoryFull.f_offset limit_offset].
    rewrite Hgt, Hc.
    split; [ | split; [ | split ] ].
    + apply List_filter_ext_in. intros d _. rewrite andb_true_r. apply bool_decide_eqb.
    + rewrite List_filter_filter. apply List_filter_ext_in. intros d _.
      rewrite !bool_decide_eqb, andb_true_r. reflexivity.
    + rewrite List_filter_filter. apply List_filter_ext_in. intros d _.
      rewrite !bool_decide_eqb. cbn [andb]. apply andb_comm.
    + intros c' _ Hc'.
      assert (Hc't : truthy_str (PyStr.strip c') = true).
      { rewrite <- lower_truthy, Hc', lower_truthy. exact Hc. }
      assert (Hc'0 : truthy_str c' = true).
      { destruct c'; [ discriminate Hc't | reflexivity ]. }
      rewrite Hc't, Hc'0. cbn [negb orb DonorService.unexpected]. f_equal.
      apply List_filter_ext_in. intros d _. rewrite Hc'. reflexivity.
  - intros Hg.
    unfold DonorService.search_donors_by_blood_group,
      DonorService.search_donors_by_blood_group_and_city.
    rewrite (bool_decide_eq_false_2 _ Hg). split; reflexivity.
Qed.

Lemma donor_searches_agree_witness :
  DonorService.search_donors_by_city Sample.db "  DELHI " =
    DonorService.Done [ Sample.asha; Sample.meera ] /\
  DonorService.search_donors_by_city Sample.db "delhi" =
    DonorService.Done [ Sample.asha; Sample.meera ] /\
  DonorService.search_donors_by_blood_group_and_city elements Sample.db "AB+" "  DELHI " =
    DonorService.Done [ Sample.meera ].
Proof.
  destruct (donor_searches_agree elements Sample.db "AB+" "  DELHI ") as [H _].
  destruct H as (by_group & by_city & both & _ & Hcity & Hboth & _ & _ & Hf & Hsame);
    [ decide_by_compute | reflexivity | reflexivity | ].
  assert (E : by_city = [ Sample.asha; Sample.meera ]).
  { vm_compute in Hcity. injection Hcity as <-. reflexivity. }
  subst by_city. split; [ exact Hcity | ]. split; [ apply Hsame; reflexivity | ].
  rewrite Hboth, Hf. reflexivity.
Defined.
